(** * Service tracking backend (backend/server.py)

    A shallow embedding of the FastAPI handlers of [backend/server.py] and of
    the part of the document store they use, followed by the properties of
    the handlers.

    Modelling conventions.
    - A Python [dict] (a request body after [.dict()], a stored document, a
      query, a [$set] document) is an association list with unique keys in
      insertion order.
    - The collection [db.services] is the list of its documents in storage
      order; [insert_one] appends, [find_one] and [update_one] act on the
      first match.  The [_id] the store adds to a document is never read by
      the handlers and is left out.
    - Exceptions are values of [exn]; a handler returns a [result].
    - [uuid.uuid4()] and [datetime.utcnow()] are inputs of the handlers.
    - A request to a protected route carries its [Authorization] header, or
      none; FastAPI's bearer scheme, the dependency of [verify_token], is
      modelled with the answers it gives on that header.
    - The arithmetic and the formatting of binary64 numbers, [strftime] and
      the two document writers (pandas/openpyxl, reportlab) are parameters of
      the development. *)

From Stdlib Require Import List String Ascii ZArith Lia Bool Arith PeanoNat Permutation.
From Stdlib Require Import DecimalString.
Import ListNotations.

Local Open Scope string_scope.
Local Open Scope list_scope.

(** ** Calendar values *)

Record date := mkdate { year : Z; month : Z; day : Z }.

Record time := mktime { hour : Z; minute : Z; second : Z; microsecond : Z }.

Record datetime := mkdatetime { dt_date : date; dt_time : time }.

(** [datetime.min.time()] *)
Definition datetime_min_time : time := mktime 0 0 0 0.

(** [datetime.combine(d, t)] *)
Definition datetime_combine (d : date) (t : time) : datetime := mkdatetime d t.

Definition Z4_eqb (a b c d a' b' c' d' : Z) : bool :=
  Z.eqb a a' && Z.eqb b b' && Z.eqb c c' && Z.eqb d d'.

Definition time_eqb (s t : time) : bool :=
  Z4_eqb (hour s) (minute s) (second s) (microsecond s)
         (hour t) (minute t) (second t) (microsecond t).

Definition date_eqb (d e : date) : bool :=
  Z.eqb (year d) (year e) && Z.eqb (month d) (month e) && Z.eqb (day d) (day e).

Definition datetime_eqb (s t : datetime) : bool :=
  date_eqb (dt_date s) (dt_date t) && time_eqb (dt_time s) (dt_time t).

(** ** Exceptions *)

Inductive exn :=
| HTTPException (status_code : nat) (detail : string)
| ValidationError (loc : string)
| KeyError (key : string)
| AttributeError (msg : string)
| ValueError (msg : string)
| TypeError (msg : string)
| LibraryError (msg : string).

Inductive result (A : Type) :=
| Ok (a : A)
| Raise (e : exn).

Arguments Ok {A} a.
Arguments Raise {A} e.

Definition bind {A B : Type} (c : result A) (k : A -> result B) : result B :=
  match c with
  | Ok a => k a
  | Raise e => Raise e
  end.

Declare Scope result_scope.
Delimit Scope result_scope with result.
Notation "x <- c ;; k" := (bind c (fun x => k))
  (at level 61, c at next level, right associativity) : result_scope.
Local Open Scope result_scope.

Definition string_of_nat (n : nat) : string :=
  NilEmpty.string_of_uint (Nat.to_uint n).

(** [str(e)]: the message of an exception.  For [ValidationError] the text
    is the location of the first offending field. *)
Definition str_exn (e : exn) : string :=
  match e with
  | HTTPException c d => string_of_nat c ++ ": " ++ d
  | ValidationError loc => loc
  | KeyError k => "'" ++ k ++ "'"
  | AttributeError m => m
  | ValueError m => m
  | TypeError m => m
  | LibraryError m => m
  end.

Fixpoint mapM {A B : Type} (f : A -> result B) (l : list A) : result (list B) :=
  match l with
  | [] => Ok []
  | a :: r => b <- f a ;; bs <- mapM f r ;; Ok (b :: bs)
  end.

(** ** Authentication (needs no part of the store) *)

Record UserLogin := mkUserLogin { email : string; password : string }.

Record LoginResponse := mkLoginResponse { token : string; message : string }.

(** *** The security scheme [security = HTTPBearer()]

    The dependency of [verify_token] is FastAPI's bearer scheme with its
    default [auto_error=True].  It reads the [Authorization] header of the
    request, [None] when the request has none, as a text of one character
    per byte, and refuses the request itself, with status 403, when the
    header is missing or empty, has no credentials after the scheme, or
    names another scheme than Bearer. *)

Record HTTPAuthorizationCredentials := mkCredentials {
  scheme : string;
  credentials : string
}.

(** [s.partition(" ")]: the text before the first space and the text after
    it; the whole text and nothing when it has no space. *)
Fixpoint partition_space (s : string) : string * string :=
  match s with
  | EmptyString => ("", "")
  | String c rest =>
      if Ascii.eqb c " " then ("", rest)
      else let (before, param) := partition_space rest in (String c before, param)
  end.

Definition get_authorization_scheme_param (authorization_header_value : option string)
    : string * string :=
  match authorization_header_value with
  | None => ("", "")
  | Some v => if String.eqb v "" then ("", "") else partition_space v
  end.

(** [c.lower()] for a character of a header: the capital letters of ASCII
    and of Latin-1 have their small letter 32 places further. *)
Definition lower_char (c : ascii) : ascii :=
  let n := nat_of_ascii c in
  if ((65 <=? n) && (n <=? 90) || (192 <=? n) && (n <=? 222) && negb (n =? 215))%nat
  then ascii_of_nat (n + 32)
  else c.

Fixpoint lower (s : string) : string :=
  match s with
  | EmptyString => EmptyString
  | String c rest => String (lower_char c) (lower rest)
  end.

Definition security (authorization : option string)
    : result HTTPAuthorizationCredentials :=
  let (scheme, credentials) := get_authorization_scheme_param authorization in
  let given :=
    match authorization with
    | None => false
    | Some v => negb (String.eqb v "")
    end in
  if negb (given && negb (String.eqb scheme "") && negb (String.eqb credentials ""))
  then Raise (HTTPException 403 "Not authenticated")
  else if negb (String.eqb (lower scheme) "bearer")
  then Raise (HTTPException 403 "Invalid authentication credentials")
  else Ok (mkCredentials scheme credentials).

(** [verify_token] is given the credentials the scheme returned and reads
    their [credentials] field, the text after the scheme. *)
Definition verify_token (credentials : string) : result bool :=
  if negb (String.eqb credentials "authenticated")
  then Raise (HTTPException 401 "Invalid authentication")
  else Ok true.

Definition login (user_data : UserLogin) : result LoginResponse :=
  if String.eqb (email user_data) "bilgi@gallaxdesign.com"
     && String.eqb (password user_data) "gallax11"
  then Ok (mkLoginResponse "authenticated" "Login successful")
  else Raise (HTTPException 401 "Invalid credentials").

(** ** Parameters: binary64 numbers

    The numbers of Python and of the store are IEEE doubles; their
    operations are taken as an interface. *)

Class PyFloat := {
  float : Type;
  (** [float(n)] for a Python [int] *)
  float_of_int : Z -> float;
  (** addition of two doubles *)
  fadd : float -> float -> float;
  (** [==] on doubles *)
  feqb : float -> float -> bool;
  (** [format(x, ",.0f")] *)
  format_f0 : float -> string
}.

Section Values.

Context {F : PyFloat}.

(** ** Python values and dicts *)

Inductive value :=
| VNone
| VBool (b : bool)
| VInt (z : Z)
| VFloat (f : float)
| VStr (s : string)
| VDate (d : date)
| VDatetime (t : datetime).

Definition dict := list (string * value).

Fixpoint dict_get (k : string) (d : dict) : option value :=
  match d with
  | [] => None
  | (k', v) :: r => if String.eqb k k' then Some v else dict_get k r
  end.

(** [d[k] = v] *)
Fixpoint dict_set (k : string) (v : value) (d : dict) : dict :=
  match d with
  | [] => [(k, v)]
  | (k', v') :: r =>
      if String.eqb k k' then (k', v) :: r else (k', v') :: dict_set k v r
  end.

(** [d.get(k, default)] *)
Definition dict_get_default (k : string) (default : value) (d : dict) : value :=
  match dict_get k d with
  | Some v => v
  | None => default
  end.

(** [d.get(k)] *)
Definition dict_get_none (k : string) (d : dict) : value :=
  dict_get_default k VNone d.

(** [d[k]] *)
Definition dict_getitem (k : string) (d : dict) : result value :=
  match dict_get k d with
  | Some v => Ok v
  | None => Raise (KeyError k)
  end.

Definition keys (d : dict) : list string := map fst d.

Definition is_None (v : value) : bool :=
  match v with
  | VNone => true
  | _ => false
  end.

(** [isinstance(value, date) and not isinstance(value, datetime)] selects
    [VDate]; such a value becomes [datetime.combine(value, datetime.min.time())]. *)
Definition date_to_datetime (v : value) : value :=
  match v with
  | VDate d => VDatetime (datetime_combine d datetime_min_time)
  | _ => v
  end.

(** The loop [for key, value in d.items(): if ...: d[key] = ...]. *)
Definition dates_to_datetimes (d : dict) : dict :=
  map (fun kv => (fst kv, date_to_datetime (snd kv))) d.

Definition opt_value {A : Type} (inj : A -> value) (o : option A) : value :=
  match o with
  | Some a => inj a
  | None => VNone
  end.

(** Python truth value *)
Definition truthy (v : value) : bool :=
  match v with
  | VNone => false
  | VBool b => b
  | VInt z => negb (Z.eqb z 0)
  | VFloat f => negb (feqb f (float_of_int 0))
  | VStr s => negb (String.eqb s "")
  | VDate _ => true
  | VDatetime _ => true
  end.

Definition type_name (v : value) : string :=
  match v with
  | VNone => "NoneType"
  | VBool _ => "bool"
  | VInt _ => "int"
  | VFloat _ => "float"
  | VStr _ => "str"
  | VDate _ => "datetime.date"
  | VDatetime _ => "datetime.datetime"
  end.

(** Equality of two stored values, as the store compares them. *)
Definition value_eqb (a b : value) : bool :=
  match a, b with
  | VNone, VNone => true
  | VBool x, VBool y => Bool.eqb x y
  | VInt x, VInt y => Z.eqb x y
  | VFloat x, VFloat y => feqb x y
  | VInt x, VFloat y => feqb (float_of_int x) y
  | VFloat x, VInt y => feqb x (float_of_int y)
  | VStr x, VStr y => String.eqb x y
  | VDate x, VDate y => date_eqb x y
  | VDatetime x, VDatetime y => datetime_eqb x y
  | _, _ => false
  end.

(** ** Models *)

Record Service := mkService {
  id : string;
  name : string;
  service_type : string;
  provider : string;
  creation_date : date;
  last_renewal_date : option date;
  next_renewal_date : option date;
  annual_fee : float;
  currency : string;
  status : string;
  notes : option string;
  is_deleted : bool;
  created_at : datetime;
  updated_at : datetime
}.

Record ServiceCreate := mkServiceCreate {
  sc_name : string;
  sc_service_type : string;
  sc_provider : string;
  sc_creation_date : date;
  sc_last_renewal_date : option date;
  sc_next_renewal_date : option date;
  sc_annual_fee : float;
  sc_currency : string;
  sc_status : string;
  sc_notes : option string
}.

Record ServiceUpdate := mkServiceUpdate {
  su_name : option string;
  su_service_type : option string;
  su_provider : option string;
  su_creation_date : option date;
  su_last_renewal_date : option date;
  su_next_renewal_date : option date;
  su_annual_fee : option float;
  su_currency : option string;
  su_status : option string;
  su_notes : option string
}.

(** [service.dict()] *)
Definition Service_dict (s : Service) : dict :=
  [ ("id", VStr (id s));
    ("name", VStr (name s));
    ("service_type", VStr (service_type s));
    ("provider", VStr (provider s));
    ("creation_date", VDate (creation_date s));
    ("last_renewal_date", opt_value VDate (last_renewal_date s));
    ("next_renewal_date", opt_value VDate (next_renewal_date s));
    ("annual_fee", VFloat (annual_fee s));
    ("currency", VStr (currency s));
    ("status", VStr (status s));
    ("notes", opt_value VStr (notes s));
    ("is_deleted", VBool (is_deleted s));
    ("created_at", VDatetime (created_at s));
    ("updated_at", VDatetime (updated_at s)) ].

Definition ServiceCreate_dict (c : ServiceCreate) : dict :=
  [ ("name", VStr (sc_name c));
    ("service_type", VStr (sc_service_type c));
    ("provider", VStr (sc_provider c));
    ("creation_date", VDate (sc_creation_date c));
    ("last_renewal_date", opt_value VDate (sc_last_renewal_date c));
    ("next_renewal_date", opt_value VDate (sc_next_renewal_date c));
    ("annual_fee", VFloat (sc_annual_fee c));
    ("currency", VStr (sc_currency c));
    ("status", VStr (sc_status c));
    ("notes", opt_value VStr (sc_notes c)) ].

Definition ServiceUpdate_dict (u : ServiceUpdate) : dict :=
  [ ("name", opt_value VStr (su_name u));
    ("service_type", opt_value VStr (su_service_type u));
    ("provider", opt_value VStr (su_provider u));
    ("creation_date", opt_value VDate (su_creation_date u));
    ("last_renewal_date", opt_value VDate (su_last_renewal_date u));
    ("next_renewal_date", opt_value VDate (su_next_renewal_date u));
    ("annual_fee", opt_value VFloat (su_annual_fee u));
    ("currency", opt_value VStr (su_currency u));
    ("status", opt_value VStr (su_status u));
    ("notes", opt_value VStr (su_notes u)) ].

(** *** Validation: constructing a [Service] from keyword arguments

    The field validators accept the kinds of value this API writes to the
    store.  A [datetime] is accepted for a [date] field when its time of day
    is midnight, and gives that date. *)

(** What the two [default_factory] lambdas return for one construction:
    [uuid4] for [id], one clock reading for each of the two timestamps. *)
Record Fresh := mkFresh {
  uuid4 : string;
  utcnow_created : datetime;
  utcnow_updated : datetime
}.

Definition validate_str (loc : string) (v : value) : result string :=
  match v with
  | VStr s => Ok s
  | _ => Raise (ValidationError loc)
  end.

Definition validate_float (loc : string) (v : value) : result float :=
  match v with
  | VFloat f => Ok f
  | VInt z => Ok (float_of_int z)
  | _ => Raise (ValidationError loc)
  end.

Definition validate_bool (loc : string) (v : value) : result bool :=
  match v with
  | VBool b => Ok b
  | _ => Raise (ValidationError loc)
  end.

Definition validate_date (loc : string) (v : value) : result date :=
  match v with
  | VDate d => Ok d
  | VDatetime t =>
      if time_eqb (dt_time t) datetime_min_time then Ok (dt_date t)
      else Raise (ValidationError loc)
  | _ => Raise (ValidationError loc)
  end.

Definition validate_datetime (loc : string) (v : value) : result datetime :=
  match v with
  | VDatetime t => Ok t
  | _ => Raise (ValidationError loc)
  end.

(** a required field *)
Definition required {A : Type} (validate : string -> value -> result A)
    (loc : string) (kw : dict) : result A :=
  match dict_get loc kw with
  | Some v => validate loc v
  | None => Raise (ValidationError loc)
  end.

(** a field with a default *)
Definition with_default {A : Type} (validate : string -> value -> result A)
    (loc : string) (default : A) (kw : dict) : result A :=
  match dict_get loc kw with
  | Some v => validate loc v
  | None => Ok default
  end.

(** an [Optional[...] = None] field *)
Definition optional {A : Type} (validate : string -> value -> result A)
    (loc : string) (kw : dict) : result (option A) :=
  match dict_get loc kw with
  | Some VNone => Ok None
  | Some v => a <- validate loc v ;; Ok (Some a)
  | None => Ok None
  end.

Definition Service_init (fresh : Fresh) (kw : dict) : result Service :=
  f_id <- with_default validate_str "id" (uuid4 fresh) kw ;;
  f_name <- required validate_str "name" kw ;;
  f_service_type <- required validate_str "service_type" kw ;;
  f_provider <- required validate_str "provider" kw ;;
  f_creation_date <- required validate_date "creation_date" kw ;;
  f_last_renewal_date <- optional validate_date "last_renewal_date" kw ;;
  f_next_renewal_date <- optional validate_date "next_renewal_date" kw ;;
  f_annual_fee <- required validate_float "annual_fee" kw ;;
  f_currency <- with_default validate_str "currency" "TRY" kw ;;
  f_status <- with_default validate_str "status" "active" kw ;;
  f_notes <- optional validate_str "notes" kw ;;
  f_is_deleted <- with_default validate_bool "is_deleted" false kw ;;
  f_created_at <- with_default validate_datetime "created_at" (utcnow_created fresh) kw ;;
  f_updated_at <- with_default validate_datetime "updated_at" (utcnow_updated fresh) kw ;;
  Ok (mkService f_id f_name f_service_type f_provider f_creation_date
        f_last_renewal_date f_next_renewal_date f_annual_fee f_currency
        f_status f_notes f_is_deleted f_created_at f_updated_at).

(** The reportlab flowables the PDF export builds (their styles are
    constants of the handler and are left out). *)
Inductive flowable :=
| Paragraph (text : string)
| Spacer (width height : Z)
| Table (data : list (list value)).

End Values.

(** ** Parameters: library routines *)

Class Libraries {F : PyFloat} := {
  (** [d.strftime("%d.%m.%Y")] *)
  strftime_dmY : date -> string;
  (** [pd.DataFrame(rows)] written to one sheet by [pd.ExcelWriter] with the
      openpyxl engine: the bytes of the workbook, or the exception raised. *)
  write_excel : string -> list dict -> result string;
  (** [SimpleDocTemplate(buffer, pagesize=A4).build(elements)]: the bytes of
      the PDF, or the exception raised. *)
  build_pdf : list flowable -> result string
}.

Section Server.

Context {F : PyFloat} {L : Libraries}.

(** ** The document store *)

Definition collection := list dict.

(** A query document [{k1: v1, ...}] selects the documents in which every
    listed field equals the given value; a [None] also selects a document
    without the field. *)
Definition matches (query : dict) (doc : dict) : bool :=
  forallb (fun kv =>
             match dict_get (fst kv) doc with
             | Some v => value_eqb (snd kv) v
             | None => is_None (snd kv)
             end) query.

(** [find(query)] *)
Definition find_all (query : dict) (db : collection) : list dict :=
  filter (matches query) db.

(** [cursor.to_list(n)] *)
Definition to_list {A : Type} (n : nat) (cursor : list A) : list A := firstn n cursor.

(** [find_one(query)] *)
Definition find_one (query : dict) (db : collection) : option dict :=
  find (matches query) db.

(** [count_documents(query)] *)
Definition count_documents (query : dict) (db : collection) : nat :=
  List.length (find_all query db).

(** [insert_one(doc)] *)
Definition insert_one (doc : dict) (db : collection) : collection := db ++ [doc].

(** [{"$set": fields}] applied to one document *)
Definition apply_set (fields : dict) (doc : dict) : dict :=
  fold_left (fun d kv => dict_set (fst kv) (snd kv) d) fields doc.

(** [update_one(query, {"$set": fields})]: the new collection and
    [matched_count]. *)
Fixpoint update_one (query fields : dict) (db : collection) : collection * nat :=
  match db with
  | [] => ([], 0)
  | doc :: rest =>
      if matches query doc then (apply_set fields doc :: rest, 1)
      else let (rest', n) := update_one query fields rest in (doc :: rest', n)
  end.

(** *** Aggregation pipelines *)

Inductive group_id :=
| IdNull
| IdField (path : string).

Inductive accumulator :=
| SumField (path : string)
| SumConst (n : Z).

Inductive stage :=
| Match (query : dict)
| Group (_id : group_id) (out : string) (acc : accumulator).

(** addition of the store's numbers *)
Definition num_add (a b : value) : value :=
  match a, b with
  | VInt x, VInt y => VInt (x + y)
  | VInt x, VFloat y => VFloat (fadd (float_of_int x) y)
  | VFloat x, VInt y => VFloat (fadd x (float_of_int y))
  | VFloat x, VFloat y => VFloat (fadd x y)
  | _, _ => a
  end.

Definition group_key (g : group_id) (doc : dict) : value :=
  match g with
  | IdNull => VNone
  | IdField path => dict_get_none path doc
  end.

(** what one document adds to a [$sum] *)
Definition acc_term (acc : accumulator) (doc : dict) : value :=
  match acc with
  | SumField path => dict_get_none path doc
  | SumConst n => VInt n
  end.

(** Add [term] to the group of [key], opening the group when it is new. *)
Fixpoint bump (key term : value) (groups : list (value * value)) : list (value * value) :=
  match groups with
  | [] => [(key, num_add (VInt 0) term)]
  | (k, total) :: rest =>
      if value_eqb key k then (k, num_add total term) :: rest
      else (k, total) :: bump key term rest
  end.

Definition group_docs (g : group_id) (acc : accumulator) (docs : list dict)
    : list (value * value) :=
  fold_left (fun groups doc => bump (group_key g doc) (acc_term acc doc) groups) docs [].

Definition run_stage (st : stage) (docs : list dict) : list dict :=
  match st with
  | Match query => filter (matches query) docs
  | Group g out acc =>
      map (fun kt => [("_id", fst kt); (out, snd kt)]) (group_docs g acc docs)
  end.

(** [aggregate(pipeline)] *)
Definition aggregate (pipeline : list stage) (db : collection) : list dict :=
  fold_left (fun docs st => run_stage st docs) pipeline db.

(** ** Service routes *)

Definition not_found {A : Type} : result A :=
  Raise (HTTPException 404 "Service not found").

(** [Service] of what the second read of [update_service] returned: a
    document is validated, [None] is no mapping to unpack. *)
Definition Service_of_found (fresh : Fresh) (found : option dict) : result Service :=
  match found with
  | Some service => Service_init fresh service
  | None => Raise (TypeError "argument after ** must be a mapping, not NoneType")
  end.

(** The list comprehension of [get_services]; the [n]-th construction draws
    [fresh n]. *)
Fixpoint Service_all (fresh : nat -> Fresh) (n : nat) (services : list dict)
    : result (list Service) :=
  match services with
  | [] => Ok []
  | service :: rest =>
      s <- Service_init (fresh n) service ;;
      l <- Service_all fresh (S n) rest ;;
      Ok (s :: l)
  end.

Definition get_services (fresh : nat -> Fresh) (db : collection) : result (list Service) :=
  let services := to_list 1000 (find_all [("is_deleted", VBool false)] db) in
  Service_all fresh 0 services.

Definition create_service (fresh : Fresh) (service_data : ServiceCreate) (db : collection)
    : collection * result Service :=
  let service_dict := ServiceCreate_dict service_data in
  match Service_init fresh service_dict with
  | Raise e => (db, Raise e)
  | Ok service_obj =>
      let service_data_for_db := dates_to_datetimes (Service_dict service_obj) in
      (insert_one service_data_for_db db, Ok service_obj)
  end.

Definition get_service (fresh : Fresh) (service_id : string) (db : collection)
    : result Service :=
  match find_one [("id", VStr service_id); ("is_deleted", VBool false)] db with
  | None | Some [] => not_found
  | Some service => Service_init fresh service
  end.

(** The [$set] document [update_service] builds. *)
Definition update_data_of (service_data : ServiceUpdate) (now : datetime) : dict :=
  let update_data :=
    filter (fun kv => negb (is_None (snd kv))) (ServiceUpdate_dict service_data) in
  let update_data := dict_set "updated_at" (VDatetime now) update_data in
  dates_to_datetimes update_data.

Definition update_service (fresh : Fresh) (now : datetime) (service_id : string)
    (service_data : ServiceUpdate) (db : collection) : collection * result Service :=
  let update_data := update_data_of service_data now in
  let (db', matched_count) :=
    update_one [("id", VStr service_id); ("is_deleted", VBool false)] update_data db in
  if Nat.eqb matched_count 0 then (db', not_found)
  else
    let updated_service := find_one [("id", VStr service_id)] db' in
    (db', Service_of_found fresh updated_service).

Definition delete_service (now : datetime) (service_id : string) (db : collection)
    : collection * result string :=
  let (db', matched_count) :=
    update_one [("id", VStr service_id); ("is_deleted", VBool false)]
               [("is_deleted", VBool true); ("updated_at", VDatetime now)] db in
  if Nat.eqb matched_count 0 then (db', not_found)
  else (db', Ok "Service deleted successfully").

(** *** Dashboard *)

Record DashboardStats := mkDashboardStats {
  total_services : nat;
  active_services : nat;
  total_annual_fees : value;
  services_by_type : list dict
}.

Definition get_dashboard_stats (db : collection) : result DashboardStats :=
  let total_services := count_documents [("is_deleted", VBool false)] db in
  let active_services :=
    count_documents [("is_deleted", VBool false); ("status", VStr "active")] db in
  let pipeline :=
    [ Match [("is_deleted", VBool false); ("status", VStr "active")];
      Group IdNull "total_fees" (SumField "annual_fee") ] in
  let total_fees_result := to_list 1 (aggregate pipeline db) in
  total_annual_fees <-
    match total_fees_result with
    | first :: _ => dict_getitem "total_fees" first
    | [] => Ok (VInt 0)
    end ;;
  let type_pipeline :=
    [ Match [("is_deleted", VBool false); ("status", VStr "active")];
      Group (IdField "service_type") "count" (SumConst 1) ] in
  let services_by_type := to_list 10 (aggregate type_pipeline db) in
  Ok (mkDashboardStats total_services active_services total_annual_fees services_by_type).

(** *** Exports *)

Record StreamingResponse := mkStreamingResponse {
  body : string;
  media_type : string;
  content_disposition : string
}.

(** [try: body except Exception as e: raise handler(e)] *)
Definition try_except {A : Type} (body : result A) (handler : exn -> exn) : result A :=
  match body with
  | Ok a => Ok a
  | Raise e => Raise (handler e)
  end.

(** [v.strftime("%d.%m.%Y")] *)
Definition call_strftime (v : value) : result value :=
  match v with
  | VDate d => Ok (VStr (strftime_dmY d))
  | VDatetime t => Ok (VStr (strftime_dmY (dt_date t)))
  | _ => Raise (AttributeError
                  ("'" ++ type_name v ++ "' object has no attribute 'strftime'"))
  end.

(** [service.get(k, "").strftime("%d.%m.%Y") if service.get(k) else blank] *)
Definition date_cell (k blank : string) (service : dict) : result value :=
  if truthy (dict_get_none k service)
  then call_strftime (dict_get_default k (VStr "") service)
  else Ok (VStr blank).

(** ["Aktif" if service.get("status") == "active" else "Pasif"] *)
Definition status_label (service : dict) : value :=
  match dict_get_none "status" service with
  | VStr s => if String.eqb s "active" then VStr "Aktif" else VStr "Pasif"
  | _ => VStr "Pasif"
  end.

(** [format(v, ",.0f")] *)
Definition format_grouped (v : value) : result string :=
  match v with
  | VFloat f => Ok (format_f0 f)
  | VInt z => Ok (format_f0 (float_of_int z))
  | VBool b => Ok (format_f0 (float_of_int (if b then 1 else 0)))
  | VStr _ => Raise (ValueError "Unknown format code 'f' for object of type 'str'")
  | VNone => Raise (TypeError "unsupported format string passed to NoneType.__format__")
  | VDate _ => Ok ",.0f"
  | VDatetime _ => Ok ",.0f"
  end.

Definition excel_row (service : dict) : result dict :=
  c_creation <- date_cell "creation_date" "" service ;;
  c_last <- date_cell "last_renewal_date" "" service ;;
  c_next <- date_cell "next_renewal_date" "" service ;;
  Ok [ ("Hizmet Adı", dict_get_default "name" (VStr "") service);
       ("Hizmet Türü", dict_get_default "service_type" (VStr "") service);
       ("Sağlayıcı", dict_get_default "provider" (VStr "") service);
       ("Yıllık Ücret", dict_get_default "annual_fee" (VInt 0) service);
       ("Para Birimi", dict_get_default "currency" (VStr "TRY") service);
       ("Oluşturma Tarihi", c_creation);
       ("Son Yenileme", c_last);
       ("Sonraki Yenileme", c_next);
       ("Durum", status_label service);
       ("Notlar", dict_get_default "notes" (VStr "") service) ].

Definition excel_body (db : collection) : result StreamingResponse :=
  let services := to_list 1000 (find_all [("is_deleted", VBool false)] db) in
  excel_data <- mapM excel_row services ;;
  excel_buffer <- write_excel "Hizmetler" excel_data ;;
  Ok (mkStreamingResponse excel_buffer
        "application/vnd.openxmlformats-officedocument.spreadsheetml.sheet"
        "attachment; filename=hizmetler.xlsx").

Definition export_services_excel (db : collection) : result StreamingResponse :=
  try_except (excel_body db)
    (fun e => HTTPException 500 ("Excel export failed: " ++ str_exn e)).

Definition pdf_header : list value :=
  [ VStr "Hizmet"; VStr "Tür"; VStr "Sağlayıcı"; VStr "Yıllık Ücret";
    VStr "Sonraki Yenileme"; VStr "Durum" ].

Definition pdf_row (service : dict) : result (list value) :=
  fee <- format_grouped (dict_get_default "annual_fee" (VInt 0) service) ;;
  c_next <- date_cell "next_renewal_date" "-" service ;;
  Ok [ dict_get_default "name" (VStr "") service;
       dict_get_default "service_type" (VStr "") service;
       dict_get_default "provider" (VStr "") service;
       VStr ("₺" ++ fee);
       c_next;
       status_label service ].

(** [table_data] after the loop *)
Definition pdf_table_data (services : list dict) : result (list (list value)) :=
  rows <- mapM pdf_row services ;;
  Ok (pdf_header :: rows).

Definition pdf_body (db : collection) : result StreamingResponse :=
  let services := to_list 1000 (find_all [("is_deleted", VBool false)] db) in
  table_data <- pdf_table_data services ;;
  let elements := [ Paragraph "Hizmet Listesi"; Spacer 1 20; Table table_data ] in
  pdf_buffer <- build_pdf elements ;;
  Ok (mkStreamingResponse pdf_buffer "application/pdf"
        "attachment; filename=hizmetler.pdf").

Definition export_services_pdf (db : collection) : result StreamingResponse :=
  try_except (pdf_body db)
    (fun e => HTTPException 500 ("PDF export failed: " ++ str_exn e)).

(** ** The protected routes behind [Depends(verify_token)] *)

Inductive call :=
| GetServices
| CreateService (service_data : ServiceCreate)
| GetService (service_id : string)
| UpdateService (service_id : string) (service_data : ServiceUpdate)
| DeleteService (service_id : string)
| GetDashboardStats
| ExportServicesExcel
| ExportServicesPdf.

Inductive response :=
| RServices (l : list Service)
| RService (s : Service)
| RMessage (m : string)
| RStats (st : DashboardStats)
| RFile (f : StreamingResponse).

(** What one request draws from the clock and from [uuid4]. *)
Record Env := mkEnv {
  fresh : nat -> Fresh;
  utcnow : datetime
}.

Definition lift {A : Type} (wrap : A -> response) (r : result A) : result response :=
  a <- r ;; Ok (wrap a).

(** the body of the handler of each route *)
Definition handler (c : call) (env : Env) (db : collection) : collection * result response :=
  match c with
  | GetServices => (db, lift RServices (get_services (fresh env) db))
  | CreateService service_data =>
      let (db', r) := create_service (fresh env 0) service_data db in (db', lift RService r)
  | GetService service_id => (db, lift RService (get_service (fresh env 0) service_id db))
  | UpdateService service_id service_data =>
      let (db', r) := update_service (fresh env 0) (utcnow env) service_id service_data db in
      (db', lift RService r)
  | DeleteService service_id =>
      let (db', r) := delete_service (utcnow env) service_id db in (db', lift RMessage r)
  | GetDashboardStats => (db, lift RStats (get_dashboard_stats db))
  | ExportServicesExcel => (db, lift RFile (export_services_excel db))
  | ExportServicesPdf => (db, lift RFile (export_services_pdf db))
  end.

(** A request to a protected route, with its [Authorization] header when
    it has one: the security scheme runs first, then [verify_token] on the
    credentials it returned, and the handler only when both returned. *)
Definition endpoint (authorization : option string) (c : call) (env : Env)
    (db : collection) : collection * result response :=
  match security authorization with
  | Raise e => (db, Raise e)
  | Ok bearer =>
      match verify_token (credentials bearer) with
      | Raise e => (db, Raise e)
      | Ok authenticated => handler c env db
      end
  end.

(** A sequence of requests, each with its [Authorization] header and its
    draws. *)
Fixpoint run (requests : list (option string * call * Env)) (db : collection)
    : collection :=
  match requests with
  | [] => db
  | (authorization, c, env) :: rest => run rest (fst (endpoint authorization c env db))
  end.

End Server.

(** * Reference notions for the properties *)

Section Reference.

Context {F : PyFloat}.

(** The document [create_service] hands to [insert_one] for a record. *)
Definition stored (s : Service) : dict := dates_to_datetimes (Service_dict s).

(** A document this API wrote, and a collection of such documents. *)
Definition wf_doc (doc : dict) : Prop := exists s : Service, doc = stored s.

Definition wf_db (db : collection) : Prop := Forall wf_doc db.

Definition or_else {A : Type} (o : option A) (a : A) : A :=
  match o with
  | Some x => x
  | None => a
  end.

Definition or_keep {A : Type} (o : option A) (a : option A) : option A :=
  match o with
  | Some x => Some x
  | None => a
  end.

(** The record a partial update leaves, field by field. *)
Definition Service_updated (u : ServiceUpdate) (now : datetime) (s : Service) : Service :=
  mkService (id s)
    (or_else (su_name u) (name s))
    (or_else (su_service_type u) (service_type s))
    (or_else (su_provider u) (provider s))
    (or_else (su_creation_date u) (creation_date s))
    (or_keep (su_last_renewal_date u) (last_renewal_date s))
    (or_keep (su_next_renewal_date u) (next_renewal_date s))
    (or_else (su_annual_fee u) (annual_fee s))
    (or_else (su_currency u) (currency s))
    (or_else (su_status u) (status s))
    (or_keep (su_notes u) (notes s))
    (is_deleted s) (created_at s) now.

(** The record a soft delete leaves. *)
Definition Service_deleted (now : datetime) (s : Service) : Service :=
  mkService (id s) (name s) (service_type s) (provider s) (creation_date s)
    (last_renewal_date s) (next_renewal_date s) (annual_fee s) (currency s)
    (status s) (notes s) true (created_at s) now.

(** The record [create_service] builds from a request. *)
Definition Service_created (fresh : Fresh) (c : ServiceCreate) : Service :=
  mkService (uuid4 fresh) (sc_name c) (sc_service_type c) (sc_provider c)
    (sc_creation_date c) (sc_last_renewal_date c) (sc_next_renewal_date c)
    (sc_annual_fee c) (sc_currency c) (sc_status c) (sc_notes c)
    false (utcnow_created fresh) (utcnow_updated fresh).

(** The value a request supplies for field [k]: present and not null. *)
Definition supplied (u : ServiceUpdate) (k : string) : option value :=
  match dict_get k (ServiceUpdate_dict u) with
  | Some v => if is_None v then None else Some v
  | None => None
  end.

(** The request body with no field. *)
Definition empty_update : ServiceUpdate :=
  mkServiceUpdate None None None None None None None None None None.

(** [doc] has identifier [i]. *)
Definition has_id (i : string) (doc : dict) : Prop :=
  dict_get "id" doc = Some (VStr i).

(** [doc] is not soft-deleted. *)
Definition live (doc : dict) : Prop :=
  dict_get "is_deleted" doc = Some (VBool false).

Definition liveb (doc : dict) : bool :=
  match dict_get "is_deleted" doc with
  | Some (VBool false) => true
  | _ => false
  end.

(** [doc] has status active. *)
Definition activeb (doc : dict) : bool :=
  match dict_get "status" doc with
  | Some (VStr s) => String.eqb s "active"
  | _ => false
  end.

(** The sum of a list of stored numbers, from zero. *)
Definition sum_values (l : list value) : value := fold_left num_add l (VInt 0).

(** The documents the two dashboard pipelines select. *)
Definition active_records (db : collection) : list dict :=
  filter (fun doc => liveb doc && activeb doc) db.

(** The service types of a list of documents, one per document. *)
Definition type_names (docs : list dict) : list string :=
  flat_map (fun doc =>
              match dict_get "service_type" doc with
              | Some (VStr t) => [t]
              | _ => []
              end) docs.

(** The service types of the active, non-deleted documents. *)
Definition active_types (db : collection) : list string :=
  type_names (active_records db).

(** The group the dashboard reports for a service type. *)
Definition type_group (t : string) (n : Z) : dict :=
  [("_id", VStr t); ("count", VInt n)].

(** How many of the active, non-deleted documents have service type [t]. *)
Definition type_count (db : collection) (t : string) : Z :=
  Z.of_nat (count_occ string_dec (active_types db) t).

(** Counting names in order of first occurrence, the way the [$group]
    stage counts documents. *)
Fixpoint bump_name (t : string) (groups : list (string * Z)) : list (string * Z) :=
  match groups with
  | [] => [(t, 1%Z)]
  | (k, n) :: rest =>
      if String.eqb t k then (k, (n + 1)%Z) :: rest else (k, n) :: bump_name t rest
  end.

Definition count_names (ts : list string) : list (string * Z) :=
  fold_left (fun groups t => bump_name t groups) ts [].

(** [groups] counts the names of [ts]: one entry per name, with the number
    of its occurrences. *)
Definition tally_ok (groups : list (string * Z)) (ts : list string) : Prop :=
  NoDup (map fst groups) /\
  (forall k, In k ts -> In k (map fst groups)) /\
  (forall k n, In (k, n) groups ->
               n = Z.of_nat (count_occ string_dec ts k) /\ In k ts).

(** A counted name as the pair of values the [$group] stage keeps. *)
Definition embed_group (kn : string * Z) : value * value :=
  (VStr (fst kn), VInt (snd kn)).

(** The stored form of a calendar date. *)
Definition midnight (d : date) : value :=
  VDatetime (datetime_combine d datetime_min_time).

(** The query of [get_service], [update_service] and [delete_service]. *)
Definition by_id_live (i : string) : dict := [("id", VStr i); ("is_deleted", VBool false)].

(** Every document of [db] is still in [db'], at its index and under its
    identifier, and its [is_deleted] flag is what it was or has gone from
    false to true. *)
Definition keeps_records (db db' : collection) : Prop :=
  forall (i : nat) (doc : dict),
    nth_error db i = Some doc ->
    exists doc',
      nth_error db' i = Some doc' /\
      dict_get "id" doc' = dict_get "id" doc /\
      (dict_get "is_deleted" doc' = dict_get "is_deleted" doc \/
       (live doc /\ dict_get "is_deleted" doc' = Some (VBool true))).

End Reference.

(** * Instances of the parameters and sample data *)

(** Amounts in whole units: a double that holds an integer, printed with
    thousands separators. *)
Fixpoint insert_commas (rev_digits : list ascii) (k : nat) : list ascii :=
  match rev_digits with
  | [] => []
  | c :: r =>
      match k, r with
      | 2, _ :: _ => c :: ","%char :: insert_commas r 0
      | _, _ => c :: insert_commas r (S k)
      end
  end.

Definition digits_of_Z (z : Z) : string :=
  NilEmpty.string_of_uint (Nat.to_uint (Z.to_nat (Z.abs z))).

Definition grouped_of_Z (z : Z) : string :=
  let digits := list_ascii_of_string (digits_of_Z z) in
  let body := string_of_list_ascii (rev (insert_commas (rev digits) 0)) in
  if (z <? 0)%Z then "-" ++ body else body.

Definition whole_amounts : PyFloat :=
  {| float := Z;
     float_of_int := fun z => z;
     fadd := Z.add;
     feqb := Z.eqb;
     format_f0 := grouped_of_Z |}.

Definition two_digits (z : Z) : string :=
  if (z <? 10)%Z then "0" ++ digits_of_Z z else digits_of_Z z.

Definition day_month_year (d : date) : string :=
  two_digits (day d) ++ "." ++ two_digits (month d) ++ "." ++ digits_of_Z (year d).

(** Writers that always succeed, and writers that always fail. *)
Definition working_libraries : @Libraries whole_amounts :=
  {| strftime_dmY := day_month_year;
     write_excel := fun sheet rows =>
       Ok ("xlsx:" ++ sheet ++ ":" ++ string_of_nat (List.length rows))%string;
     build_pdf := fun elements =>
       Ok ("pdf:" ++ string_of_nat (List.length elements))%string |}.

Definition failing_libraries : @Libraries whole_amounts :=
  {| strftime_dmY := day_month_year;
     write_excel := fun _ _ => Raise (LibraryError "No space left on device");
     build_pdf := fun _ => Raise (LibraryError "No space left on device") |}.

Definition sample_time : datetime := mkdatetime (mkdate 2024 5 17) (mktime 9 30 0 0).

Definition later_time : datetime := mkdatetime (mkdate 2024 6 1) (mktime 12 0 0 0).

Definition sample_fresh : Fresh := mkFresh "id-new" sample_time sample_time.

Definition sample_env : Env := mkEnv (fun _ => sample_fresh) later_time.

Definition sample_service (i t st : string) (fee : Z) (deleted : bool)
    : @Service whole_amounts :=
  @mkService whole_amounts i ("Service " ++ i) t "Provider" (mkdate 2024 1 1) None
    (Some (mkdate 2025 1 1)) fee "USD" st None deleted sample_time sample_time.

(** An active record, an inactive one, and a soft-deleted one. *)
Definition record_a : @Service whole_amounts :=
  sample_service "a" "Domain" "active" 100 false.

Definition record_b : @Service whole_amounts :=
  sample_service "b" "Hosting" "inactive" 250 false.

Definition record_c : @Service whole_amounts :=
  sample_service "c" "Domain" "active" 1000 true.

Definition sample_records : list (@Service whole_amounts) :=
  [record_a; record_b; record_c].

Definition sample_db : @collection whole_amounts := map stored sample_records.

(** Eleven active records of eleven service types. *)
Definition eleven_types : list string :=
  [ "Domain"; "Hosting"; "Domain+Hosting"; "Website"; "Consulting"; "SSL";
    "E-mail"; "SEO"; "Backup"; "CDN"; "Licence" ].

Definition eleven_db : @collection whole_amounts :=
  map (fun t => stored (sample_service t t "active" 10 false)) eleven_types.

Definition sample_create : @ServiceCreate whole_amounts :=
  @mkServiceCreate whole_amounts "Test" "Domain" "P" (mkdate 2024 1 1) None (Some (mkdate 2025 1 1))
    100%Z "TRY" "active" None.

Definition sample_update : @ServiceUpdate whole_amounts :=
  @mkServiceUpdate whole_amounts None None None None None None (Some 150%Z) None None None.

(** * Further reference notions *)

Section EffectReference.

Context {F : PyFloat}.

(** The [$set] document of [delete_service]. *)
Definition delete_fields (now : datetime) : dict :=
  [("is_deleted", VBool true); ("updated_at", VDatetime now)].

(** The fields a request can write into a stored document. *)
Definition written_keys : list string :=
  [ "name"; "service_type"; "provider"; "creation_date"; "last_renewal_date";
    "next_renewal_date"; "annual_fee"; "currency"; "status"; "notes";
    "updated_at"; "is_deleted" ].

(** A soft-deleted document of [db] is the same document in [db']. *)
Definition keeps_deleted (db db' : collection) : Prop :=
  forall (i : nat) (doc : dict),
    nth_error db i = Some doc ->
    dict_get "is_deleted" doc = Some (VBool true) ->
    nth_error db' i = Some doc.

(** The fields no request writes are the same in [db'] as in [db]. *)
Definition keeps_unwritten (db db' : collection) : Prop :=
  forall (i : nat) (doc : dict),
    nth_error db i = Some doc ->
    exists doc',
      nth_error db' i = Some doc' /\
      forall k, ~ In k written_keys -> dict_get k doc' = dict_get k doc.

End EffectReference.

Section RecordReference.

Context {F : PyFloat}.

(** Two records agree on every field but the two timestamps. *)
Definition same_data (a b : Service) : Prop :=
  id a = id b /\ name a = name b /\ service_type a = service_type b /\
  provider a = provider b /\ creation_date a = creation_date b /\
  last_renewal_date a = last_renewal_date b /\
  next_renewal_date a = next_renewal_date b /\ annual_fee a = annual_fee b /\
  currency a = currency b /\ status a = status b /\ notes a = notes b /\
  is_deleted a = is_deleted b.

End RecordReference.

Section ExportReference.

Context {F : PyFloat} {L : Libraries}.

Definition Zsum (l : list Z) : Z := fold_right Z.add 0%Z l.

(** The count a dashboard group reports. *)
Definition group_count (g : dict) : Z :=
  match dict_get "count" g with
  | Some (VInt n) => n
  | _ => 0%Z
  end.

(** The status column of both exports. *)
Definition status_text (s : Service) : string :=
  if String.eqb (status s) "active" then "Aktif" else "Pasif".

(** A date column: the formatted date, or [blank] without one. *)
Definition date_text (blank : string) (d : option date) : string :=
  match d with
  | Some d => strftime_dmY d
  | None => blank
  end.

(** The spreadsheet row of a stored record. *)
Definition excel_row_of (s : Service) : dict :=
  [ ("Hizmet Adı", VStr (name s));
    ("Hizmet Türü", VStr (service_type s));
    ("Sağlayıcı", VStr (provider s));
    ("Yıllık Ücret", VFloat (annual_fee s));
    ("Para Birimi", VStr (currency s));
    ("Oluşturma Tarihi", VStr (strftime_dmY (creation_date s)));
    ("Son Yenileme", VStr (date_text "" (last_renewal_date s)));
    ("Sonraki Yenileme", VStr (date_text "" (next_renewal_date s)));
    ("Durum", VStr (status_text s));
    ("Notlar", opt_value VStr (notes s)) ].

(** The PDF table row of a stored record. *)
Definition pdf_row_of (s : Service) : list value :=
  [ VStr (name s);
    VStr (service_type s);
    VStr (provider s);
    VStr ("₺" ++ format_f0 (annual_fee s));
    VStr (date_text "-" (next_renewal_date s));
    VStr (status_text s) ].

(** The records an export covers: the first 1000 that are not deleted. *)
Definition exported (ss : list Service) : list Service :=
  firstn 1000 (filter (fun s => negb (is_deleted s)) ss).

End ExportReference.

Section IdentifierReference.

Context {F : PyFloat} {L : Libraries}.

(** The identifiers of the stored documents, in storage order. *)
Definition ids (db : collection) : list (option value) := map (dict_get "id") db.

(** Every [create_service] of the sequence draws from [uuid4] an identifier
    that no stored document bears at that moment. *)
Fixpoint draws_new_ids (requests : list (option string * call * Env)) (db : collection) : Prop :=
  match requests with
  | [] => True
  | (authorization, c, env) :: rest =>
      match c with
      | CreateService _ => forall d, In d db -> ~ has_id (uuid4 (fresh env 0)) d
      | _ => True
      end /\
      draws_new_ids rest (fst (endpoint authorization c env db))
  end.

End IdentifierReference.

Section FilledReference.

Context {F : PyFloat}.

(** Field [k] holds a value other than [None]. *)
Definition filled (k : string) (doc : dict) : Prop :=
  exists v, dict_get k doc = Some v /\ v <> VNone.

(** The fields of [db] that hold a value still hold one in [db']. *)
Definition keeps_filled (db db' : collection) : Prop :=
  forall (i : nat) (doc : dict),
    nth_error db i = Some doc ->
    exists doc',
      nth_error db' i = Some doc' /\
      forall k, filled k doc -> filled k doc'.

End FilledReference.

(** * The API tester (backend_test.py)

    [ServiceTrackingAPITester] talks to a deployed server through the
    [requests] library.  The server and the network are a parameter: a
    state and a function that answers a request, or fails as [requests]
    does when it raises.  What the tester prints is left out; the
    exceptions its own code can raise on a response are kept. *)

Section Json.

Context {F : PyFloat}.

(** The Python value of a JSON document, as [response.json()] returns it. *)
#[local] Set Warnings "-register-all".
Inductive json :=
| JNull
| JBool (b : bool)
| JInt (z : Z)
| JFloat (f : float)
| JStr (s : string)
| JArr (items : list json)
| JObj (members : list (string * json)).

(** Python truth value *)
Definition json_truthy (j : json) : bool :=
  match j with
  | JNull => false
  | JBool b => b
  | JInt z => negb (Z.eqb z 0)
  | JFloat f => negb (feqb f (float_of_int 0))
  | JStr s => negb (String.eqb s "")
  | JArr [] => false
  | JArr (_ :: _) => true
  | JObj [] => false
  | JObj (_ :: _) => true
  end.

Definition json_type_name (j : json) : string :=
  match j with
  | JNull => "NoneType"
  | JBool _ => "bool"
  | JInt _ => "int"
  | JFloat _ => "float"
  | JStr _ => "str"
  | JArr _ => "list"
  | JObj _ => "dict"
  end.

(** [needle in hay] for two strings *)
Fixpoint str_contains (needle hay : string) : bool :=
  match hay with
  | EmptyString => String.prefix needle hay
  | String _ rest => String.prefix needle hay || str_contains needle rest
  end.

(** [item == key] for a list item and a [str] *)
Definition json_is_str (key : string) (item : json) : bool :=
  match item with
  | JStr s => String.eqb s key
  | _ => false
  end.

Fixpoint members_get (key : string) (members : list (string * json)) : option json :=
  match members with
  | [] => None
  | (k, v) :: rest => if String.eqb key k then Some v else members_get key rest
  end.

(** [key in j] *)
Definition json_contains (key : string) (j : json) : result bool :=
  match j with
  | JObj members =>
      Ok (match members_get key members with Some _ => true | None => false end)
  | JArr items => Ok (existsb (json_is_str key) items)
  | JStr s => Ok (str_contains key s)
  | _ => Raise (TypeError ("argument of type '" ++ json_type_name j ++ "' is not iterable"))
  end.

(** [j[key]] for a [str] key *)
Definition json_getitem (key : string) (j : json) : result json :=
  match j with
  | JObj members =>
      match members_get key members with
      | Some v => Ok v
      | None => Raise (KeyError key)
      end
  | JArr _ => Raise (TypeError "list indices must be integers or slices, not str")
  | JStr _ => Raise (TypeError "string indices must be integers")
  | _ => Raise (TypeError ("'" ++ json_type_name j ++ "' object is not subscriptable"))
  end.

(** [len(j)] *)
Definition json_len (j : json) : result nat :=
  match j with
  | JObj members => Ok (List.length members)
  | JArr items => Ok (List.length items)
  | JStr s => Ok (String.length s)
  | _ => Raise (TypeError ("object of type '" ++ json_type_name j ++ "' has no len()"))
  end.

Inductive http_method := GET | POST | PUT | DELETE.

(** The [endpoint] argument of [run_test]: "auth/login", "services",
    "services/{id}" with the stored identifier, "services/stats/dashboard". *)
Inductive api_path :=
| AuthLogin
| Services
| ServiceById (service_id : json)
| StatsDashboard.

(** A request as [run_test] sends it: the bearer token of the
    [Authorization] header when there is one, and the JSON body. *)
Record http_request := mkRequest {
  rq_method : http_method;
  rq_path : api_path;
  rq_bearer : option json;
  rq_json : option json
}.

(** A response: its status, and its body when the body is JSON. *)
Record http_response := mkResponse {
  rs_status_code : nat;
  rs_json : option json
}.

Record Tester := mkTester {
  tester_token : json;
  tests_run : nat;
  tests_passed : nat;
  created_service_id : json
}.

End Json.

(** The server behind the network: [send] answers a request, or gives
    [None] when [requests] raises. *)
Class Network {F : PyFloat} := {
  world : Type;
  send : world -> http_request -> world * option http_response
}.

Section Tester.

Context {F : PyFloat} {N : Network}.

Definition run_test (method : http_method) (path : api_path) (expected_status : nat)
    (data : option json) (t : Tester) (w : world) : world * Tester * (bool * json) :=
  let bearer := if json_truthy (tester_token t) then Some (tester_token t) else None in
  let t := mkTester (tester_token t) (tests_run t + 1) (tests_passed t)
                    (created_service_id t) in
  match send w (mkRequest method path bearer data) with
  | (w', Some response) =>
      let success := Nat.eqb (rs_status_code response) expected_status in
      if success then
        let t := mkTester (tester_token t) (tests_run t) (tests_passed t + 1)
                          (created_service_id t) in
        match rs_json response with
        | Some response_data => (w', t, (true, response_data))
        | None => (w', t, (true, JObj []))
        end
      else (w', t, (false, JObj []))
  | (w', None) => (w', t, (false, JObj []))
  end.

Definition test_login_valid (t : Tester) (w : world) : result (world * Tester * bool) :=
  let '(w, t, (success, response)) :=
    run_test POST AuthLogin 200
      (Some (JObj [("email", JStr "bilgi@gallaxdesign.com"); ("password", JStr "gallax11")]))
      t w in
  if success then
    has_token <- json_contains "token" response ;;
    if has_token : bool then
      tok <- json_getitem "token" response ;;
      Ok (w, mkTester tok (tests_run t) (tests_passed t) (created_service_id t), true)
    else Ok (w, t, false)
  else Ok (w, t, false).

Definition test_login_invalid (t : Tester) (w : world) : result (world * Tester * bool) :=
  let '(w, t, (success, response)) :=
    run_test POST AuthLogin 401
      (Some (JObj [("email", JStr "wrong@email.com"); ("password", JStr "wrongpass")]))
      t w in
  Ok (w, t, success).

Definition test_get_services_unauthorized (t : Tester) (w : world)
    : result (world * Tester * bool) :=
  let old_token := tester_token t in
  let t := mkTester JNull (tests_run t) (tests_passed t) (created_service_id t) in
  let '(w, t, (success, response)) := run_test GET Services 401 None t w in
  let t := mkTester old_token (tests_run t) (tests_passed t) (created_service_id t) in
  Ok (w, t, success).

Definition test_get_services (t : Tester) (w : world) : result (world * Tester * bool) :=
  let '(w, t, (success, response)) := run_test GET Services 200 None t w in
  if success then
    found <- json_len response ;;
    Ok (w, t, success)
  else Ok (w, t, success).

(** [hms] is [datetime.now().strftime('%H%M%S')]. *)
Definition test_create_service (hms : string) (t : Tester) (w : world)
    : result (world * Tester * bool) :=
  let service_data :=
    JObj [ ("name", JStr ("Test Service " ++ hms));
           ("service_type", JStr "Domain");
           ("provider", JStr "Test Provider");
           ("creation_date", JStr "2024-01-01");
           ("last_renewal_date", JStr "2024-01-01");
           ("next_renewal_date", JStr "2025-01-01");
           ("annual_fee", JFloat (float_of_int 100));
           ("currency", JStr "TRY");
           ("status", JStr "active");
           ("notes", JStr "Test service created by automated test") ] in
  let '(w, t, (success, response)) := run_test POST Services 200 (Some service_data) t w in
  if success then
    has_id <- json_contains "id" response ;;
    if has_id : bool then
      new_id <- json_getitem "id" response ;;
      Ok (w, mkTester (tester_token t) (tests_run t) (tests_passed t) new_id, true)
    else Ok (w, t, false)
  else Ok (w, t, false).

(** The four tests that need the identifier of the created service: without
    one they return at once, and send nothing. *)
Definition with_created_id (method : http_method) (expected_status : nat)
    (data : option json) (t : Tester) (w : world) : result (world * Tester * bool) :=
  if negb (json_truthy (created_service_id t)) then Ok (w, t, false)
  else
    let '(w, t, (success, response)) :=
      run_test method (ServiceById (created_service_id t)) expected_status data t w in
    Ok (w, t, success).

Definition test_get_service_by_id (t : Tester) (w : world) :=
  with_created_id GET 200 None t w.

Definition test_update_service (hms : string) (t : Tester) (w : world) :=
  let update_data :=
    JObj [ ("name", JStr ("Updated Test Service " ++ hms));
           ("annual_fee", JFloat (float_of_int 150));
           ("notes", JStr "Updated by automated test") ] in
  with_created_id PUT 200 (Some update_data) t w.

Definition expected_keys : list string :=
  ["total_services"; "active_services"; "total_annual_fees"; "services_by_type"].

(** The loop [for key in expected_keys]: a key that is [in response] is
    printed with [response[key]], a missing one is reported, and the loop
    goes on either way. *)
Fixpoint check_keys (ks : list string) (response : json) : result unit :=
  match ks with
  | [] => Ok tt
  | key :: rest =>
      present <- json_contains key response ;;
      if present : bool then
        shown <- json_getitem key response ;;
        check_keys rest response
      else check_keys rest response
  end.

Definition test_get_dashboard_stats (t : Tester) (w : world)
    : result (world * Tester * bool) :=
  let '(w, t, (success, response)) := run_test GET StatsDashboard 200 None t w in
  if success then
    checked <- check_keys expected_keys response ;;
    Ok (w, t, success)
  else Ok (w, t, success).

Definition test_delete_service (t : Tester) (w : world) :=
  with_created_id DELETE 200 None t w.

Definition test_get_deleted_service (t : Tester) (w : world) :=
  with_created_id GET 404 None t w.

(** The loop of [main] over a list of tests; a test that returns false is
    reported and the loop goes on. *)
Fixpoint run_tests (tests : list (Tester -> world -> result (world * Tester * bool)))
    (t : Tester) (w : world) : result (world * Tester) :=
  match tests with
  | [] => Ok (w, t)
  | test_func :: rest =>
      r <- test_func t w ;;
      let '(w, t, passed) := r in
      run_tests rest t w
  end.

(** [main]: the state of the tester at the end and the exit code. *)
Definition main (hms_create hms_update : string) (w : world)
    : result (world * Tester * nat) :=
  let tester := mkTester JNull 0 0 JNull in
  r <- run_tests [ test_login_invalid; test_get_services_unauthorized; test_login_valid ]
         tester w ;;
  let '(w, tester) := r in
  r <- run_tests [ test_get_services; test_create_service hms_create;
                   test_get_service_by_id; test_update_service hms_update;
                   test_get_dashboard_stats; test_delete_service;
                   test_get_deleted_service ] tester w ;;
  let '(w, tester) := r in
  if Nat.eqb (tests_passed tester) (tests_run tester) then Ok (w, tester, 0)
  else Ok (w, tester, 1).

(** A body as the API sends them: an object, or an array of objects. *)
Definition is_object (j : json) : bool :=
  match j with
  | JObj _ => true
  | _ => false
  end.

Definition api_body (j : json) : bool :=
  match j with
  | JObj _ => true
  | JArr items => forallb is_object items
  | _ => false
  end.

(** Between two states of the tester, [n] requests were counted. *)
Definition counted (n : nat) (t t' : Tester) : Prop :=
  tests_run t' = tests_run t + n /\
  tests_passed t <= tests_passed t' /\
  tests_passed t' <= tests_passed t + n.

(** The bearer token [run_test] sends for a state of the tester. *)
Definition bearer_of (t : Tester) : option json :=
  if json_truthy (tester_token t) then Some (tester_token t) else None.

End Tester.

(** ** More sample data *)

(** A soft-deleted record under the identifier of [record_a]. *)
Definition record_a_old : @Service whole_amounts :=
  sample_service "a" "Hosting" "inactive" 5 true.

(** The document of [record_b] with a text where the next renewal date
    should be. *)
Definition text_date_doc : @dict whole_amounts :=
  dict_set "next_renewal_date" (VStr "soon") (stored record_b).

(** An update of a deleted record, a delete and a create, all with the
    token in the header. *)
Definition sample_requests : list (option string * call * Env) :=
  [ (Some "Bearer authenticated",
     UpdateService (F := whole_amounts) "c" sample_update, sample_env);
    (Some "Bearer authenticated", DeleteService "a", sample_env);
    (Some "Bearer authenticated", CreateService sample_create, sample_env) ].

(** A server that answers every request with status 200 and the same
    object; its state counts the requests. *)
Definition canned_network : @Network whole_amounts :=
  {| world := nat;
     send := fun w rq =>
       (S w, Some (mkResponse 200
                     (Some (JObj [("token", JStr "authenticated");
                                  ("id", JStr "id-new")])))) |}.

(** * Properties *)

Section DictFacts.

Context {F : PyFloat}.

Lemma dict_get_set (k k' : string) (v : value) (d : dict) :
  dict_get k (dict_set k' v d) = if String.eqb k k' then Some v else dict_get k d.
Proof.
  induction d as [|[k0 v0] r IH]; simpl.
  - destruct (String.eqb k k'); reflexivity.
  - destruct (String.eqb k' k0) eqn:E0; simpl.
    + apply String.eqb_eq in E0. subst k0.
      destruct (String.eqb k k'); reflexivity.
    + destruct (String.eqb k k0) eqn:E1.
      * apply String.eqb_eq in E1. subst k0.
        rewrite String.eqb_sym, E0. reflexivity.
      * exact IH.
Qed.

Lemma dict_get_not_in (k : string) (d : dict) :
  ~ In k (keys d) -> dict_get k d = None.
Proof.
  induction d as [|[k0 v0] r IH]; simpl; intros H; [reflexivity|].
  destruct (String.eqb k k0) eqn:E.
  - apply String.eqb_eq in E. subst. tauto.
  - apply IH. tauto.
Qed.

Lemma dict_get_in (k : string) (v : value) (d : dict) :
  dict_get k d = Some v -> In k (keys d).
Proof.
  induction d as [|[k0 v0] r IH]; simpl; [discriminate|].
  destruct (String.eqb k k0) eqn:E; intros H.
  - left. apply String.eqb_eq in E. congruence.
  - right. auto.
Qed.

Lemma keys_dict_set (k k' : string) (v : value) (d : dict) :
  In k (keys (dict_set k' v d)) <-> k = k' \/ In k (keys d).
Proof.
  induction d as [|[k0 v0] r IH]; simpl.
  - intuition congruence.
  - destruct (String.eqb k' k0) eqn:E; simpl.
    + apply String.eqb_eq in E. subst. intuition congruence.
    + rewrite IH. tauto.
Qed.

Lemma NoDup_keys_dict_set (k : string) (v : value) (d : dict) :
  NoDup (keys d) -> NoDup (keys (dict_set k v d)).
Proof.
  induction d as [|[k0 v0] r IH]; simpl; intros H.
  - constructor; [tauto | constructor].
  - inversion H as [|? ? Hn Hr]; subst.
    destruct (String.eqb k k0) eqn:E; simpl.
    + constructor; assumption.
    + constructor; [|auto].
      intros Hin. apply keys_dict_set in Hin. destruct Hin as [->|Hin]; [|tauto].
      rewrite String.eqb_refl in E. discriminate.
Qed.

Lemma keys_filter (p : string * value -> bool) (k : string) (d : dict) :
  In k (keys (filter p d)) -> In k (keys d).
Proof.
  unfold keys. rewrite !in_map_iff. intros [x [Hx Hin]].
  apply filter_In in Hin. exists x. tauto.
Qed.

Lemma NoDup_keys_filter (p : string * value -> bool) (d : dict) :
  NoDup (keys d) -> NoDup (keys (filter p d)).
Proof.
  induction d as [|[k0 v0] r IH]; simpl; intros H; [constructor|].
  inversion H as [|? ? Hn Hr]; subst.
  destruct (p (k0, v0)); simpl; [|auto].
  constructor; [|auto]. intros Hin. apply keys_filter in Hin. tauto.
Qed.

Lemma dict_get_filter (p : value -> bool) (k : string) (d : dict) :
  NoDup (keys d) ->
  dict_get k (filter (fun kv => p (snd kv)) d) =
  match dict_get k d with
  | Some v => if p v then Some v else None
  | None => None
  end.
Proof.
  induction d as [|[k0 v0] r IH]; simpl; intros H; [reflexivity|].
  inversion H as [|? ? Hn Hr]; subst.
  destruct (String.eqb k k0) eqn:E.
  - apply String.eqb_eq in E. subst k0.
    destruct (p v0); simpl.
    + rewrite String.eqb_refl. reflexivity.
    + apply dict_get_not_in. intros Hin. apply keys_filter in Hin. tauto.
  - destruct (p v0); simpl; [rewrite E|]; auto.
Qed.

Lemma keys_dates_to_datetimes (d : dict) : keys (dates_to_datetimes d) = keys d.
Proof.
  unfold keys, dates_to_datetimes. rewrite map_map. reflexivity.
Qed.

Lemma dict_get_dates_to_datetimes (k : string) (d : dict) :
  dict_get k (dates_to_datetimes d) = option_map date_to_datetime (dict_get k d).
Proof.
  induction d as [|[k0 v0] r IH]; simpl; [reflexivity|].
  destruct (String.eqb k k0); [reflexivity | exact IH].
Qed.

(** [$set] leaves the fields it does not list as they are. *)
Lemma dict_get_apply_set_other (k : string) (fields doc : dict) :
  ~ In k (keys fields) -> dict_get k (apply_set fields doc) = dict_get k doc.
Proof.
  unfold apply_set. revert doc.
  induction fields as [|[k0 v0] r IH]; simpl; intros doc H; [reflexivity|].
  rewrite IH by tauto. rewrite dict_get_set.
  destruct (String.eqb k k0) eqn:E; [|reflexivity].
  apply String.eqb_eq in E. subst. tauto.
Qed.

(** [$set] gives the fields it lists their new value. *)
Lemma dict_get_apply_set (k : string) (fields doc : dict) :
  NoDup (keys fields) ->
  dict_get k (apply_set fields doc) =
  match dict_get k fields with
  | Some v => Some v
  | None => dict_get k doc
  end.
Proof.
  unfold apply_set. revert doc.
  induction fields as [|[k0 v0] r IH]; simpl; intros doc H; [reflexivity|].
  inversion H as [|? ? Hn Hr]; subst.
  rewrite IH by assumption. rewrite dict_get_set.
  destruct (String.eqb k k0) eqn:E; [|reflexivity].
  apply String.eqb_eq in E. subst k0.
  rewrite (dict_get_not_in k r) by assumption. reflexivity.
Qed.

End DictFacts.

Section StoredFacts.

Context {F : PyFloat}.

Lemma Service_init_stored (fresh : Fresh) (s : Service) :
  Service_init fresh (stored s) = Ok s.
Proof.
  destruct s as [i n t p cd [lr|] [nr|] fee cur st [no|] del ca ua];
    destruct cd; try destruct lr; try destruct nr; reflexivity.
Qed.

Lemma Service_init_create (fresh : Fresh) (c : ServiceCreate) :
  Service_init fresh (ServiceCreate_dict c) = Ok (Service_created fresh c).
Proof.
  destruct c as [n t p cd [lr|] [nr|] fee cur st [no|]]; reflexivity.
Qed.

Lemma stored_fields (s : Service) :
  stored s =
  [ ("id", VStr (id s));
    ("name", VStr (name s));
    ("service_type", VStr (service_type s));
    ("provider", VStr (provider s));
    ("creation_date", midnight (creation_date s));
    ("last_renewal_date", opt_value midnight (last_renewal_date s));
    ("next_renewal_date", opt_value midnight (next_renewal_date s));
    ("annual_fee", VFloat (annual_fee s));
    ("currency", VStr (currency s));
    ("status", VStr (status s));
    ("notes", opt_value VStr (notes s));
    ("is_deleted", VBool (is_deleted s));
    ("created_at", VDatetime (created_at s));
    ("updated_at", VDatetime (updated_at s)) ].
Proof.
  destruct s as [i n t p cd [lr|] [nr|] fee cur st [no|] del ca ua]; reflexivity.
Qed.

Lemma apply_set_update_stored (u : ServiceUpdate) (now : datetime) (s : Service) :
  apply_set (update_data_of u now) (stored s) = stored (Service_updated u now s).
Proof.
  rewrite !stored_fields.
  destruct s as [i n t p cd lr nr fee cur st no del ca ua].
  destruct u as [[a|] [b|] [c|] [d|] [e|] [f|] [g|] [h|] [j|] [k|]];
    reflexivity.
Qed.

Lemma apply_set_delete_stored (now : datetime) (s : Service) :
  apply_set [("is_deleted", VBool true); ("updated_at", VDatetime now)] (stored s)
  = stored (Service_deleted now s).
Proof.
  destruct s as [i n t p cd lr nr fee cur st no del ca ua]. reflexivity.
Qed.

End StoredFacts.

Section StoreFacts.

Context {F : PyFloat}.

Lemma value_eqb_VStr (i : string) (v : value) :
  value_eqb (VStr i) v = true <-> v = VStr i.
Proof.
  destruct v; simpl; try (split; [discriminate | discriminate]).
  rewrite String.eqb_eq. split; congruence.
Qed.

Lemma value_eqb_VBool (b : bool) (v : value) :
  value_eqb (VBool b) v = true <-> v = VBool b.
Proof.
  destruct v; simpl; try (split; [discriminate | discriminate]).
  rewrite Bool.eqb_true_iff. split; congruence.
Qed.

Lemma matches_by_id_live (i : string) (doc : dict) :
  matches (by_id_live i) doc = true <-> has_id i doc /\ live doc.
Proof.
  unfold matches, by_id_live, has_id, live. cbn [forallb fst snd].
  rewrite andb_true_r, andb_true_iff.
  destruct (dict_get "id" doc) as [v|], (dict_get "is_deleted" doc) as [w|];
    cbn [is_None].
  - rewrite value_eqb_VStr, value_eqb_VBool. split; intros [H1 H2]; split; congruence.
  - rewrite value_eqb_VStr. split; intros [H1 H2]; discriminate.
  - split; intros [H1 H2]; discriminate.
  - split; intros [H1 H2]; discriminate.
Qed.

Lemma matches_by_id (i : string) (doc : dict) :
  matches [("id", VStr i)] doc = true <-> has_id i doc.
Proof.
  unfold matches, has_id. cbn [forallb fst snd]. rewrite andb_true_r.
  destruct (dict_get "id" doc) as [v|]; cbn [is_None].
  - rewrite value_eqb_VStr. split; congruence.
  - split; discriminate.
Qed.

Lemma matches_live (doc : dict) :
  matches [("is_deleted", VBool false)] doc = liveb doc.
Proof.
  unfold matches, liveb. cbn [forallb fst snd].
  destruct (dict_get "is_deleted" doc) as [[|[]| | | | |]|]; reflexivity.
Qed.

Lemma matches_live_active (doc : dict) :
  matches [("is_deleted", VBool false); ("status", VStr "active")] doc
  = liveb doc && activeb doc.
Proof.
  unfold matches, liveb, activeb. cbn [forallb fst snd]. rewrite andb_true_r.
  destruct (dict_get "is_deleted" doc) as [[|[]| | | | |]|];
    destruct (dict_get "status" doc) as [[| | | |st| |]|];
    cbn [is_None value_eqb andb Bool.eqb]; try reflexivity.
  apply String.eqb_sym.
Qed.

Lemma liveb_live (doc : dict) : liveb doc = true <-> live doc.
Proof.
  unfold liveb, live.
  destruct (dict_get "is_deleted" doc) as [[|[]| | | | |]|];
    split; (congruence || discriminate).
Qed.

(** No document matches, or there is a first one. *)
Lemma first_match (query : dict) (db : collection) :
  (forall doc, In doc db -> matches query doc = false) \/
  (exists pre doc post,
      db = pre ++ doc :: post /\
      (forall d, In d pre -> matches query d = false) /\
      matches query doc = true).
Proof.
  induction db as [|d r IH].
  - left. intros doc [].
  - destruct (matches query d) eqn:E.
    + right. exists [], d, r. split; [reflexivity|]. split; [intros ? []|exact E].
    + destruct IH as [IH | (pre & doc & post & -> & Hpre & Hdoc)].
      * left. intros doc [<-|Hin]; auto.
      * right. exists (d :: pre), doc, post. split; [reflexivity|].
        split; [|exact Hdoc]. intros x [<-|Hin]; auto.
Qed.

Lemma update_one_none (query fields : dict) (db : collection) :
  (forall doc, In doc db -> matches query doc = false) ->
  update_one query fields db = (db, 0).
Proof.
  induction db as [|d r IH]; simpl; intros H; [reflexivity|].
  rewrite (H d) by (left; reflexivity).
  rewrite IH by (intros; apply H; right; assumption). reflexivity.
Qed.

Lemma update_one_first (query fields : dict) (pre : collection) (doc : dict)
    (post : collection) :
  (forall d, In d pre -> matches query d = false) ->
  matches query doc = true ->
  update_one query fields (pre ++ doc :: post) = (pre ++ apply_set fields doc :: post, 1).
Proof.
  induction pre as [|d r IH]; simpl; intros Hpre Hdoc.
  - rewrite Hdoc. reflexivity.
  - rewrite (Hpre d) by (left; reflexivity).
    rewrite IH by (intros; auto). reflexivity.
Qed.

Lemma find_one_none (query : dict) (db : collection) :
  (forall doc, In doc db -> matches query doc = false) ->
  find_one query db = None.
Proof.
  unfold find_one. induction db as [|d r IH]; simpl; intros H; [reflexivity|].
  rewrite (H d) by (left; reflexivity). apply IH. intros; apply H; right; assumption.
Qed.

Lemma find_one_first (query : dict) (pre : collection) (doc : dict) (post : collection) :
  (forall d, In d pre -> matches query d = false) ->
  matches query doc = true ->
  find_one query (pre ++ doc :: post) = Some doc.
Proof.
  unfold find_one. induction pre as [|d r IH]; simpl; intros Hpre Hdoc.
  - rewrite Hdoc. reflexivity.
  - rewrite (Hpre d) by (left; reflexivity). apply IH; auto.
Qed.

Lemma update_service_fst (fresh : Fresh) (now : datetime) (i : string)
    (u : ServiceUpdate) (db : collection) :
  fst (update_service fresh now i u db)
  = fst (update_one (by_id_live i) (update_data_of u now) db).
Proof.
  unfold update_service, by_id_live.
  destruct (update_one _ _ db) as [db' n]. destruct (Nat.eqb n 0); reflexivity.
Qed.

Lemma delete_service_fst (now : datetime) (i : string) (db : collection) :
  fst (delete_service now i db)
  = fst (update_one (by_id_live i)
           [("is_deleted", VBool true); ("updated_at", VDatetime now)] db).
Proof.
  unfold delete_service, by_id_live.
  destruct (update_one _ _ db) as [db' n]. destruct (Nat.eqb n 0); reflexivity.
Qed.

(** *** The fields of the [$set] document of [update_service] *)

Lemma update_data_keys (u : ServiceUpdate) (now : datetime) (k : string) :
  In k (keys (update_data_of u now)) ->
  k = "updated_at" \/ In k (keys (ServiceUpdate_dict u)).
Proof.
  unfold update_data_of. rewrite keys_dates_to_datetimes.
  intros H. apply keys_dict_set in H. destruct H as [H|H]; [left; exact H|].
  right. eapply keys_filter. exact H.
Qed.

Lemma ServiceUpdate_dict_keys (u : ServiceUpdate) :
  keys (ServiceUpdate_dict u) =
  [ "name"; "service_type"; "provider"; "creation_date"; "last_renewal_date";
    "next_renewal_date"; "annual_fee"; "currency"; "status"; "notes" ].
Proof. reflexivity. Qed.

Lemma ServiceUpdate_dict_NoDup (u : ServiceUpdate) : NoDup (keys (ServiceUpdate_dict u)).
Proof.
  rewrite ServiceUpdate_dict_keys.
  repeat (constructor; [simpl; intuition discriminate|]). constructor.
Qed.

Lemma update_data_NoDup (u : ServiceUpdate) (now : datetime) :
  NoDup (keys (update_data_of u now)).
Proof.
  unfold update_data_of. rewrite keys_dates_to_datetimes.
  apply NoDup_keys_dict_set. apply NoDup_keys_filter. apply ServiceUpdate_dict_NoDup.
Qed.

Lemma dict_get_update_data (u : ServiceUpdate) (now : datetime) (k : string) :
  dict_get k (update_data_of u now) =
  if String.eqb k "updated_at" then Some (VDatetime now)
  else option_map date_to_datetime (supplied u k).
Proof.
  unfold update_data_of, supplied.
  rewrite dict_get_dates_to_datetimes, dict_get_set.
  destruct (String.eqb k "updated_at"); [reflexivity|].
  rewrite (dict_get_filter (fun v => negb (is_None v))) by apply ServiceUpdate_dict_NoDup.
  destruct (dict_get k (ServiceUpdate_dict u)) as [v|]; [|reflexivity].
  destruct (is_None v); reflexivity.
Qed.

(** *** Documents this API wrote stay such documents *)

Lemma wf_db_app (db db' : collection) : wf_db db -> wf_db db' -> wf_db (db ++ db').
Proof. unfold wf_db. intros H H'. apply Forall_app. split; assumption. Qed.

Lemma wf_db_split (pre : collection) (doc : dict) (post : collection) :
  wf_db (pre ++ doc :: post) -> wf_db pre /\ wf_doc doc /\ wf_db post.
Proof.
  unfold wf_db. intros H. apply Forall_app in H. destruct H as [H1 H2].
  inversion H2; subst. auto.
Qed.

Lemma wf_db_join (pre : collection) (doc : dict) (post : collection) :
  wf_db pre -> wf_doc doc -> wf_db post -> wf_db (pre ++ doc :: post).
Proof.
  unfold wf_db. intros H1 H2 H3. apply Forall_app. split; [assumption|].
  constructor; assumption.
Qed.

Lemma wf_update_one (query fields : dict) (db : collection) :
  (forall doc, wf_doc doc -> wf_doc (apply_set fields doc)) ->
  wf_db db -> wf_db (fst (update_one query fields db)).
Proof.
  intros Hf Hdb.
  destruct (first_match query db) as [Hn | (pre & doc & post & -> & Hpre & Hdoc)].
  - rewrite update_one_none by assumption. exact Hdb.
  - rewrite update_one_first by assumption. simpl.
    apply wf_db_split in Hdb. destruct Hdb as (H1 & H2 & H3).
    apply wf_db_join; auto.
Qed.

Lemma wf_doc_update (u : ServiceUpdate) (now : datetime) (doc : dict) :
  wf_doc doc -> wf_doc (apply_set (update_data_of u now) doc).
Proof.
  intros [s ->]. exists (Service_updated u now s). apply apply_set_update_stored.
Qed.

Lemma wf_doc_delete (now : datetime) (doc : dict) :
  wf_doc doc ->
  wf_doc (apply_set [("is_deleted", VBool true); ("updated_at", VDatetime now)] doc).
Proof.
  intros [s ->]. exists (Service_deleted now s). apply apply_set_delete_stored.
Qed.

Lemma create_service_eq (fresh : Fresh) (c : ServiceCreate) (db : collection) :
  create_service fresh c db
  = (db ++ [stored (Service_created fresh c)], Ok (Service_created fresh c)).
Proof.
  unfold create_service. rewrite Service_init_create. reflexivity.
Qed.

End StoreFacts.

Section Monotone.

Context {F : PyFloat}.

Lemma keeps_records_refl (db : collection) : keeps_records db db.
Proof. intros i doc H. exists doc. auto. Qed.

Lemma keeps_records_trans (db1 db2 db3 : collection) :
  keeps_records db1 db2 -> keeps_records db2 db3 -> keeps_records db1 db3.
Proof.
  intros H12 H23 i doc H.
  destruct (H12 i doc H) as (d2 & Hd2 & Hid2 & Hdel2).
  destruct (H23 i d2 Hd2) as (d3 & Hd3 & Hid3 & Hdel3).
  exists d3. split; [exact Hd3|]. split; [congruence|].
  unfold live in *.
  destruct Hdel2 as [E2|[L2 T2]], Hdel3 as [E3|[L3 T3]].
  - left. congruence.
  - right. split; congruence.
  - right. split; congruence.
  - right. split; congruence.
Qed.

Lemma keeps_records_insert (doc : dict) (db : collection) :
  keeps_records db (insert_one doc db).
Proof.
  intros i d H. exists d. unfold insert_one.
  rewrite nth_error_app1 by (apply nth_error_Some; congruence). auto.
Qed.

Lemma keeps_records_update_one (query fields : dict) (db : collection) :
  (forall doc, dict_get "id" (apply_set fields doc) = dict_get "id" doc) ->
  (forall doc, matches query doc = true ->
               dict_get "is_deleted" (apply_set fields doc) = dict_get "is_deleted" doc \/
               (live doc /\
                dict_get "is_deleted" (apply_set fields doc) = Some (VBool true))) ->
  keeps_records db (fst (update_one query fields db)).
Proof.
  intros Hid Hdel. induction db as [|d r IH]; simpl.
  - apply keeps_records_refl.
  - destruct (matches query d) eqn:E.
    + intros [|i] doc H; simpl in *.
      * inversion H; subst. exists (apply_set fields doc). auto.
      * exists doc. auto.
    + destruct (update_one query fields r) as [r' n]. simpl in *.
      intros [|i] doc H; simpl in *.
      * exists doc. auto.
      * apply IH. exact H.
Qed.

Lemma update_data_keeps_id (u : ServiceUpdate) (now : datetime) (doc : dict) :
  dict_get "id" (apply_set (update_data_of u now) doc) = dict_get "id" doc.
Proof.
  apply dict_get_apply_set_other. intros H.
  apply update_data_keys in H. rewrite ServiceUpdate_dict_keys in H.
  cbn [In] in H. intuition discriminate.
Qed.

Lemma update_data_keeps_is_deleted (u : ServiceUpdate) (now : datetime) (doc : dict) :
  dict_get "is_deleted" (apply_set (update_data_of u now) doc)
  = dict_get "is_deleted" doc.
Proof.
  apply dict_get_apply_set_other. intros H.
  apply update_data_keys in H. rewrite ServiceUpdate_dict_keys in H.
  cbn [In] in H. intuition discriminate.
Qed.

Lemma keeps_records_create (fresh : Fresh) (c : ServiceCreate) (db : collection) :
  keeps_records db (fst (create_service fresh c db)).
Proof.
  rewrite create_service_eq. apply (keeps_records_insert (stored _)).
Qed.

Lemma keeps_records_update (fresh : Fresh) (now : datetime) (i : string)
    (u : ServiceUpdate) (db : collection) :
  keeps_records db (fst (update_service fresh now i u db)).
Proof.
  rewrite update_service_fst. apply keeps_records_update_one.
  - intros doc. apply update_data_keeps_id.
  - intros doc _. left. apply update_data_keeps_is_deleted.
Qed.

Lemma keeps_records_delete (now : datetime) (i : string) (db : collection) :
  keeps_records db (fst (delete_service now i db)).
Proof.
  rewrite delete_service_fst. apply keeps_records_update_one.
  - intros doc. apply dict_get_apply_set_other. cbn [keys map fst In].
    intuition discriminate.
  - intros doc Hm. right. apply matches_by_id_live in Hm. split; [apply Hm|].
    unfold apply_set. cbn [fold_left fst snd].
    rewrite !dict_get_set. reflexivity.
Qed.

End Monotone.

Section RecordFacts.

Context {F : PyFloat}.

Lemma no_live_match (i : string) (docs : list dict) :
  (forall d, In d docs -> ~ (has_id i d /\ live d)) ->
  forall d, In d docs -> matches (by_id_live i) d = false.
Proof.
  intros H d Hin. destruct (matches (by_id_live i) d) eqn:E; [|reflexivity].
  apply matches_by_id_live in E. destruct (H d Hin E).
Qed.

Lemma stored_id (s : Service) : dict_get "id" (stored s) = Some (VStr (id s)).
Proof. rewrite stored_fields. reflexivity. Qed.

Lemma stored_is_deleted (s : Service) :
  dict_get "is_deleted" (stored s) = Some (VBool (is_deleted s)).
Proof. rewrite stored_fields. reflexivity. Qed.

Lemma stored_nonempty (s : Service) : stored s <> [].
Proof. rewrite stored_fields. discriminate. Qed.

Lemma get_service_first (fresh : Fresh) (i : string) (pre : collection) (s : Service)
    (post : collection) :
  (forall d, In d pre -> matches (by_id_live i) d = false) ->
  matches (by_id_live i) (stored s) = true ->
  get_service fresh i (pre ++ stored s :: post) = Ok s.
Proof.
  intros Hpre Hdoc. unfold get_service.
  fold (by_id_live i). rewrite find_one_first by assumption.
  pose proof (stored_nonempty s) as Hne.
  destruct (stored s) as [|kv r] eqn:E; [congruence|].
  rewrite <- E. apply Service_init_stored.
Qed.

Lemma supplied_empty (k : string) : supplied empty_update k = None.
Proof.
  unfold supplied, empty_update, ServiceUpdate_dict.
  cbn [su_name su_service_type su_provider su_creation_date su_last_renewal_date
       su_next_renewal_date su_annual_fee su_currency su_status su_notes
       opt_value dict_get].
  repeat match goal with
         | |- context [String.eqb k ?x] => destruct (String.eqb k x)
         end; reflexivity.
Qed.

End RecordFacts.

Section PipelineFacts.

Context {F : PyFloat}.

Lemma aggregate_match_group (query : dict) (g : group_id) (out : string)
    (acc : accumulator) (db : collection) :
  aggregate [Match query; Group g out acc] db
  = map (fun kt => [("_id", fst kt); (out, snd kt)])
        (group_docs g acc (filter (matches query) db)).
Proof. reflexivity. Qed.

Lemma filter_live (db : collection) :
  filter (matches [("is_deleted", VBool false)]) db = filter liveb db.
Proof. apply filter_ext. intros doc. apply matches_live. Qed.

Lemma filter_live_active (db : collection) :
  filter (matches [("is_deleted", VBool false); ("status", VStr "active")]) db
  = active_records db.
Proof. apply filter_ext. intros doc. apply matches_live_active. Qed.

(** *** One group for the whole input: [_id: None] *)

Lemma group_null_step (acc : accumulator) (docs : list dict) (total : value) :
  fold_left (fun groups doc => bump (group_key IdNull doc) (acc_term acc doc) groups)
            docs [(VNone, total)]
  = [(VNone, fold_left num_add (map (acc_term acc) docs) total)].
Proof.
  revert total. induction docs as [|d r IH]; intros total; [reflexivity|].
  cbn [fold_left map group_key bump value_eqb]. apply IH.
Qed.

Lemma group_null (acc : accumulator) (docs : list dict) :
  group_docs IdNull acc docs =
  match docs with
  | [] => []
  | _ :: _ => [(VNone, sum_values (map (acc_term acc) docs))]
  end.
Proof.
  destruct docs as [|d r]; [reflexivity|].
  unfold group_docs, sum_values. cbn [fold_left map group_key bump].
  apply group_null_step.
Qed.

Lemma sum_floats (fs : list float) (a : float) :
  fold_left num_add (map VFloat fs) (VFloat a) = VFloat (fold_left fadd fs a).
Proof.
  revert a. induction fs as [|f r IH]; intros a; [reflexivity|].
  cbn [fold_left map num_add]. apply IH.
Qed.

Lemma stored_annual_fee (s : Service) :
  dict_get_none "annual_fee" (stored s) = VFloat (annual_fee s).
Proof. rewrite stored_fields. reflexivity. Qed.

(** *** One group per service type *)

Lemma bump_embed (t : string) (groups : list (string * Z)) :
  bump (VStr t) (VInt 1) (map embed_group groups) = map embed_group (bump_name t groups).
Proof.
  induction groups as [|[k n] r IH]; [reflexivity|].
  cbn [map bump bump_name embed_group fst snd value_eqb num_add].
  destruct (String.eqb t k); [reflexivity|].
  cbn [map embed_group fst snd]. f_equal. exact IH.
Qed.

Lemma group_by_type_step (docs : list dict) (groups : list (string * Z)) :
  (forall d, In d docs -> exists t, dict_get "service_type" d = Some (VStr t)) ->
  fold_left (fun gs doc => bump (group_key (IdField "service_type") doc)
                                (acc_term (SumConst 1) doc) gs)
            docs (map embed_group groups)
  = map embed_group (fold_left (fun gs t => bump_name t gs) (type_names docs) groups).
Proof.
  revert groups. induction docs as [|d r IH]; intros groups H; [reflexivity|].
  destruct (H d (or_introl eq_refl)) as [t Ht].
  cbn [fold_left type_names flat_map group_key acc_term].
  unfold dict_get_none, dict_get_default. rewrite Ht.
  cbn [app fold_left]. rewrite bump_embed.
  apply IH. intros d' Hin. apply H. right. exact Hin.
Qed.

Lemma group_by_type (docs : list dict) :
  (forall d, In d docs -> exists t, dict_get "service_type" d = Some (VStr t)) ->
  group_docs (IdField "service_type") (SumConst 1) docs
  = map embed_group (count_names (type_names docs)).
Proof.
  intros H. unfold group_docs, count_names.
  apply (group_by_type_step docs [] H).
Qed.

(** *** The tally [count_names] *)

Lemma bump_name_keys (t k : string) (groups : list (string * Z)) :
  In k (map fst (bump_name t groups)) <-> k = t \/ In k (map fst groups).
Proof.
  induction groups as [|[k0 n0] r IH]; cbn [bump_name map fst In].
  - intuition congruence.
  - destruct (String.eqb_spec t k0) as [->|Hne]; cbn [map fst In].
    + intuition congruence.
    + rewrite IH. tauto.
Qed.

Lemma bump_name_NoDup (t : string) (groups : list (string * Z)) :
  NoDup (map fst groups) -> NoDup (map fst (bump_name t groups)).
Proof.
  induction groups as [|[k0 n0] r IH]; cbn [bump_name map fst]; intros H.
  - constructor; [intros [] | constructor].
  - inversion H as [|? ? Hn Hr]; subst.
    destruct (String.eqb_spec t k0) as [->|Hne]; cbn [map fst].
    + constructor; assumption.
    + constructor; [|auto]. intros Hin. apply bump_name_keys in Hin.
      destruct Hin as [->|Hin]; [congruence | contradiction].
Qed.

Lemma bump_name_In (t k : string) (n : Z) (groups : list (string * Z)) :
  NoDup (map fst groups) ->
  In (k, n) (bump_name t groups) ->
  (k <> t /\ In (k, n) groups) \/
  (k = t /\ exists m, In (t, m) groups /\ n = (m + 1)%Z) \/
  (k = t /\ ~ In t (map fst groups) /\ n = 1%Z).
Proof.
  induction groups as [|[k0 n0] r IH]; cbn [bump_name map fst In]; intros Hnd Hin.
  - destruct Hin as [Hin|[]]. inversion Hin; subst. right. right. tauto.
  - inversion Hnd as [|? ? Hn Hr]; subst.
    destruct (String.eqb_spec t k0) as [->|Hne]; cbn [In] in Hin.
    + destruct Hin as [Hin|Hin].
      * inversion Hin; subst. right. left. split; [reflexivity|].
        exists n0. split; [left; reflexivity | reflexivity].
      * left. split; [|right; exact Hin].
        intros ->. apply Hn. apply (in_map fst) in Hin. exact Hin.
    + destruct Hin as [Hin|Hin].
      * inversion Hin; subst. left. split; [congruence | left; reflexivity].
      * destruct (IH Hr Hin) as [[H1 H2] | [[H1 (m & H2 & H3)] | [H1 [H2 H3]]]].
        -- left. split; [exact H1 | right; exact H2].
        -- right. left. split; [exact H1|]. exists m. split; [right; exact H2 | exact H3].
        -- right. right. split; [exact H1|]. split; [|exact H3].
           intros [Hk|Hk]; [congruence | contradiction].
Qed.

Lemma tally_ok_bump (t : string) (ts : list string) (groups : list (string * Z)) :
  tally_ok groups ts -> tally_ok (bump_name t groups) (ts ++ [t]).
Proof.
  intros (Hnd & Hall & Hc). split; [|split].
  - apply bump_name_NoDup. exact Hnd.
  - intros k Hin. apply bump_name_keys. apply in_app_or in Hin.
    destruct Hin as [Hin|[->|[]]]; [right; auto | left; reflexivity].
  - intros k n Hin. rewrite count_occ_app. cbn [count_occ].
    destruct (bump_name_In t k n groups Hnd Hin)
      as [[H1 H2] | [[H1 (m & H2 & H3)] | [H1 [H2 H3]]]].
    + destruct (Hc k n H2) as [Hn Hk].
      destruct (string_dec t k) as [E|_]; [congruence|].
      split; [lia | apply in_or_app; left; exact Hk].
    + subst k. destruct (Hc t m H2) as [Hm Hk].
      destruct (string_dec t t) as [_|E]; [|congruence].
      split; [lia | apply in_or_app; left; exact Hk].
    + subst k. destruct (string_dec t t) as [_|E]; [|congruence].
      assert (Hz : count_occ string_dec ts t = 0).
      { apply count_occ_not_In. intros Hin'. apply H2. apply Hall. exact Hin'. }
      rewrite Hz. split; [lia | apply in_or_app; right; left; reflexivity].
Qed.

Lemma count_names_snoc (ts : list string) (t : string) :
  count_names (ts ++ [t]) = bump_name t (count_names ts).
Proof. unfold count_names. rewrite fold_left_app. reflexivity. Qed.

Lemma count_names_ok (ts : list string) : tally_ok (count_names ts) ts.
Proof.
  induction ts as [|t ts IH] using rev_ind.
  - split; [constructor | split; [intros k [] | intros k n []]].
  - rewrite count_names_snoc. apply tally_ok_bump. exact IH.
Qed.

Lemma count_names_length (ts : list string) :
  List.length (count_names ts) = List.length (nodup string_dec ts).
Proof.
  destruct (count_names_ok ts) as (Hnd & Hall & Hc).
  rewrite <- (length_map fst (count_names ts)).
  apply Permutation_length. apply NoDup_Permutation.
  - exact Hnd.
  - apply NoDup_nodup.
  - intros k. rewrite nodup_In. split; [|apply Hall].
    intros Hin. apply in_map_iff in Hin. destruct Hin as [[k' n] [<- Hin]].
    apply (Hc k' n Hin).
Qed.

Lemma In_firstn {A : Type} (x : A) (n : nat) (l : list A) :
  In x (firstn n l) -> In x l.
Proof.
  revert n. induction l as [|y r IH]; intros [|n]; cbn [firstn In]; try tauto.
  intros [H|H]; [left; exact H | right; eapply IH; exact H].
Qed.

Lemma NoDup_firstn {A : Type} (n : nat) (l : list A) : NoDup l -> NoDup (firstn n l).
Proof.
  revert n. induction l as [|x r IH]; intros [|n] H; cbn [firstn]; try constructor.
  - inversion H; subst. intros Hin. apply In_firstn in Hin. contradiction.
  - inversion H; subst. apply IH. assumption.
Qed.

Lemma NoDup_map_inj {A B : Type} (f : A -> B) (l : list A) :
  (forall x y, f x = f y -> x = y) -> NoDup l -> NoDup (map f l).
Proof.
  intros Hinj. induction l as [|x r IH]; intros H; cbn [map]; [constructor|].
  inversion H as [|? ? Hn Hr]; subst. constructor; [|auto].
  intros Hin. apply in_map_iff in Hin. destruct Hin as [y [Hy Hin]].
  apply Hinj in Hy. subst. contradiction.
Qed.

Lemma wf_doc_service_type (doc : dict) :
  wf_doc doc -> exists t, dict_get "service_type" doc = Some (VStr t).
Proof. intros [s ->]. exists (service_type s). rewrite stored_fields. reflexivity. Qed.

(** What [get_dashboard_stats] returns, with its queries and pipelines
    evaluated. *)
Lemma get_dashboard_stats_eq (db : collection) :
  get_dashboard_stats db =
  Ok (mkDashboardStats
        (List.length (filter liveb db))
        (List.length (active_records db))
        (sum_values (map (dict_get_none "annual_fee") (active_records db)))
        (firstn 10
           (map (fun kt => [("_id", fst kt); ("count", snd kt)])
                (group_docs (IdField "service_type") (SumConst 1) (active_records db))))).
Proof.
  unfold get_dashboard_stats, count_documents, find_all, to_list.
  rewrite !aggregate_match_group, filter_live, !filter_live_active, group_null.
  destruct (active_records db) as [|d r]; reflexivity.
Qed.

Lemma services_by_type_eq (db : collection) :
  wf_db db ->
  firstn 10
    (map (fun kt => [("_id", fst kt); ("count", snd kt)])
         (group_docs (IdField "service_type") (SumConst 1) (active_records db)))
  = firstn 10 (map (fun kn => type_group (fst kn) (snd kn))
                   (count_names (active_types db))).
Proof.
  intros Hwf. rewrite group_by_type.
  - rewrite map_map. reflexivity.
  - intros d Hin. apply wf_doc_service_type.
    unfold active_records in Hin. apply filter_In in Hin. destruct Hin as [Hin _].
    unfold wf_db in Hwf. rewrite Forall_forall in Hwf. auto.
Qed.

End PipelineFacts.

Section ReadFacts.

Context {F : PyFloat}.

Lemma liveb_stored (s : Service) : liveb (stored s) = negb (is_deleted s).
Proof. unfold liveb. rewrite stored_is_deleted. destruct (is_deleted s); reflexivity. Qed.

Lemma stored_inj (s s' : Service) : stored s = stored s' -> s = s'.
Proof.
  intros H. pose proof (Service_init_stored (mkFresh "" (created_at s) (created_at s)) s) as E.
  rewrite H, Service_init_stored in E. congruence.
Qed.

Lemma wf_db_records (db : collection) : wf_db db -> exists ss, db = map stored ss.
Proof.
  induction 1 as [|d r [s ->] _ [ss ->]].
  - exists []. reflexivity.
  - exists (s :: ss). reflexivity.
Qed.

Lemma wf_db_stored (ss : list Service) : wf_db (map stored ss).
Proof.
  unfold wf_db. apply Forall_forall. intros d Hin. apply in_map_iff in Hin.
  destruct Hin as [s [<- _]]. exists s. reflexivity.
Qed.

Lemma Service_all_stored (fresh : nat -> Fresh) (n : nat) (ss : list Service) :
  Service_all fresh n (map stored ss) = Ok ss.
Proof.
  revert n. induction ss as [|s r IH]; intros n; [reflexivity|].
  cbn [map Service_all]. rewrite Service_init_stored. cbn [bind].
  rewrite IH. reflexivity.
Qed.

Lemma filter_liveb_stored (ss : list Service) :
  filter liveb (map stored ss) = map stored (filter (fun s => negb (is_deleted s)) ss).
Proof.
  induction ss as [|s r IH]; [reflexivity|].
  cbn [map filter]. rewrite liveb_stored.
  destruct (negb (is_deleted s)); cbn [map]; rewrite IH; reflexivity.
Qed.

Lemma get_services_stored (fresh : nat -> Fresh) (ss : list Service) :
  get_services fresh (map stored ss)
  = Ok (firstn 1000 (filter (fun s => negb (is_deleted s)) ss)).
Proof.
  unfold get_services, find_all, to_list.
  rewrite filter_live, filter_liveb_stored, firstn_map. apply Service_all_stored.
Qed.

Lemma filter_map_same {A : Type} (p : A -> bool) (g : A -> A) (l : list A) :
  (forall x, p (g x) = p x) -> filter p (map g l) = map g (filter p l).
Proof.
  intros H. induction l as [|x r IH]; [reflexivity|].
  cbn [map filter]. rewrite H. destruct (p x); cbn [map]; rewrite IH; reflexivity.
Qed.

Lemma mapM_map_same {A B : Type} (f : A -> result B) (g : A -> A) (l : list A) :
  (forall x, f (g x) = f x) -> mapM f (map g l) = mapM f l.
Proof.
  intros H. induction l as [|x r IH]; [reflexivity|].
  cbn [map mapM]. rewrite H, IH. reflexivity.
Qed.

Lemma dict_get_set_ne (k k' : string) (v : value) (d : dict) :
  String.eqb k k' = false -> dict_get k (dict_set k' v d) = dict_get k d.
Proof. intros H. rewrite dict_get_set, H. reflexivity. Qed.

End ReadFacts.

Section ExportRows.

Context {F : PyFloat} {L : Libraries}.

Lemma stored_status (s : Service) : dict_get "status" (stored s) = Some (VStr (status s)).
Proof. rewrite stored_fields. reflexivity. Qed.

Lemma status_label_stored (s : Service) : status_label (stored s) = VStr (status_text s).
Proof.
  unfold status_label, status_text, dict_get_none, dict_get_default.
  rewrite stored_status. destruct (String.eqb (status s) "active"); reflexivity.
Qed.

Lemma status_label_set_date (s : Service) (v : value) :
  status_label (dict_set "next_renewal_date" v (stored s)) = VStr (status_text s).
Proof.
  rewrite <- status_label_stored.
  unfold status_label, dict_get_none, dict_get_default.
  rewrite dict_get_set_ne by reflexivity. reflexivity.
Qed.

Lemma pdf_row_stored (s : Service) : pdf_row (stored s) = Ok (pdf_row_of s).
Proof.
  unfold pdf_row, pdf_row_of. rewrite status_label_stored, stored_fields.
  destruct s as [i n t p cd lr [nr|] fee cur st no del ca ua]; reflexivity.
Qed.

Lemma excel_row_stored (s : Service) : excel_row (stored s) = Ok (excel_row_of s).
Proof.
  unfold excel_row, excel_row_of. rewrite status_label_stored, stored_fields.
  destruct s as [i n t p cd [lr|] [nr|] fee cur st no del ca ua]; reflexivity.
Qed.

Lemma mapM_map_ok {A B C : Type} (f : B -> result C) (g : A -> B) (h : A -> C)
    (l : list A) :
  (forall x, f (g x) = Ok (h x)) -> mapM f (map g l) = Ok (map h l).
Proof.
  intros H. induction l as [|x r IH]; [reflexivity|].
  cbn [map mapM]. rewrite H, IH. reflexivity.
Qed.

Lemma mapM_raise {A B : Type} (f : A -> result B) (good : list A) (bad : A)
    (rest : list A) (e : exn) :
  (forall x, In x good -> exists b, f x = Ok b) ->
  f bad = Raise e ->
  mapM f (good ++ bad :: rest) = Raise e.
Proof.
  intros Hgood Hbad. induction good as [|x r IH]; cbn [app mapM].
  - rewrite Hbad. reflexivity.
  - destruct (Hgood x (or_introl eq_refl)) as [b Hb]. rewrite Hb. cbn [bind].
    rewrite IH by (intros y Hy; apply Hgood; right; exact Hy). reflexivity.
Qed.

Lemma exported_docs (ss : list Service) :
  to_list 1000 (find_all [("is_deleted", VBool false)] (map stored ss))
  = map stored (exported ss).
Proof.
  unfold to_list, find_all, exported.
  rewrite filter_live, filter_liveb_stored, firstn_map. reflexivity.
Qed.

Lemma mapM_Forall2 {A B : Type} (f : A -> result B) (l : list A) (bs : list B) :
  mapM f l = Ok bs -> Forall2 (fun a b => f a = Ok b) l bs.
Proof.
  revert bs. induction l as [|a r IH]; cbn [mapM]; intros bs H.
  - inversion H. constructor.
  - destruct (f a) as [b|e] eqn:Ea; cbn [bind] in H; [|discriminate].
    destruct (mapM f r) as [bs'|e]; cbn [bind] in H; [|discriminate].
    inversion H. constructor; [exact Ea | apply IH; reflexivity].
Qed.

Lemma Forall2_map_r {A B : Type} (P : A -> B -> Prop) (g : A -> B) (l : list A) :
  (forall a, P a (g a)) -> Forall2 P l (map g l).
Proof.
  intros H. induction l as [|a r IH]; cbn [map]; constructor; [apply H | exact IH].
Qed.

End ExportRows.

Section Claims.

Context {F : PyFloat} {L : Libraries}.

Lemma keeps_records_handler (c : call) (env : Env) (db : collection) :
  keeps_records db (fst (handler c env db)).
Proof.
  destruct c; cbn [handler fst]; try apply keeps_records_refl.
  - pose proof (keeps_records_create (fresh env 0) service_data db) as H.
    destruct (create_service (fresh env 0) service_data db). exact H.
  - pose proof (keeps_records_update (fresh env 0) (utcnow env) service_id service_data db) as H.
    destruct (update_service (fresh env 0) (utcnow env) service_id service_data db). exact H.
  - pose proof (keeps_records_delete (utcnow env) service_id db) as H.
    destruct (delete_service (utcnow env) service_id db). exact H.
Qed.

(** The two dependencies of a route let the handler answer or refuse the
    request, the collection left as it is. *)
Lemma endpoint_gate (authorization : option string) (c : call) (env : Env)
    (db : collection) :
  endpoint authorization c env db = handler c env db \/
  exists e, endpoint authorization c env db = (db, Raise e).
Proof.
  unfold endpoint. destruct (security authorization) as [bearer|e].
  - destruct (verify_token (credentials bearer)) as [ok|e].
    + left. reflexivity.
    + right. exists e. reflexivity.
  - right. exists e. reflexivity.
Qed.

Lemma keeps_records_endpoint (authorization : option string) (c : call) (env : Env)
    (db : collection) :
  keeps_records db (fst (endpoint authorization c env db)).
Proof.
  destruct (endpoint_gate authorization c env db) as [-> | [e ->]].
  - apply keeps_records_handler.
  - apply keeps_records_refl.
Qed.

Lemma keeps_records_run (requests : list (option string * call * Env)) (db : collection) :
  keeps_records db (run requests db).
Proof.
  revert db. induction requests as [|[[authorization c] env] rest IH]; intros db.
  - apply keeps_records_refl.
  - cbn [run]. eapply keeps_records_trans; [apply keeps_records_endpoint | apply IH].
Qed.

(** A collection this API wrote stays one under every request. *)
Lemma wf_db_handler (c : call) (env : Env) (db : collection) :
  wf_db db -> wf_db (fst (handler c env db)).
Proof.
  intros Hwf. destruct c; cbn [handler fst]; try exact Hwf.
  - rewrite create_service_eq. cbn [fst].
    apply wf_db_app; [exact Hwf|]. constructor; [|constructor].
    eexists. reflexivity.
  - pose proof (update_service_fst (fresh env 0) (utcnow env) service_id service_data db) as E.
    destruct (update_service (fresh env 0) (utcnow env) service_id service_data db) as [db' r].
    cbn [fst] in *. rewrite E. apply wf_update_one; [|exact Hwf].
    intros doc. apply wf_doc_update.
  - pose proof (delete_service_fst (utcnow env) service_id db) as E.
    destruct (delete_service (utcnow env) service_id db) as [db' r].
    cbn [fst] in *. rewrite E. apply wf_update_one; [|exact Hwf].
    intros doc. apply wf_doc_delete.
Qed.

Lemma wf_db_run (requests : list (option string * call * Env)) (db : collection) :
  wf_db db -> wf_db (run requests db).
Proof.
  revert db. induction requests as [|[[authorization c] env] rest IH]; intros db Hwf.
  - exact Hwf.
  - cbn [run]. apply IH.
    destruct (endpoint_gate authorization c env db) as [-> | [e ->]].
    + apply wf_db_handler. exact Hwf.
    + exact Hwf.
Qed.

(** Every collection reached from the empty one is of that kind. *)
Lemma wf_db_reachable (requests : list (option string * call * Env)) : wf_db (run requests []).
Proof. apply wf_db_run. constructor. Qed.

(** C2: a successful [update_service] rewrites, in the one document it
    selects (the first non-deleted document with the identifier), exactly
    the fields the request supplies (present and not null, in their stored
    form) and [updated_at], which becomes the clock reading; every other
    field of that document and every other document keep their value.  With
    the empty body only [updated_at] changes. *)
Theorem update_service_frame (fresh : Fresh) (now : datetime) (service_id : string)
    (service_data : ServiceUpdate) (pre : collection) (doc : dict) (post : collection) :
  (forall d, In d pre -> ~ (has_id service_id d /\ live d)) ->
  has_id service_id doc ->
  live doc ->
  exists doc',
    fst (update_service fresh now service_id service_data (pre ++ doc :: post))
    = pre ++ doc' :: post /\
    (forall k,
        dict_get k doc' =
        if String.eqb k "updated_at" then Some (VDatetime now)
        else match supplied service_data k with
             | Some v => Some (date_to_datetime v)
             | None => dict_get k doc
             end) /\
    (service_data = empty_update ->
     forall k, k <> "updated_at" -> dict_get k doc' = dict_get k doc).
Proof.
  intros Hpre Hid Hlive.
  assert (Hk : forall k,
             dict_get k (apply_set (update_data_of service_data now) doc) =
             if String.eqb k "updated_at" then Some (VDatetime now)
             else match supplied service_data k with
                  | Some v => Some (date_to_datetime v)
                  | None => dict_get k doc
                  end).
  { intros k. rewrite dict_get_apply_set by apply update_data_NoDup.
    rewrite dict_get_update_data.
    destruct (String.eqb k "updated_at"); [reflexivity|].
    destruct (supplied service_data k); reflexivity. }
  exists (apply_set (update_data_of service_data now) doc).
  split; [|split].
  - rewrite update_service_fst.
    rewrite update_one_first; [reflexivity | apply no_live_match; exact Hpre |].
    apply matches_by_id_live. split; assumption.
  - exact Hk.
  - intros -> k Hne. rewrite Hk.
    destruct (String.eqb k "updated_at") eqn:E.
    + apply String.eqb_eq in E. contradiction.
    + rewrite supplied_empty. reflexivity.
Qed.

(** C3: over every sequence of requests, whatever their credentials, each
    document stays in the collection at its index and under its identifier,
    and its [is_deleted] flag is unchanged or has gone from false to true
    (so a deleted document stays deleted); a successful
    [delete_service] sets [is_deleted] to true and [updated_at] to the clock
    reading in the document it selects, and changes nothing else. *)
Theorem soft_delete_one_way :
  (forall (requests : list (option string * call * Env)) (db : collection),
      keeps_records db (run requests db)) /\
  (forall (now : datetime) (service_id : string) (pre : collection) (doc : dict)
          (post : collection),
      (forall d, In d pre -> ~ (has_id service_id d /\ live d)) ->
      has_id service_id doc ->
      live doc ->
      exists doc',
        fst (delete_service now service_id (pre ++ doc :: post)) = pre ++ doc' :: post /\
        dict_get "is_deleted" doc' = Some (VBool true) /\
        dict_get "updated_at" doc' = Some (VDatetime now) /\
        forall k, k <> "is_deleted" -> k <> "updated_at" ->
                  dict_get k doc' = dict_get k doc).
Proof.
  split; [apply keeps_records_run|].
  intros now service_id pre doc post Hpre Hid Hlive.
  exists (apply_set [("is_deleted", VBool true); ("updated_at", VDatetime now)] doc).
  split; [|split; [|split]].
  - rewrite delete_service_fst.
    rewrite update_one_first; [reflexivity | apply no_live_match; exact Hpre |].
    apply matches_by_id_live. split; assumption.
  - unfold apply_set. cbn [fold_left fst snd]. rewrite !dict_get_set. reflexivity.
  - unfold apply_set. cbn [fold_left fst snd]. rewrite !dict_get_set. reflexivity.
  - intros k H1 H2. apply dict_get_apply_set_other. cbn [keys map fst In].
    intuition congruence.
Qed.

(** C4: when no stored document has the identifier and is not deleted (the
    identifier is absent, or every document bearing it is soft-deleted),
    [get_service], [update_service] and [delete_service] raise the 404
    error and the collection is unchanged; when such a document exists in a
    collection this API wrote, the three succeed. *)
Theorem not_found_iff_no_live_record (fresh : Fresh) (now : datetime)
    (service_id : string) (service_data : ServiceUpdate) (db : collection) :
  ((forall doc, In doc db -> has_id service_id doc -> ~ live doc) ->
   get_service fresh service_id db = Raise (HTTPException 404 "Service not found") /\
   update_service fresh now service_id service_data db
   = (db, Raise (HTTPException 404 "Service not found")) /\
   delete_service now service_id db
   = (db, Raise (HTTPException 404 "Service not found")))
  /\
  (wf_db db ->
   (exists doc, In doc db /\ has_id service_id doc /\ live doc) ->
   (exists s, get_service fresh service_id db = Ok s /\
              In (stored s) db /\ id s = service_id /\ is_deleted s = false) /\
   (exists db' s, update_service fresh now service_id service_data db = (db', Ok s) /\
                  id s = service_id) /\
   (exists db', delete_service now service_id db
                = (db', Ok "Service deleted successfully"))).
Proof.
  split.
  - intros Hnone.
    assert (Hm : forall doc, In doc db -> matches (by_id_live service_id) doc = false).
    { intros doc Hin. destruct (matches (by_id_live service_id) doc) eqn:E; [|reflexivity].
      apply matches_by_id_live in E. destruct E as [E1 E2].
      destruct (Hnone doc Hin E1 E2). }
    split; [|split].
    + unfold get_service. fold (by_id_live service_id).
      rewrite find_one_none by exact Hm. reflexivity.
    + unfold update_service. fold (by_id_live service_id).
      rewrite update_one_none by exact Hm. reflexivity.
    + unfold delete_service. fold (by_id_live service_id).
      rewrite update_one_none by exact Hm. reflexivity.
  - intros Hwf (doc0 & Hin0 & Hid0 & Hlive0).
    destruct (first_match (by_id_live service_id) db)
      as [Hn | (pre & doc & post & -> & Hpre & Hdoc)].
    { assert (E : matches (by_id_live service_id) doc0 = true)
        by (apply matches_by_id_live; split; assumption).
      rewrite (Hn doc0 Hin0) in E. discriminate. }
    pose proof (wf_db_split _ _ _ Hwf) as (Hwpre & [s ->] & Hwpost).
    pose proof Hdoc as Hdoc'. apply matches_by_id_live in Hdoc'.
    destruct Hdoc' as [Hid Hlive].
    split; [|split].
    + exists s. split; [apply get_service_first; assumption|].
      split; [apply in_or_app; right; left; reflexivity|].
      unfold has_id in Hid. rewrite stored_id in Hid.
      unfold live in Hlive. rewrite stored_is_deleted in Hlive.
      split; congruence.
    + unfold update_service. fold (by_id_live service_id).
      rewrite update_one_first by assumption.
      cbn [Nat.eqb].
      set (db' := pre ++ apply_set (update_data_of service_data now) (stored s) :: post).
      assert (Hwf' : wf_db db').
      { apply wf_db_join; [assumption | apply wf_doc_update; exists s; reflexivity
                          | assumption]. }
      destruct (find_one [("id", VStr service_id)] db') as [d|] eqn:Ef.
      * unfold find_one in Ef. apply find_some in Ef. destruct Ef as [Hin Hm].
        unfold wf_db in Hwf'. rewrite Forall_forall in Hwf'.
        destruct (Hwf' d Hin) as [s' ->].
        exists db', s'. cbn [Service_of_found]. rewrite Service_init_stored.
        split; [reflexivity|].
        apply matches_by_id in Hm. unfold has_id in Hm. rewrite stored_id in Hm.
        congruence.
      * exfalso. unfold find_one in Ef.
        pose proof (find_none _ _ Ef
                      (apply_set (update_data_of service_data now) (stored s))) as Hx.
        assert (Hin : In (apply_set (update_data_of service_data now) (stored s)) db')
          by (apply in_or_app; right; left; reflexivity).
        specialize (Hx Hin).
        assert (Ht : matches [("id", VStr service_id)]
                       (apply_set (update_data_of service_data now) (stored s)) = true).
        { apply matches_by_id. unfold has_id. rewrite update_data_keeps_id. exact Hid. }
        congruence.
    + unfold delete_service. fold (by_id_live service_id).
      rewrite update_one_first by assumption.
      cbn [Nat.eqb]. eexists. reflexivity.
Qed.

Lemma security_bearer (text : string) :
  text <> "" ->
  security (Some ("Bearer " ++ text)%string) = Ok (mkCredentials "Bearer" text).
Proof.
  intros H. destruct text as [|c text]; [congruence|]. reflexivity.
Qed.

Lemma security_refuses (authorization : option string) (e : exn) :
  security authorization = Raise e ->
  e = HTTPException 403 "Not authenticated" \/
  e = HTTPException 403 "Invalid authentication credentials".
Proof.
  unfold security.
  destruct (get_authorization_scheme_param authorization) as [sch text].
  destruct (negb _); [intros H; inversion H; left; reflexivity|].
  destruct (negb _); [intros H; inversion H; right; reflexivity|].
  discriminate.
Qed.

Lemma security_returns (authorization : option string)
    (bearer : HTTPAuthorizationCredentials) :
  security authorization = Ok bearer ->
  credentials bearer = snd (get_authorization_scheme_param authorization).
Proof.
  unfold security.
  destruct (get_authorization_scheme_param authorization) as [sch text].
  destruct (negb _); [discriminate|].
  destruct (negb _); [discriminate|].
  intros H. inversion H. reflexivity.
Qed.

(** C5: [login] returns the fixed token and the success message for the one
    hard-coded pair and raises 401 for every other pair.  A request to a
    protected route whose header is [Bearer] followed by a credential that
    is not the fixed token raises 401 and leaves the collection as it is,
    whatever the route, and with the fixed token it is the handler of the
    route that answers.  A request without the header, with an empty one,
    with no credential after the scheme or with the bare token is refused by
    the security scheme before [verify_token] runs, with 403 and not 401.
    Every request whose credential is not the fixed token is refused with
    one of the two, the collection left as it is. *)
Theorem login_and_token_gate :
  (forall user_data : UserLogin,
      (email user_data = "bilgi@gallaxdesign.com" /\ password user_data = "gallax11" ->
       login user_data = Ok (mkLoginResponse "authenticated" "Login successful")) /\
      (~ (email user_data = "bilgi@gallaxdesign.com" /\ password user_data = "gallax11") ->
       login user_data = Raise (HTTPException 401 "Invalid credentials"))) /\
  (forall (text : string) (c : call) (env : Env) (db : collection),
      text <> "" ->
      (text <> "authenticated" ->
       endpoint (Some ("Bearer " ++ text)%string) c env db
       = (db, Raise (HTTPException 401 "Invalid authentication"))) /\
      (text = "authenticated" ->
       endpoint (Some ("Bearer " ++ text)%string) c env db = handler c env db)) /\
  (forall (c : call) (env : Env) (db : collection),
      endpoint None c env db = (db, Raise (HTTPException 403 "Not authenticated")) /\
      endpoint (Some "") c env db = (db, Raise (HTTPException 403 "Not authenticated")) /\
      endpoint (Some "Bearer") c env db
      = (db, Raise (HTTPException 403 "Not authenticated")) /\
      endpoint (Some "Bearer ") c env db
      = (db, Raise (HTTPException 403 "Not authenticated")) /\
      endpoint (Some "authenticated") c env db
      = (db, Raise (HTTPException 403 "Not authenticated")) /\
      endpoint (Some "Basic authenticated") c env db
      = (db, Raise (HTTPException 403 "Invalid authentication credentials"))) /\
  (forall (authorization : option string) (c : call) (env : Env) (db : collection),
      snd (get_authorization_scheme_param authorization) <> "authenticated" ->
      exists status_code detail,
        endpoint authorization c env db = (db, Raise (HTTPException status_code detail)) /\
        (status_code = 401 \/ status_code = 403)).
Proof.
  split; [|split; [|split]].
  - intros [e p]. unfold login. cbn [email password].
    destruct (String.eqb_spec e "bilgi@gallaxdesign.com") as [He|He];
      destruct (String.eqb_spec p "gallax11") as [Hp|Hp]; cbn [andb];
      split; intros H; try reflexivity; tauto.
  - intros text c env db Hne. unfold endpoint.
    rewrite security_bearer by exact Hne. cbn [credentials]. unfold verify_token.
    destruct (String.eqb text "authenticated") eqn:E; cbn [negb].
    + apply String.eqb_eq in E. split; [contradiction | reflexivity].
    + apply String.eqb_neq in E. split; [reflexivity | contradiction].
  - intros c env db. repeat split; reflexivity.
  - intros authorization c env db Hne. unfold endpoint.
    destruct (security authorization) as [bearer|e] eqn:Es.
    + apply security_returns in Es. unfold verify_token.
      destruct (String.eqb (credentials bearer) "authenticated") eqn:E; cbn [negb].
      * apply String.eqb_eq in E. congruence.
      * exists 401, "Invalid authentication". split; [reflexivity | left; reflexivity].
    + destruct (security_refuses _ _ Es) as [-> | ->]; eexists; eexists;
        (split; [reflexivity | right; reflexivity]).
Qed.

(** C6: [get_dashboard_stats] returns; [total_services] is the number of
    documents that are not deleted, whatever their status;
    [active_services] is the number of those whose status is active;
    [total_annual_fees] is the sum of [annual_fee] over exactly the
    non-deleted active documents, the integer zero when there is none and,
    over records this API stored, their fees added up from zero. *)
Theorem dashboard_counts_and_fees (db : collection) :
  exists st,
    get_dashboard_stats db = Ok st /\
    total_services st = List.length (filter liveb db) /\
    active_services st = List.length (filter (fun doc => liveb doc && activeb doc) db) /\
    total_annual_fees st
    = sum_values (map (dict_get_none "annual_fee")
                      (filter (fun doc => liveb doc && activeb doc) db)) /\
    (filter (fun doc => liveb doc && activeb doc) db = [] ->
     total_annual_fees st = VInt 0) /\
    (forall ss : list Service,
        filter (fun doc => liveb doc && activeb doc) db = map stored ss ->
        ss <> [] ->
        total_annual_fees st
        = VFloat (fold_left fadd (map annual_fee ss) (float_of_int 0))).
Proof.
  eexists. split; [apply get_dashboard_stats_eq|].
  cbn [total_services active_services total_annual_fees]. unfold active_records.
  split; [reflexivity|]. split; [reflexivity|]. split; [reflexivity|]. split.
  - intros ->. reflexivity.
  - intros ss -> Hne. rewrite map_map.
    rewrite (map_ext _ (fun s => VFloat (annual_fee s)))
      by (intros s; apply stored_annual_fee).
    destruct ss as [|s r]; [congruence|].
    unfold sum_values. cbn [map fold_left num_add].
    rewrite <- (map_map annual_fee VFloat). apply sum_floats.
Qed.

(** C1 (as the code has it): on a collection this API wrote,
    [services_by_type] holds at most ten groups; each group is a distinct
    service type of the active, non-deleted documents with the number of
    such documents of that type; when these documents have at most ten
    distinct service types, every one of the types has its group. *)
Theorem services_by_type_at_most_ten (db : collection) :
  wf_db db ->
  exists st,
    get_dashboard_stats db = Ok st /\
    List.length (services_by_type st) <= 10 /\
    NoDup (map (dict_get "_id") (services_by_type st)) /\
    (forall g, In g (services_by_type st) ->
               exists t, g = type_group t (type_count db t) /\ In t (active_types db)) /\
    (List.length (nodup string_dec (active_types db)) <= 10 ->
     forall t, In t (active_types db) ->
               In (type_group t (type_count db t)) (services_by_type st)).
Proof.
  intros Hwf. eexists. split; [apply get_dashboard_stats_eq|].
  cbn [services_by_type]. rewrite services_by_type_eq by exact Hwf.
  destruct (count_names_ok (active_types db)) as (Hnd & Hall & Hc).
  split; [apply firstn_le_length|]. split; [|split].
  - rewrite firstn_map, map_map.
    rewrite (map_ext _ (fun kn => Some (VStr (fst kn)))) by reflexivity.
    rewrite <- (map_map fst (fun k => Some (VStr k))), <- firstn_map.
    apply NoDup_map_inj; [intros x y H; congruence|].
    apply NoDup_firstn. exact Hnd.
  - intros g Hin. apply In_firstn in Hin. apply in_map_iff in Hin.
    destruct Hin as [[t n] [<- Hin]]. cbn [fst snd].
    destruct (Hc t n Hin) as [Hn Ht]. exists t. unfold type_count.
    split; [congruence | exact Ht].
  - intros Hlen t Ht.
    rewrite firstn_all2 by (rewrite length_map, count_names_length; exact Hlen).
    specialize (Hall t Ht). apply in_map_iff in Hall.
    destruct Hall as [[t' n] [Ht' Hin]]. cbn [fst] in Ht'. subst t'.
    destruct (Hc t n Hin) as [Hn _].
    apply in_map_iff. exists (t, n). cbn [fst snd]. unfold type_count.
    split; [congruence | exact Hin].
Qed.

(** C7: [create_service] stores each date of the request as the date-time
    at midnight of that date (a missing optional date as [None]); when the
    generated identifier is new to the collection, [get_service] of that
    identifier returns these dates as supplied, and so does every record
    with that identifier that [get_services] returns, which lists it
    when fewer than 1000 earlier documents are not deleted. *)
Theorem create_then_read_dates (fresh rfresh : Fresh) (lfresh : nat -> Fresh)
    (service_data : ServiceCreate) (db : collection) :
  wf_db db ->
  (forall d, In d db -> ~ has_id (uuid4 fresh) d) ->
  exists doc,
    fst (create_service fresh service_data db) = db ++ [doc] /\
    dict_get "creation_date" doc
    = Some (VDatetime (datetime_combine (sc_creation_date service_data) datetime_min_time)) /\
    dict_get "last_renewal_date" doc
    = Some (opt_value (fun d => VDatetime (datetime_combine d datetime_min_time))
                      (sc_last_renewal_date service_data)) /\
    dict_get "next_renewal_date" doc
    = Some (opt_value (fun d => VDatetime (datetime_combine d datetime_min_time))
                      (sc_next_renewal_date service_data)) /\
    (exists s,
        get_service rfresh (uuid4 fresh) (db ++ [doc]) = Ok s /\
        creation_date s = sc_creation_date service_data /\
        last_renewal_date s = sc_last_renewal_date service_data /\
        next_renewal_date s = sc_next_renewal_date service_data) /\
    (exists l,
        get_services lfresh (db ++ [doc]) = Ok l /\
        (forall s, In s l -> id s = uuid4 fresh ->
                   creation_date s = sc_creation_date service_data /\
                   last_renewal_date s = sc_last_renewal_date service_data /\
                   next_renewal_date s = sc_next_renewal_date service_data) /\
        (List.length (filter liveb db) < 1000 ->
         exists s, In s l /\ id s = uuid4 fresh)).
Proof.
  intros Hwf Hnew. set (new := Service_created fresh service_data).
  exists (stored new).
  split; [rewrite create_service_eq; reflexivity|].
  split; [unfold new; rewrite stored_fields; reflexivity|].
  split; [unfold new; rewrite stored_fields; reflexivity|].
  split; [unfold new; rewrite stored_fields; reflexivity|].
  split.
  - exists new. split; [|split; [|split]; reflexivity].
    apply get_service_first.
    + intros d Hin. destruct (matches (by_id_live (uuid4 fresh)) d) eqn:E; [|reflexivity].
      apply matches_by_id_live in E. destruct (Hnew d Hin (proj1 E)).
    + apply matches_by_id_live. split.
      * unfold has_id. rewrite stored_id. reflexivity.
      * unfold live. rewrite stored_is_deleted. reflexivity.
  - destruct (wf_db_records db Hwf) as [ss ->].
    assert (Hold : forall s, In s ss -> id s <> uuid4 fresh).
    { intros s Hin E. apply (Hnew (stored s)); [apply in_map; exact Hin|].
      unfold has_id. rewrite stored_id, E. reflexivity. }
    change (map stored ss ++ [stored new]) with (map stored ss ++ map stored [new]).
    rewrite <- map_app, get_services_stored.
    eexists. split; [reflexivity|]. split.
    + intros s Hin Hid. apply In_firstn in Hin. apply filter_In in Hin.
      destruct Hin as [Hin _]. apply in_app_or in Hin.
      destruct Hin as [Hin|[<-|[]]]; [destruct (Hold s Hin Hid)|].
      split; [|split]; reflexivity.
    + intros Hlen. exists new. split; [|reflexivity].
      rewrite filter_liveb_stored, length_map in Hlen.
      rewrite filter_app. cbn [filter new Service_created is_deleted negb].
      rewrite firstn_all2 by (rewrite length_app; cbn [List.length]; lia).
      apply in_or_app. right. left. reflexivity.
Qed.

(** C8: on a collection this API wrote, [get_services] returns; the
    records it returns are records of non-deleted documents of the
    collection, min(1000, number of non-deleted documents) of them; when
    at most 1000 documents are not deleted it returns the record of each;
    a soft-deleted record is not in the result, wherever it is stored. *)
Theorem get_services_live_only (fresh : nat -> Fresh) (db : collection) :
  wf_db db ->
  exists l,
    get_services fresh db = Ok l /\
    List.length l = Nat.min 1000 (List.length (filter liveb db)) /\
    (forall s, In s l -> is_deleted s = false /\ In (stored s) db) /\
    (List.length (filter liveb db) <= 1000 ->
     forall s, In (stored s) db -> is_deleted s = false -> In s l) /\
    (forall s, In (stored s) db -> is_deleted s = true -> ~ In s l).
Proof.
  intros Hwf. destruct (wf_db_records db Hwf) as [ss ->].
  rewrite get_services_stored. eexists. split; [reflexivity|].
  rewrite filter_liveb_stored, length_map.
  assert (Hin : forall s, In s (firstn 1000 (filter (fun s => negb (is_deleted s)) ss)) ->
                          is_deleted s = false /\ In (stored s) (map stored ss)).
  { intros s H. apply In_firstn in H. apply filter_In in H. destruct H as [H1 H2].
    split; [destruct (is_deleted s); [discriminate | reflexivity] | apply in_map; exact H1]. }
  split; [apply length_firstn|]. split; [exact Hin|]. split.
  - intros Hlen s Hs Hdel. rewrite firstn_all2 by exact Hlen.
    apply in_map_iff in Hs. destruct Hs as [s' [E Hs]]. apply stored_inj in E. subst s'.
    apply filter_In. split; [exact Hs | rewrite Hdel; reflexivity].
  - intros s _ Hdel H. apply Hin in H. destruct H as [H _]. congruence.
Qed.

(** C10: the PDF export gives the writer one table row for each selected
    record, in order, and the fourth cell of that row, the annual fee, is
    the lira sign followed by the grouped amount of the record: for any
    stored documents whenever the export returns, and for the records this
    API stored, whatever their currency, always.  A row, and with it the
    whole PDF export, is the same whatever value the [currency] field of
    the documents holds; the spreadsheet row carries the currency in its
    column "Para Birimi". *)
Theorem pdf_fee_in_lira (db : collection) :
  (forall service row,
      pdf_row service = Ok row ->
      exists fee,
        format_grouped (dict_get_default "annual_fee" (VInt 0) service) = Ok fee /\
        nth_error row 3 = Some (VStr ("₺" ++ fee))) /\
  (forall r, export_services_pdf db = Ok r ->
     exists rows,
       build_pdf [Paragraph "Hizmet Listesi"; Spacer 1 20; Table (pdf_header :: rows)]
       = Ok (body r) /\
       Forall2
         (fun service row =>
            exists fee,
              format_grouped (dict_get_default "annual_fee" (VInt 0) service) = Ok fee /\
              nth_error row 3 = Some (VStr ("₺" ++ fee)))
         (to_list 1000 (filter liveb db)) rows) /\
  (forall ss : list Service,
     exists rows,
       Forall2
         (fun s row => nth_error row 3 = Some (VStr ("₺" ++ format_f0 (annual_fee s))))
         (exported ss) rows /\
       export_services_pdf (map stored ss)
       = try_except
           (pdf_buffer <- build_pdf [ Paragraph "Hizmet Listesi"; Spacer 1 20;
                                      Table (pdf_header :: rows) ] ;;
            Ok (mkStreamingResponse pdf_buffer "application/pdf"
                  "attachment; filename=hizmetler.pdf"))
           (fun e => HTTPException 500 ("PDF export failed: " ++ str_exn e))) /\
  (forall service cur, pdf_row (dict_set "currency" cur service) = pdf_row service) /\
  (forall recur : dict -> value,
      export_services_pdf (map (fun doc => dict_set "currency" (recur doc) doc) db)
      = export_services_pdf db) /\
  (forall service row,
      excel_row service = Ok row ->
      dict_get "Para Birimi" row
      = Some (dict_get_default "currency" (VStr "TRY") service)).
Proof.
  assert (Hrow : forall service cur,
             pdf_row (dict_set "currency" cur service) = pdf_row service).
  { intros service cur.
    unfold pdf_row, date_cell, status_label, dict_get_none, dict_get_default.
    rewrite !dict_get_set_ne by reflexivity. reflexivity. }
  assert (Hcell : forall service row,
             pdf_row service = Ok row ->
             exists fee,
               format_grouped (dict_get_default "annual_fee" (VInt 0) service) = Ok fee /\
               nth_error row 3 = Some (VStr ("₺" ++ fee))).
  { intros service row H. unfold pdf_row in H.
    destruct (format_grouped _) as [fee|e]; cbn [bind] in H; [|discriminate].
    destruct (date_cell _ _ _) as [c|e]; cbn [bind] in H; [|discriminate].
    exists fee. inversion H. split; reflexivity. }
  split; [exact Hcell|]. split; [|split; [|split; [exact Hrow|split]]].
  - intros r H.
    unfold export_services_pdf, pdf_body, pdf_table_data, find_all in H.
    rewrite filter_live in H.
    destruct (mapM pdf_row (to_list 1000 (filter liveb db))) as [rows|e] eqn:Er;
      cbn [bind try_except] in H; [|discriminate].
    destruct (build_pdf _) as [bytes|e] eqn:Hb;
      cbn [bind try_except] in H; [|discriminate].
    exists rows. inversion H; subst. cbn [body]. split; [exact Hb|].
    apply mapM_Forall2 in Er.
    eapply Forall2_impl; [|exact Er].
    intros service row Hr. apply Hcell. exact Hr.
  - intros ss. exists (map pdf_row_of (exported ss)). split.
    + apply Forall2_map_r. intros s. reflexivity.
    + unfold export_services_pdf, pdf_body, pdf_table_data.
      rewrite exported_docs, (mapM_map_ok _ _ pdf_row_of) by apply pdf_row_stored.
      reflexivity.
  - intros recur.
    unfold export_services_pdf, pdf_body, pdf_table_data, find_all, to_list.
    rewrite (filter_map_same _ (fun doc => dict_set "currency" (recur doc) doc)).
    + rewrite firstn_map, mapM_map_same by (intros; apply Hrow). reflexivity.
    + intros doc. unfold matches. cbn [forallb fst snd].
      rewrite dict_get_set_ne by reflexivity. reflexivity.
  - intros service row H. unfold excel_row in H.
    destruct (date_cell "creation_date" _ _) as [c1|e]; cbn [bind] in H; [|discriminate].
    destruct (date_cell "last_renewal_date" _ _) as [c2|e]; cbn [bind] in H; [|discriminate].
    destruct (date_cell "next_renewal_date" _ _) as [c3|e]; cbn [bind] in H; [|discriminate].
    inversion H. reflexivity.
Qed.

End Claims.

(** * The properties at sample inputs *)

Lemma sample_db_wf : wf_db sample_db.
Proof. exact (wf_db_stored sample_records). Qed.

(** Eleven active records of eleven service types: the dashboard reports
    ten groups, and the type of the eleventh record has none. *)
Lemma services_by_type_omits_group :
  exists st,
    get_dashboard_stats (F := whole_amounts) eleven_db = Ok st /\
    ~ (forall doc,
          In doc eleven_db ->
          liveb doc && activeb doc = true ->
          exists g, In g (services_by_type st) /\
                    dict_get "_id" g = Some (dict_get_none "service_type" doc)).
Proof.
  eexists. split; [vm_compute; reflexivity|].
  intros H.
  destruct (H (stored (sample_service "Licence" "Licence" "active" 10 false)))
    as [g [Hin Hg]].
  - apply (in_map (fun t => stored (sample_service t t "active" 10 false))
                  eleven_types "Licence").
    unfold eleven_types. do 10 right. left. reflexivity.
  - vm_compute. reflexivity.
  - match type of Hin with
    | In g ?groups =>
        assert (E : existsb (fun g => match dict_get "_id" g with
                                      | Some (VStr t) => String.eqb t "Licence"
                                      | _ => false
                                      end) groups = true)
    end.
    { apply existsb_exists. exists g. split; [exact Hin|]. rewrite Hg.
      vm_compute. reflexivity. }
    vm_compute in E. discriminate.
Qed.

Lemma services_by_type_at_most_ten_witness :
  wf_db sample_db /\
  exists st,
    get_dashboard_stats (F := whole_amounts) sample_db = Ok st /\
    List.length (services_by_type st) <= 10 /\
    In (type_group "Domain" 1) (services_by_type st).
Proof.
  split; [exact sample_db_wf|].
  destruct (services_by_type_at_most_ten sample_db sample_db_wf)
    as (st & Hst & Hlen & _ & _ & Hall).
  exists st. split; [exact Hst|]. split; [exact Hlen|].
  apply (Hall ltac:(vm_compute; repeat constructor) "Domain").
  vm_compute. left. reflexivity.
Defined.

Lemma update_service_frame_witness :
  has_id "b" (stored record_b) /\
  live (stored record_b) /\
  exists doc',
    fst (update_service sample_fresh later_time "b" sample_update sample_db)
    = [stored record_a; doc'; stored record_c] /\
    dict_get "annual_fee" doc' = Some (VFloat (F := whole_amounts) 150%Z) /\
    dict_get "updated_at" doc' = Some (VDatetime later_time) /\
    dict_get "name" doc' = dict_get "name" (stored record_b).
Proof.
  assert (Hid : has_id "b" (stored record_b)) by (vm_compute; reflexivity).
  assert (Hlive : live (stored record_b)) by (vm_compute; reflexivity).
  split; [exact Hid|]. split; [exact Hlive|].
  destruct (update_service_frame sample_fresh later_time "b" sample_update
              [stored record_a] (stored record_b) [stored record_c])
    as (doc' & Hdb & Hk & _).
  - intros d [<-|[]] [H _]. vm_compute in H. discriminate.
  - exact Hid.
  - exact Hlive.
  - exists doc'. split; [exact Hdb|].
    rewrite (Hk "annual_fee"), (Hk "updated_at"), (Hk "name").
    split; [|split]; vm_compute; reflexivity.
Defined.

Lemma soft_delete_one_way_witness :
  has_id "a" (stored record_a) /\
  live (stored record_a) /\
  exists doc',
    fst (delete_service later_time "a" sample_db)
    = [doc'; stored record_b; stored record_c] /\
    dict_get "is_deleted" doc' = Some (VBool true) /\
    dict_get "updated_at" doc' = Some (VDatetime later_time).
Proof.
  assert (Hid : has_id "a" (stored record_a)) by (vm_compute; reflexivity).
  assert (Hlive : live (stored record_a)) by (vm_compute; reflexivity).
  split; [exact Hid|]. split; [exact Hlive|].
  destruct (proj2 (soft_delete_one_way (L := working_libraries)) later_time "a"
              [] (stored record_a) [stored record_b; stored record_c])
    as (doc' & Hdb & Hdel & Hupd & _).
  - intros d [].
  - exact Hid.
  - exact Hlive.
  - exists doc'. split; [exact Hdb|]. split; [exact Hdel | exact Hupd].
Defined.

Lemma not_found_iff_no_live_record_witness :
  (forall doc, In doc sample_db -> has_id "c" doc -> ~ live doc) /\
  get_service sample_fresh "c" sample_db
  = Raise (HTTPException 404 "Service not found") /\
  delete_service later_time "c" sample_db
  = (sample_db, Raise (HTTPException 404 "Service not found")) /\
  wf_db sample_db /\
  (exists doc, In doc sample_db /\ has_id "a" doc /\ live doc) /\
  (exists s, get_service sample_fresh "a" sample_db = Ok s /\ id s = "a").
Proof.
  assert (Hnone : forall doc, In doc sample_db -> has_id "c" doc -> ~ live doc).
  { intros doc Hin Hid Hlive.
    unfold sample_db, sample_records in Hin. cbn [map In] in Hin.
    destruct Hin as [<-|[<-|[<-|[]]]].
    - vm_compute in Hid. discriminate.
    - vm_compute in Hid. discriminate.
    - vm_compute in Hlive. discriminate. }
  assert (Hsome : exists doc, In doc sample_db /\ has_id "a" doc /\ live doc).
  { exists (stored record_a). split; [left; reflexivity|].
    split; vm_compute; reflexivity. }
  split; [exact Hnone|].
  destruct (proj1 (not_found_iff_no_live_record sample_fresh later_time "c"
                     sample_update sample_db) Hnone) as (Hget & _ & Hdel).
  split; [exact Hget|]. split; [exact Hdel|].
  split; [exact sample_db_wf|]. split; [exact Hsome|].
  destruct (proj2 (not_found_iff_no_live_record sample_fresh later_time "a"
                     sample_update sample_db) sample_db_wf Hsome)
    as ((s & Hs & _ & Hi & _) & _).
  exists s. split; [exact Hs | exact Hi].
Defined.

Lemma login_and_token_gate_witness :
  login (mkUserLogin "bilgi@gallaxdesign.com" "gallax11")
  = Ok (mkLoginResponse "authenticated" "Login successful") /\
  login (mkUserLogin "bilgi@gallaxdesign.com" "gallax12")
  = Raise (HTTPException 401 "Invalid credentials") /\
  "Authenticated" <> "" /\
  "Authenticated" <> "authenticated" /\
  endpoint (L := working_libraries) (Some "Bearer Authenticated") (DeleteService "a")
    sample_env sample_db
  = (sample_db, Raise (HTTPException 401 "Invalid authentication")) /\
  endpoint (L := working_libraries) (Some "Bearer authenticated") GetServices
    sample_env sample_db
  = handler (L := working_libraries) GetServices sample_env sample_db /\
  snd (get_authorization_scheme_param (Some "Token authenticated ")) <> "authenticated" /\
  exists status_code detail,
    endpoint (L := working_libraries) (Some "Token authenticated ") (DeleteService "a")
      sample_env sample_db
    = (sample_db, Raise (HTTPException status_code detail)) /\
    (status_code = 401 \/ status_code = 403).
Proof.
  pose proof (login_and_token_gate (L := working_libraries))
    as (Hlogin & Hgate & _ & Hother).
  assert (Hne : "Authenticated" <> "") by discriminate.
  assert (Hd : "Authenticated" <> "authenticated") by discriminate.
  assert (Ht : "authenticated" <> "") by discriminate.
  assert (Ho : snd (get_authorization_scheme_param (Some "Token authenticated "))
               <> "authenticated") by discriminate.
  split; [|split; [|split; [exact Hne|split; [exact Hd|split; [|split; [|split]]]]]].
  - apply (proj1 (Hlogin (mkUserLogin "bilgi@gallaxdesign.com" "gallax11"))).
    split; reflexivity.
  - apply (proj2 (Hlogin (mkUserLogin "bilgi@gallaxdesign.com" "gallax12"))).
    intros [_ H]. discriminate H.
  - exact (proj1 (Hgate "Authenticated" (DeleteService "a") sample_env sample_db Hne) Hd).
  - exact (proj2 (Hgate "authenticated" GetServices sample_env sample_db Ht) eq_refl).
  - exact Ho.
  - exact (Hother (Some "Token authenticated ") (DeleteService "a") sample_env sample_db Ho).
Defined.

Lemma dashboard_counts_and_fees_witness :
  filter (fun doc => liveb doc && activeb doc) sample_db = map stored [record_a] /\
  exists st,
    get_dashboard_stats (F := whole_amounts) sample_db = Ok st /\
    total_services st = 2 /\
    active_services st = 1 /\
    total_annual_fees st = VFloat (F := whole_amounts) 100%Z.
Proof.
  assert (Hact : filter (fun doc => liveb doc && activeb doc) sample_db
                 = map stored [record_a]) by (vm_compute; reflexivity).
  split; [exact Hact|].
  destruct (dashboard_counts_and_fees sample_db) as (st & Hst & Ht & Ha & _ & _ & Hf).
  exists st. split; [exact Hst|].
  split; [rewrite Ht; vm_compute; reflexivity|].
  split; [rewrite Ha; vm_compute; reflexivity|].
  rewrite (Hf [record_a] Hact ltac:(discriminate)). vm_compute. reflexivity.
Defined.

Lemma create_then_read_dates_witness :
  wf_db sample_db /\
  (forall d, In d sample_db -> ~ has_id (uuid4 sample_fresh) d) /\
  exists doc,
    fst (create_service sample_fresh sample_create sample_db) = sample_db ++ [doc] /\
    dict_get "creation_date" doc
    = Some (VDatetime (mkdatetime (mkdate 2024 1 1) (mktime 0 0 0 0))) /\
    exists s,
      get_service sample_fresh "id-new" (sample_db ++ [doc]) = Ok s /\
      creation_date s = mkdate 2024 1 1 /\
      next_renewal_date s = Some (mkdate 2025 1 1).
Proof.
  assert (Hnew : forall d, In d sample_db -> ~ has_id (uuid4 sample_fresh) d).
  { intros d Hin Hid.
    unfold sample_db, sample_records in Hin. cbn [map In] in Hin.
    destruct Hin as [<-|[<-|[<-|[]]]]; vm_compute in Hid; discriminate. }
  split; [exact sample_db_wf|]. split; [exact Hnew|].
  destruct (create_then_read_dates sample_fresh sample_fresh (fun _ => sample_fresh)
              sample_create sample_db sample_db_wf Hnew)
    as (doc & Hdb & Hc & _ & _ & (s & Hs & Hsc & _ & Hsn) & _).
  exists doc. split; [exact Hdb|]. split; [exact Hc|].
  exists s. split; [exact Hs|]. split; [exact Hsc | exact Hsn].
Defined.

Lemma get_services_live_only_witness :
  wf_db sample_db /\
  exists l,
    get_services (fun _ => sample_fresh) sample_db = Ok l /\
    List.length l = 2 /\
    In record_a l /\
    ~ In record_c l.
Proof.
  split; [exact sample_db_wf|].
  destruct (get_services_live_only (fun _ => sample_fresh) sample_db sample_db_wf)
    as (l & Hl & Hlen & _ & Hall & Hdel).
  exists l. split; [exact Hl|].
  split; [rewrite Hlen; vm_compute; reflexivity|]. split.
  - apply Hall.
    + vm_compute. repeat constructor.
    + left. reflexivity.
    + reflexivity.
  - apply Hdel.
    + do 2 right. left. reflexivity.
    + reflexivity.
Defined.

Lemma pdf_fee_in_lira_witness :
  currency record_a = "USD" /\
  (exists row,
      pdf_row (L := working_libraries) (stored record_a) = Ok row /\
      nth_error row 3 = Some (VStr "₺100")) /\
  exists rows,
    Forall2
      (fun (s : @Service whole_amounts) row =>
         nth_error row 3 = Some (VStr ("₺" ++ format_f0 (annual_fee s))))
      (exported sample_records) rows /\
    List.length rows = 2 /\
    export_services_pdf (L := working_libraries) (map stored sample_records)
    = try_except
        (pdf_buffer <- build_pdf (Libraries := working_libraries)
                         [ Paragraph "Hizmet Listesi"; Spacer 1 20;
                           Table (pdf_header :: rows) ] ;;
         Ok (mkStreamingResponse pdf_buffer "application/pdf"
               "attachment; filename=hizmetler.pdf"))
        (fun e => HTTPException 500 ("PDF export failed: " ++ str_exn e)).
Proof.
  split; [reflexivity|]. split.
  - destruct (pdf_row (L := working_libraries) (stored record_a)) as [row|e] eqn:E.
    + exists row. split; [reflexivity|].
      destruct (proj1 (pdf_fee_in_lira (L := working_libraries) sample_db) _ _ E)
        as (fee & Hfee & Hcell).
      rewrite Hcell. vm_compute in Hfee. inversion Hfee. reflexivity.
    + vm_compute in E. discriminate.
  - destruct (proj1 (proj2 (proj2 (pdf_fee_in_lira (L := working_libraries) sample_db)))
                sample_records) as (rows & Hf & He).
    exists rows. split; [exact Hf|]. split; [|exact He].
    apply Forall2_length in Hf. rewrite <- Hf. reflexivity.
Defined.

(** * Further properties *)

Section Effects.

Context {F : PyFloat} {L : Libraries}.

(** What a request can do to the collection: nothing, append one document,
    or [$set] the fields of an update or of a delete in the first
    non-deleted document with an identifier. *)
Lemma endpoint_effect (authorization : option string) (c : call) (env : Env)
    (db : collection) :
  fst (endpoint authorization c env db) = db \/
  (exists doc, fst (endpoint authorization c env db) = insert_one doc db) \/
  (exists i u,
      fst (endpoint authorization c env db)
      = fst (update_one (by_id_live i) (update_data_of u (utcnow env)) db)) \/
  (exists i,
      fst (endpoint authorization c env db)
      = fst (update_one (by_id_live i) (delete_fields (utcnow env)) db)).
Proof.
  destruct (endpoint_gate authorization c env db) as [-> | [e ->]];
    [|left; reflexivity].
  destruct c; cbn [handler fst]; try (left; reflexivity).
  - right. left. rewrite create_service_eq. eexists. reflexivity.
  - right. right. left. exists service_id, service_data.
    pose proof (update_service_fst (fresh env 0) (utcnow env) service_id service_data db) as E.
    destruct (update_service (fresh env 0) (utcnow env) service_id service_data db).
    exact E.
  - right. right. right. exists service_id.
    pose proof (delete_service_fst (utcnow env) service_id db) as E.
    destruct (delete_service (utcnow env) service_id db). exact E.
Qed.

(** A relation between collections that holds across each kind of effect
    holds across every sequence of requests. *)
Lemma run_relation (R : collection -> collection -> Prop) :
  (forall db, R db db) ->
  (forall db1 db2 db3, R db1 db2 -> R db2 db3 -> R db1 db3) ->
  (forall doc db, R db (insert_one doc db)) ->
  (forall i u now db, R db (fst (update_one (by_id_live i) (update_data_of u now) db))) ->
  (forall i now db, R db (fst (update_one (by_id_live i) (delete_fields now) db))) ->
  forall (requests : list (option string * call * Env)) (db : collection),
    R db (run requests db).
Proof.
  intros Hrefl Htrans Hins Hupd Hdel requests.
  induction requests as [|[[authorization c] env] rest IH]; intros db.
  - apply Hrefl.
  - cbn [run]. eapply Htrans; [|apply IH].
    destruct (endpoint_effect authorization c env db)
      as [E | [[doc E] | [[i [u E]] | [i E]]]]; rewrite E; auto.
Qed.

Lemma update_one_pointwise (P : dict -> dict -> Prop) (query fields : dict)
    (db : collection) :
  (forall doc, P doc doc) ->
  (forall doc, matches query doc = true -> P doc (apply_set fields doc)) ->
  forall i doc, nth_error db i = Some doc ->
                exists doc', nth_error (fst (update_one query fields db)) i = Some doc' /\
                             P doc doc'.
Proof.
  intros Hrefl Hset. induction db as [|d r IH]; intros i doc H.
  - destruct i; discriminate.
  - cbn [update_one]. destruct (matches query d) eqn:E.
    + destruct i as [|i]; cbn [fst nth_error] in *.
      * inversion H; subst. eauto.
      * eauto.
    + destruct (update_one query fields r) as [r' n] eqn:Er. cbn [fst] in *.
      destruct i as [|i]; cbn [nth_error] in *.
      * inversion H; subst. eauto.
      * apply IH. exact H.
Qed.

Lemma keeps_deleted_run (requests : list (option string * call * Env)) (db : collection) :
  keeps_deleted db (run requests db).
Proof.
  apply run_relation; clear.
  - intros db i doc H _. exact H.
  - intros db1 db2 db3 H12 H23 i doc H Hd. apply H23; [apply H12|]; assumption.
  - intros doc db i d H _. unfold insert_one.
    rewrite nth_error_app1 by (apply nth_error_Some; congruence). exact H.
  - intros i u now db j doc H Hd.
    destruct (update_one_pointwise
                (fun a b => dict_get "is_deleted" a = Some (VBool true) -> b = a)
                (by_id_live i) (update_data_of u now) db) with (i := j) (doc := doc)
      as (doc' & Hn & Hp); auto.
    + intros d Hm Hdel. apply matches_by_id_live in Hm. destruct Hm as [_ Hl].
      unfold live in Hl. congruence.
    + rewrite Hn, (Hp Hd). reflexivity.
  - intros i now db j doc H Hd.
    destruct (update_one_pointwise
                (fun a b => dict_get "is_deleted" a = Some (VBool true) -> b = a)
                (by_id_live i) (delete_fields now) db) with (i := j) (doc := doc)
      as (doc' & Hn & Hp); auto.
    + intros d Hm Hdel. apply matches_by_id_live in Hm. destruct Hm as [_ Hl].
      unfold live in Hl. congruence.
    + rewrite Hn, (Hp Hd). reflexivity.
Qed.

Lemma keeps_unwritten_run (requests : list (option string * call * Env)) (db : collection) :
  keeps_unwritten db (run requests db).
Proof.
  apply run_relation; clear.
  - intros db i doc H. exists doc. auto.
  - intros db1 db2 db3 H12 H23 i doc H.
    destruct (H12 i doc H) as (d2 & Hd2 & Hk2).
    destruct (H23 i d2 Hd2) as (d3 & Hd3 & Hk3).
    exists d3. split; [exact Hd3|]. intros k Hk. rewrite Hk3, Hk2 by exact Hk. reflexivity.
  - intros doc db i d H. exists d. unfold insert_one.
    rewrite nth_error_app1 by (apply nth_error_Some; congruence). auto.
  - intros i u now db j doc H.
    apply (update_one_pointwise
             (fun a b => forall k, ~ In k written_keys -> dict_get k b = dict_get k a));
      auto.
    intros d _ k Hk. apply dict_get_apply_set_other. intros Hin. apply Hk.
    apply update_data_keys in Hin. rewrite ServiceUpdate_dict_keys in Hin.
    unfold written_keys. cbn [In] in *. intuition.
  - intros i now db j doc H.
    apply (update_one_pointwise
             (fun a b => forall k, ~ In k written_keys -> dict_get k b = dict_get k a));
      auto.
    intros d _ k Hk. apply dict_get_apply_set_other. intros Hin. apply Hk.
    unfold written_keys, delete_fields in *. cbn [keys map fst In] in *. intuition.
Qed.

(** X1: the token a successful [login] returns opens every protected route:
    [verify_token] accepts it, and a request that bears it in its header
    after the scheme, as clients send it, is answered by the handler of the
    route. *)
Theorem login_token_opens_routes (user_data : UserLogin) (r : LoginResponse)
    (c : call) (env : Env) (db : collection) :
  login user_data = Ok r ->
  verify_token (token r) = Ok true /\
  endpoint (Some ("Bearer " ++ token r)%string) c env db = handler c env db.
Proof.
  unfold login. destruct (_ && _); [|discriminate].
  intros H. inversion H; subst. cbn [token]. split; reflexivity.
Qed.

(** X2: a soft-deleted document is never written again: after any sequence
    of requests it is still in the collection, at the same index, with
    every field as it was. *)
Theorem deleted_documents_frozen (requests : list (option string * call * Env))
    (db : collection) (i : nat) (doc : dict) :
  nth_error db i = Some doc ->
  dict_get "is_deleted" doc = Some (VBool true) ->
  nth_error (run requests db) i = Some doc.
Proof. intros H Hd. exact (keeps_deleted_run requests db i doc H Hd). Qed.

(** X3: the identifier and [created_at] of a stored document, like every
    field other than the ten of [ServiceUpdate], [updated_at] and
    [is_deleted], are the same after any sequence of requests. *)
Theorem id_and_created_at_immutable (requests : list (option string * call * Env))
    (db : collection) (i : nat) (doc : dict) :
  nth_error db i = Some doc ->
  exists doc',
    nth_error (run requests db) i = Some doc' /\
    dict_get "id" doc' = dict_get "id" doc /\
    dict_get "created_at" doc' = dict_get "created_at" doc /\
    forall k, ~ In k written_keys -> dict_get k doc' = dict_get k doc.
Proof.
  intros H. destruct (keeps_unwritten_run requests db i doc H) as (doc' & Hn & Hk).
  exists doc'. split; [exact Hn|].
  split; [|split; [|exact Hk]]; apply Hk; unfold written_keys; cbn [In];
    intuition discriminate.
Qed.

End Effects.

Section Composition.

Context {F : PyFloat} {L : Libraries}.

Lemma same_data_refl (s : Service) : same_data s s.
Proof. repeat split. Qed.

Lemma no_id_no_match (i : string) (docs : list dict) :
  (forall d, In d docs -> ~ has_id i d) ->
  forall d, In d docs -> matches [("id", VStr i)] d = false.
Proof.
  intros H d Hin. destruct (matches [("id", VStr i)] d) eqn:E; [|reflexivity].
  apply matches_by_id in E. destruct (H d Hin E).
Qed.

Lemma no_id_no_live_match (i : string) (docs : list dict) :
  (forall d, In d docs -> ~ has_id i d) ->
  forall d, In d docs -> matches (by_id_live i) d = false.
Proof.
  intros H. apply no_live_match. intros d Hin [Hid _]. exact (H d Hin Hid).
Qed.

Lemma stored_matches (s : Service) :
  is_deleted s = false -> matches (by_id_live (id s)) (stored s) = true.
Proof.
  intros H. apply matches_by_id_live. split.
  - unfold has_id. apply stored_id.
  - unfold live. rewrite stored_is_deleted, H. reflexivity.
Qed.

Lemma get_service_ok_or_404 (fresh : Fresh) (service_id : string) (db : collection) :
  wf_db db ->
  get_service fresh service_id db = Raise (HTTPException 404 "Service not found") \/
  exists s, get_service fresh service_id db = Ok s.
Proof.
  intros Hwf.
  destruct (first_match (by_id_live service_id) db)
    as [Hn | (pre & doc & post & -> & Hpre & Hdoc)].
  - left. unfold get_service. fold (by_id_live service_id).
    rewrite find_one_none by exact Hn. reflexivity.
  - right. apply wf_db_split in Hwf. destruct Hwf as (_ & [s ->] & _).
    exists s. apply get_service_first; assumption.
Qed.

(** X6: on every collection reached from the empty one by requests to the
    API, whatever they are, the stored documents validate: [get_services]
    returns a list and [get_service] returns a record or raises 404, never a
    validation error. *)
Theorem reachable_collections_validate (requests : list (option string * call * Env))
    (lfresh : nat -> Fresh) (fresh : Fresh) (service_id : string) :
  (exists l, get_services lfresh (run requests []) = Ok l) /\
  (get_service fresh service_id (run requests [])
   = Raise (HTTPException 404 "Service not found") \/
   exists s, get_service fresh service_id (run requests []) = Ok s).
Proof.
  pose proof (wf_db_reachable requests) as Hwf. split.
  - destruct (wf_db_records _ Hwf) as [ss E]. rewrite E, get_services_stored.
    eexists. reflexivity.
  - apply get_service_ok_or_404. exact Hwf.
Qed.

(** X7: [create_service] returns a record with the generated identifier,
    [is_deleted] false and the ten fields of the request, the three dates
    among them, and appends its document; when the identifier is new to the
    collection, [get_service] of it then returns a record with the same
    data, so with the fields of the request too. *)
Theorem create_then_get_returns_record (fresh rfresh : Fresh)
    (service_data : ServiceCreate) (db : collection) :
  (forall d, In d db -> ~ has_id (uuid4 fresh) d) ->
  exists doc created read,
    create_service fresh service_data db = (db ++ [doc], Ok created) /\
    id created = uuid4 fresh /\
    is_deleted created = false /\
    name created = sc_name service_data /\
    service_type created = sc_service_type service_data /\
    provider created = sc_provider service_data /\
    creation_date created = sc_creation_date service_data /\
    last_renewal_date created = sc_last_renewal_date service_data /\
    next_renewal_date created = sc_next_renewal_date service_data /\
    annual_fee created = sc_annual_fee service_data /\
    currency created = sc_currency service_data /\
    status created = sc_status service_data /\
    notes created = sc_notes service_data /\
    get_service rfresh (uuid4 fresh) (db ++ [doc]) = Ok read /\
    same_data read created /\
    name read = sc_name service_data /\
    service_type read = sc_service_type service_data /\
    provider read = sc_provider service_data /\
    creation_date read = sc_creation_date service_data /\
    last_renewal_date read = sc_last_renewal_date service_data /\
    next_renewal_date read = sc_next_renewal_date service_data /\
    annual_fee read = sc_annual_fee service_data /\
    currency read = sc_currency service_data /\
    status read = sc_status service_data /\
    notes read = sc_notes service_data.
Proof.
  intros Hnew.
  exists (stored (Service_created fresh service_data)),
    (Service_created fresh service_data), (Service_created fresh service_data).
  split; [apply create_service_eq|].
  repeat (split; [reflexivity|]).
  split; [|split; [apply same_data_refl | repeat split]].
  apply get_service_first.
  - apply no_id_no_live_match. exact Hnew.
  - apply (stored_matches (Service_created fresh service_data)). reflexivity.
Qed.

Lemma update_service_first (fresh : Fresh) (now : datetime) (i : string)
    (u : ServiceUpdate) (pre : collection) (doc : dict) (post : collection) :
  (forall d, In d pre -> matches (by_id_live i) d = false) ->
  matches (by_id_live i) doc = true ->
  update_service fresh now i u (pre ++ doc :: post)
  = (pre ++ apply_set (update_data_of u now) doc :: post,
     Service_of_found fresh
       (find_one [("id", VStr i)]
          (pre ++ apply_set (update_data_of u now) doc :: post))).
Proof.
  intros Hpre Hdoc. unfold update_service. fold (by_id_live i).
  rewrite update_one_first by assumption. reflexivity.
Qed.

(** X8: when no earlier document bears the identifier, a successful
    [update_service] returns the record of the document it has just
    written: the stored record with the supplied fields replaced. *)
Theorem update_service_returns_updated_record (fresh : Fresh) (now : datetime)
    (service_data : ServiceUpdate) (pre : collection) (s : Service) (post : collection) :
  (forall d, In d pre -> ~ has_id (id s) d) ->
  is_deleted s = false ->
  exists r,
    update_service fresh now (id s) service_data (pre ++ stored s :: post)
    = (pre ++ stored r :: post, Ok r) /\
    same_data r (Service_updated service_data now s).
Proof.
  intros Hpre Hlive. exists (Service_updated service_data now s).
  split; [|apply same_data_refl].
  rewrite update_service_first;
    [| apply no_id_no_live_match; exact Hpre | apply stored_matches; exact Hlive].
  rewrite apply_set_update_stored.
  rewrite find_one_first.
  - cbn [Service_of_found]. rewrite Service_init_stored. reflexivity.
  - apply no_id_no_match. exact Hpre.
  - apply matches_by_id. unfold has_id. rewrite stored_id. reflexivity.
Qed.

(** X9: the second read of [update_service] selects by identifier alone.
    When an earlier, soft-deleted document bears the same identifier, the
    live document is updated but the record returned is that of the
    deleted one. *)
Theorem update_service_reads_back_by_id_alone (fresh : Fresh) (now : datetime)
    (service_data : ServiceUpdate) (pre1 : collection) (old : Service)
    (pre2 : collection) (s : Service) (post : collection) :
  (forall d, In d pre1 -> ~ has_id (id s) d) ->
  (forall d, In d pre2 -> ~ (has_id (id s) d /\ live d)) ->
  id old = id s ->
  is_deleted old = true ->
  is_deleted s = false ->
  update_service fresh now (id s) service_data
    (pre1 ++ stored old :: pre2 ++ stored s :: post)
  = (pre1 ++ stored old :: pre2 ++ stored (Service_updated service_data now s) :: post,
     Ok old).
Proof.
  intros Hpre1 Hpre2 Hid Hold Hlive.
  change (pre1 ++ stored old :: pre2 ++ stored s :: post)
    with (pre1 ++ (stored old :: pre2) ++ stored s :: post).
  rewrite app_assoc.
  rewrite update_service_first.
  - rewrite apply_set_update_stored. rewrite <- app_assoc. cbn [app].
    rewrite find_one_first.
    + cbn [Service_of_found]. rewrite Service_init_stored. reflexivity.
    + apply no_id_no_match. exact Hpre1.
    + apply matches_by_id. unfold has_id. rewrite stored_id, Hid. reflexivity.
  - intros d Hin. apply in_app_or in Hin. destruct Hin as [Hin|[<-|Hin]].
    + apply (no_id_no_live_match (id s) pre1 Hpre1 d Hin).
    + destruct (matches (by_id_live (id s)) (stored old)) eqn:E; [|reflexivity].
      apply matches_by_id_live in E. destruct E as [_ E]. unfold live in E.
      rewrite stored_is_deleted, Hold in E. discriminate.
    + apply (no_live_match (id s) pre2 Hpre2 d Hin).
  - apply stored_matches. exact Hlive.
Qed.

(** X10: after a successful [delete_service] of the only non-deleted document
    with an identifier, [get_service], [update_service] and a second
    [delete_service] of that identifier raise 404 and change nothing, and
    [get_services] lists no record with it. *)
Theorem delete_then_gone (fresh : Fresh) (lfresh : nat -> Fresh) (now later : datetime)
    (service_id : string) (service_data : ServiceUpdate)
    (pre : collection) (doc : dict) (post : collection) :
  wf_db (pre ++ doc :: post) ->
  (forall d, In d (pre ++ post) -> ~ (has_id service_id d /\ live d)) ->
  has_id service_id doc ->
  live doc ->
  exists db',
    delete_service now service_id (pre ++ doc :: post)
    = (db', Ok "Service deleted successfully") /\
    List.length db' = List.length (pre ++ doc :: post) /\
    get_service fresh service_id db' = Raise (HTTPException 404 "Service not found") /\
    update_service fresh later service_id service_data db'
    = (db', Raise (HTTPException 404 "Service not found")) /\
    delete_service later service_id db'
    = (db', Raise (HTTPException 404 "Service not found")) /\
    exists l, get_services lfresh db' = Ok l /\
              forall s, In s l -> id s <> service_id.
Proof.
  intros Hwf Hothers Hid Hlive.
  set (doc' := apply_set (delete_fields now) doc).
  assert (Hpre : forall d, In d pre -> matches (by_id_live service_id) d = false).
  { apply no_live_match. intros d Hin. apply Hothers. apply in_or_app. left. exact Hin. }
  assert (Hdoc : matches (by_id_live service_id) doc = true)
    by (apply matches_by_id_live; split; assumption).
  assert (Hdel : dict_get "is_deleted" doc' = Some (VBool true)).
  { unfold doc', apply_set, delete_fields. cbn [fold_left fst snd].
    rewrite !dict_get_set. reflexivity. }
  assert (Hnone : forall d, In d (pre ++ doc' :: post) ->
                            matches (by_id_live service_id) d = false).
  { intros d Hin. destruct (matches (by_id_live service_id) d) eqn:E; [|reflexivity].
    apply matches_by_id_live in E. apply in_app_or in Hin.
    destruct Hin as [Hin|[<-|Hin]].
    - destruct (Hothers d (in_or_app _ _ _ (or_introl Hin)) E).
    - destruct E as [_ E]. unfold live in E. congruence.
    - destruct (Hothers d (in_or_app _ _ _ (or_intror Hin)) E). }
  assert (Hwf' : wf_db (pre ++ doc' :: post)).
  { apply wf_db_split in Hwf. destruct Hwf as (H1 & H2 & H3).
    apply wf_db_join; [exact H1 | apply wf_doc_delete; exact H2 | exact H3]. }
  exists (pre ++ doc' :: post).
  split; [|split; [|split; [|split; [|split]]]].
  - unfold delete_service. fold (by_id_live service_id). fold (delete_fields now).
    rewrite update_one_first by assumption. reflexivity.
  - rewrite !length_app. reflexivity.
  - unfold get_service. fold (by_id_live service_id).
    rewrite find_one_none by exact Hnone. reflexivity.
  - unfold update_service. fold (by_id_live service_id).
    rewrite update_one_none by exact Hnone. reflexivity.
  - unfold delete_service. fold (by_id_live service_id).
    rewrite update_one_none by exact Hnone. reflexivity.
  - destruct (wf_db_records _ Hwf') as [ss E]. rewrite E, get_services_stored.
    eexists. split; [reflexivity|].
    intros s Hin Hs. apply In_firstn in Hin. apply filter_In in Hin.
    destruct Hin as [Hin Hl].
    assert (Hm : matches (by_id_live service_id) (stored s) = true).
    { rewrite <- Hs. apply stored_matches. destruct (is_deleted s); [discriminate|reflexivity]. }
    rewrite Hnone in Hm; [discriminate|]. rewrite E. apply in_map. exact Hin.
Qed.

End Composition.

Section Dashboard.

Context {F : PyFloat}.

Lemma filter_length_update_one (p : dict -> bool) (query fields : dict) (db : collection) :
  (forall doc, matches query doc = true -> p (apply_set fields doc) = p doc) ->
  List.length (filter p (fst (update_one query fields db))) = List.length (filter p db).
Proof.
  intros H.
  destruct (first_match query db) as [Hn | (pre & doc & post & -> & Hpre & Hdoc)].
  - rewrite update_one_none by exact Hn. reflexivity.
  - rewrite update_one_first by assumption. cbn [fst].
    rewrite !filter_app. cbn [filter]. rewrite (H doc Hdoc).
    rewrite !length_app. destruct (p doc); reflexivity.
Qed.

Lemma liveb_update (u : ServiceUpdate) (now : datetime) (doc : dict) :
  liveb (apply_set (update_data_of u now) doc) = liveb doc.
Proof. unfold liveb. rewrite update_data_keeps_is_deleted. reflexivity. Qed.

Lemma activeb_stored (s : Service) : activeb (stored s) = String.eqb (status s) "active".
Proof. unfold activeb. rewrite stored_fields. reflexivity. Qed.

Lemma dashboard_totals (db : collection) :
  exists st, get_dashboard_stats db = Ok st /\
             total_services st = List.length (filter liveb db) /\
             active_services st = List.length (active_records db).
Proof. eexists. split; [apply get_dashboard_stats_eq|]. split; reflexivity. Qed.

(** X11: how the dashboard counts follow the requests: a create adds one to
    [total_services], and one to [active_services] exactly when the status
    of the request is "active"; a successful delete takes one from
    [total_services]; an update, successful or not, leaves
    [total_services] as it is. *)
Theorem dashboard_counts_follow_requests (db : collection) :
  (forall fresh service_data,
      exists st st',
        get_dashboard_stats db = Ok st /\
        get_dashboard_stats (fst (create_service fresh service_data db)) = Ok st' /\
        total_services st' = total_services st + 1 /\
        active_services st' =
        active_services st
        + (if String.eqb (sc_status service_data) "active" then 1 else 0)) /\
  (forall now service_id,
      (exists doc, In doc db /\ has_id service_id doc /\ live doc) ->
      exists st st',
        get_dashboard_stats db = Ok st /\
        get_dashboard_stats (fst (delete_service now service_id db)) = Ok st' /\
        total_services st' + 1 = total_services st) /\
  (forall fresh now service_id service_data,
      exists st st',
        get_dashboard_stats db = Ok st /\
        get_dashboard_stats (fst (update_service fresh now service_id service_data db))
        = Ok st' /\
        total_services st' = total_services st).
Proof.
  split; [|split].
  - intros fresh service_data.
    destruct (dashboard_totals db) as (st & Hst & Ht & Ha).
    destruct (dashboard_totals (fst (create_service fresh service_data db)))
      as (st' & Hst' & Ht' & Ha').
    exists st, st'. split; [exact Hst|]. split; [exact Hst'|].
    rewrite Ht', Ha', Ht, Ha, create_service_eq. cbn [fst].
    unfold active_records. rewrite !filter_app. cbn [filter].
    rewrite liveb_stored, activeb_stored. cbn [Service_created is_deleted status negb andb].
    rewrite !length_app. split; [reflexivity|].
    destruct (String.eqb (sc_status service_data) "active"); reflexivity.
  - intros now service_id (doc0 & Hin0 & Hid0 & Hlive0).
    destruct (dashboard_totals db) as (st & Hst & Ht & _).
    destruct (dashboard_totals (fst (delete_service now service_id db)))
      as (st' & Hst' & Ht' & _).
    exists st, st'. split; [exact Hst|]. split; [exact Hst'|].
    rewrite Ht', Ht, delete_service_fst.
    destruct (first_match (by_id_live service_id) db)
      as [Hn | (pre & doc & post & -> & Hpre & Hdoc)].
    + assert (E : matches (by_id_live service_id) doc0 = true)
        by (apply matches_by_id_live; split; assumption).
      rewrite (Hn doc0 Hin0) in E. discriminate.
    + rewrite update_one_first by assumption. cbn [fst].
      rewrite !filter_app. cbn [filter].
      apply matches_by_id_live in Hdoc. destruct Hdoc as [_ Hl].
      apply liveb_live in Hl. rewrite Hl.
      assert (Hd : liveb (apply_set [("is_deleted", VBool true);
                                     ("updated_at", VDatetime now)] doc) = false).
      { unfold liveb, apply_set. cbn [fold_left fst snd].
        rewrite !dict_get_set. reflexivity. }
      rewrite Hd. rewrite !length_app. cbn [List.length]. lia.
  - intros fresh now service_id service_data.
    destruct (dashboard_totals db) as (st & Hst & Ht & _).
    destruct (dashboard_totals (fst (update_service fresh now service_id service_data db)))
      as (st' & Hst' & Ht' & _).
    exists st, st'. split; [exact Hst|]. split; [exact Hst'|].
    rewrite Ht', Ht, update_service_fst.
    apply filter_length_update_one. intros doc _. apply liveb_update.
Qed.

(** *** The histogram adds up *)

Lemma Zsum_bump_name (t : string) (groups : list (string * Z)) :
  Zsum (map snd (bump_name t groups)) = (Zsum (map snd groups) + 1)%Z.
Proof.
  induction groups as [|[k n] r IH]; cbn [bump_name map snd Zsum fold_right].
  - reflexivity.
  - destruct (String.eqb t k); cbn [map snd Zsum fold_right].
    + fold (Zsum (map snd r)). lia.
    + fold (Zsum (map snd (bump_name t r))). fold (Zsum (map snd r)).
      rewrite IH. lia.
Qed.

Lemma Zsum_count_names (ts : list string) :
  Zsum (map snd (count_names ts)) = Z.of_nat (List.length ts).
Proof.
  induction ts as [|t ts IH] using rev_ind; [reflexivity|].
  rewrite count_names_snoc, Zsum_bump_name, IH, length_app. cbn [List.length]. lia.
Qed.

Lemma Zsum_firstn_le (n : nat) (l : list Z) :
  (forall z, In z l -> (0 <= z)%Z) -> (Zsum (firstn n l) <= Zsum l)%Z.
Proof.
  revert n. induction l as [|z r IH]; intros n H.
  - destruct n; cbn; lia.
  - assert (Hr : (0 <= Zsum r)%Z).
    { clear IH. induction r as [|y r IHr]; cbn [Zsum fold_right]; [lia|].
      fold (Zsum r).
      assert (0 <= y)%Z by (apply H; right; left; reflexivity).
      assert (0 <= Zsum r)%Z.
      { apply IHr. intros w [Hw|Hw]; apply H; [left|right; right]; assumption. }
      lia. }
    destruct n as [|n]; cbn [firstn Zsum fold_right].
    + fold (Zsum r). assert (0 <= z)%Z by (apply H; left; reflexivity). lia.
    + fold (Zsum (firstn n r)). fold (Zsum r).
      specialize (IH n (fun w Hw => H w (or_intror Hw))). lia.
Qed.

Lemma type_names_length (docs : list dict) :
  (forall d, In d docs -> wf_doc d) ->
  List.length (type_names docs) = List.length docs.
Proof.
  induction docs as [|d r IH]; intros H; [reflexivity|].
  destruct (wf_doc_service_type d (H d (or_introl eq_refl))) as [t Ht].
  cbn [type_names flat_map]. rewrite Ht. cbn [app List.length].
  f_equal. apply IH. intros x Hx. apply H. right. exact Hx.
Qed.

(** X12: on a collection this API wrote, the counts of the groups of
    [services_by_type] add up to at most [active_services], and to exactly
    [active_services] when the active records have at most ten distinct
    service types. *)
Theorem type_counts_add_up (db : collection) :
  wf_db db ->
  exists st,
    get_dashboard_stats db = Ok st /\
    (Zsum (map group_count (services_by_type st)) <= Z.of_nat (active_services st))%Z /\
    (List.length (nodup string_dec (active_types db)) <= 10 ->
     Zsum (map group_count (services_by_type st)) = Z.of_nat (active_services st)).
Proof.
  intros Hwf. eexists. split; [apply get_dashboard_stats_eq|].
  cbn [services_by_type active_services]. rewrite services_by_type_eq by exact Hwf.
  assert (Hlen : List.length (active_types db) = List.length (active_records db)).
  { apply type_names_length. intros d Hin. unfold active_records in Hin.
    apply filter_In in Hin. unfold wf_db in Hwf. rewrite Forall_forall in Hwf.
    apply Hwf. apply Hin. }
  assert (Hmap : forall l : list (string * Z),
             map group_count (map (fun kn => type_group (fst kn) (snd kn)) l)
             = map snd l).
  { intros l. rewrite map_map. apply map_ext. intros [k n]. reflexivity. }
  rewrite <- Hlen, <- Zsum_count_names. split.
  - rewrite <- firstn_map, Hmap. rewrite firstn_map.
    rewrite <- firstn_map. apply Zsum_firstn_le.
    intros z Hz. apply in_map_iff in Hz. destruct Hz as [[k n] [<- Hin]].
    destruct (count_names_ok (active_types db)) as (_ & _ & Hc).
    destruct (Hc k n Hin) as [Hn _]. cbn [snd]. lia.
  - intros Hten.
    rewrite firstn_all2 by (rewrite length_map, count_names_length; exact Hten).
    rewrite Hmap. reflexivity.
Qed.

End Dashboard.

Section Exports.

Context {F : PyFloat} {L : Libraries}.

(** X13: on a collection this API wrote, building the spreadsheet rows never
    raises: the writer is given, for each of the first 1000 non-deleted
    records, the row of its name, type, provider, fee, currency, the three
    dates formatted (blank when absent), the status label and the notes;
    the export returns the writer's bytes as an attachment, and fails
    exactly when the writer raises. *)
Theorem excel_export_of_stored_records (ss : list Service) :
  (forall bytes,
      write_excel "Hizmetler" (map excel_row_of (exported ss)) = Ok bytes ->
      export_services_excel (map stored ss)
      = Ok (mkStreamingResponse bytes
              "application/vnd.openxmlformats-officedocument.spreadsheetml.sheet"
              "attachment; filename=hizmetler.xlsx")) /\
  (forall e,
      write_excel "Hizmetler" (map excel_row_of (exported ss)) = Raise e ->
      export_services_excel (map stored ss)
      = Raise (HTTPException 500 ("Excel export failed: " ++ str_exn e))).
Proof.
  unfold export_services_excel, excel_body.
  rewrite exported_docs, (mapM_map_ok _ _ excel_row_of) by apply excel_row_stored.
  cbn [bind]. split; intros x Hx; rewrite Hx; reflexivity.
Qed.

(** X14: on a collection this API wrote, building the PDF table never raises:
    the writer is given the title, a spacer and one table whose first row
    is the header and whose other rows are, for each of the first 1000
    non-deleted records, its name, type, provider, the fee after the lira
    sign, the next renewal date (a dash when absent) and the status label;
    the export fails exactly when the writer raises. *)
Theorem pdf_export_of_stored_records (ss : list Service) :
  (forall bytes,
      build_pdf [ Paragraph "Hizmet Listesi"; Spacer 1 20;
                  Table (pdf_header :: map pdf_row_of (exported ss)) ] = Ok bytes ->
      export_services_pdf (map stored ss)
      = Ok (mkStreamingResponse bytes "application/pdf"
              "attachment; filename=hizmetler.pdf")) /\
  (forall e,
      build_pdf [ Paragraph "Hizmet Listesi"; Spacer 1 20;
                  Table (pdf_header :: map pdf_row_of (exported ss)) ] = Raise e ->
      export_services_pdf (map stored ss)
      = Raise (HTTPException 500 ("PDF export failed: " ++ str_exn e))).
Proof.
  unfold export_services_pdf, pdf_body, pdf_table_data.
  rewrite exported_docs, (mapM_map_ok _ _ pdf_row_of) by apply pdf_row_stored.
  cbn [bind]. split; intros x Hx; rewrite Hx; reflexivity.
Qed.

Lemma text_date_rows (s : Service) (c : ascii) (t : string) :
  excel_row (dict_set "next_renewal_date" (VStr (String c t)) (stored s))
  = Raise (AttributeError "'str' object has no attribute 'strftime'") /\
  pdf_row (dict_set "next_renewal_date" (VStr (String c t)) (stored s))
  = Raise (AttributeError "'str' object has no attribute 'strftime'").
Proof.
  unfold excel_row, pdf_row. rewrite status_label_set_date, stored_fields.
  destruct s as [i n nt p cd [lr|] nr fee cur st no del ca ua]; split; reflexivity.
Qed.

(** X15: one stored record whose [next_renewal_date] is a non-empty text
    instead of a date-time, among the first 1000 non-deleted documents and
    after well-formed ones, makes both exports raise the 500 error that
    carries Python's message for the missing [strftime], whatever the
    writers would do. *)
Theorem exports_fail_on_text_date (db : collection) (good : list Service)
    (s : Service) (t : string) (rest : list dict) :
  to_list 1000 (filter liveb db)
  = map stored good ++ dict_set "next_renewal_date" (VStr t) (stored s) :: rest ->
  t <> "" ->
  export_services_excel db
  = Raise (HTTPException 500
             "Excel export failed: 'str' object has no attribute 'strftime'") /\
  export_services_pdf db
  = Raise (HTTPException 500
             "PDF export failed: 'str' object has no attribute 'strftime'").
Proof.
  intros Hdocs Ht. destruct t as [|c t]; [congruence|].
  destruct (text_date_rows s c t) as [He Hp].
  unfold export_services_excel, excel_body, export_services_pdf, pdf_body,
    pdf_table_data, find_all.
  rewrite filter_live, Hdocs.
  assert (Hge : forall x, In x (map stored good) -> exists b, excel_row x = Ok b).
  { intros x Hx. apply in_map_iff in Hx. destruct Hx as [g [<- _]].
    eexists. apply excel_row_stored. }
  assert (Hgp : forall x, In x (map stored good) -> exists b, pdf_row x = Ok b).
  { intros x Hx. apply in_map_iff in Hx. destruct Hx as [g [<- _]].
    eexists. apply pdf_row_stored. }
  rewrite (mapM_raise excel_row _ _ _ _ Hge He).
  rewrite (mapM_raise pdf_row _ _ _ _ Hgp Hp).
  split; reflexivity.
Qed.


End Exports.

Section Identifiers.

Context {F : PyFloat} {L : Libraries}.

Lemma ids_update_one (query fields : dict) (db : collection) :
  (forall doc, dict_get "id" (apply_set fields doc) = dict_get "id" doc) ->
  ids (fst (update_one query fields db)) = ids db.
Proof.
  intros H. unfold ids. induction db as [|d r IH]; [reflexivity|].
  cbn [update_one]. destruct (matches query d).
  - cbn [fst map]. rewrite H. reflexivity.
  - destruct (update_one query fields r) as [r' n]. cbn [fst map] in *.
    rewrite IH. reflexivity.
Qed.

Lemma ids_endpoint (authorization : option string) (c : call) (env : Env)
    (db : collection) :
  ids (fst (endpoint authorization c env db)) = ids db \/
  (exists service_data,
      c = CreateService service_data /\
      ids (fst (endpoint authorization c env db))
      = ids db ++ [Some (VStr (uuid4 (fresh env 0)))]).
Proof.
  destruct (endpoint_gate authorization c env db) as [-> | [e ->]];
    [|left; reflexivity].
  destruct c; cbn [handler fst]; try (left; reflexivity).
  - right. exists service_data. split; [reflexivity|].
    rewrite create_service_eq. cbn [fst]. unfold ids. rewrite map_app.
    cbn [map]. rewrite stored_id. reflexivity.
  - left.
    pose proof (update_service_fst (fresh env 0) (utcnow env) service_id service_data db) as E.
    destruct (update_service (fresh env 0) (utcnow env) service_id service_data db).
    cbn [fst] in *. rewrite E. apply ids_update_one. intros doc. apply update_data_keeps_id.
  - left.
    pose proof (delete_service_fst (utcnow env) service_id db) as E.
    destruct (delete_service (utcnow env) service_id db).
    cbn [fst] in *. rewrite E. apply ids_update_one. intros doc.
    apply dict_get_apply_set_other. cbn [keys map fst In]. intuition discriminate.
Qed.

(** X5: identifiers stay distinct: when the stored documents have pairwise
    distinct identifiers and every create draws an identifier not yet
    stored, the documents have pairwise distinct identifiers after any
    sequence of requests; no request changes or reuses an identifier. *)
Theorem ids_stay_distinct (requests : list (option string * call * Env)) (db : collection) :
  NoDup (ids db) ->
  draws_new_ids requests db ->
  NoDup (ids (run requests db)).
Proof.
  revert db. induction requests as [|[[authorization c] env] rest IH]; intros db Hnd Hnew.
  - exact Hnd.
  - cbn [run]. destruct Hnew as [Hc Hrest]. apply IH; [|exact Hrest].
    destruct (ids_endpoint authorization c env db) as [E | (service_data & -> & E)];
      rewrite E; [exact Hnd|].
    apply NoDup_app; [exact Hnd | constructor; [intros [] | constructor] |].
    intros x Hx [<-|[]]. unfold ids in Hx. apply in_map_iff in Hx.
    destruct Hx as [d [Hd Hin]]. exact (Hc d Hin Hd).
Qed.

End Identifiers.

Section NeverCleared.

Context {F : PyFloat} {L : Libraries}.

Lemma apply_set_keeps_filled (fields doc : dict) (k : string) :
  NoDup (keys fields) ->
  (forall v, dict_get k fields = Some v -> v <> VNone) ->
  filled k doc -> filled k (apply_set fields doc).
Proof.
  intros Hnd Hv Hf. unfold filled. rewrite dict_get_apply_set by exact Hnd.
  destruct (dict_get k fields) as [v|] eqn:E.
  - exists v. split; [reflexivity | apply Hv; reflexivity].
  - exact Hf.
Qed.

Lemma update_data_not_None (u : ServiceUpdate) (now : datetime) (k : string) (v : value) :
  dict_get k (update_data_of u now) = Some v -> v <> VNone.
Proof.
  rewrite dict_get_update_data. destruct (String.eqb k "updated_at").
  - intros H. inversion H. discriminate.
  - unfold supplied. destruct (dict_get k (ServiceUpdate_dict u)) as [w|]; [|discriminate].
    destruct w; cbn [is_None option_map date_to_datetime]; intros H;
      inversion H; discriminate.
Qed.

Lemma keeps_filled_run (requests : list (option string * call * Env)) (db : collection) :
  keeps_filled db (run requests db).
Proof.
  apply run_relation; clear.
  - intros db i doc H. exists doc. auto.
  - intros db1 db2 db3 H12 H23 i doc H.
    destruct (H12 i doc H) as (d2 & Hd2 & Hk2).
    destruct (H23 i d2 Hd2) as (d3 & Hd3 & Hk3).
    exists d3. split; [exact Hd3|]. auto.
  - intros doc db i d H. exists d. unfold insert_one.
    rewrite nth_error_app1 by (apply nth_error_Some; congruence). auto.
  - intros i u now db j doc H.
    apply (update_one_pointwise (fun a b => forall k, filled k a -> filled k b)); auto.
    intros d _ k. apply apply_set_keeps_filled; [apply update_data_NoDup|].
    intros v. apply update_data_not_None.
  - intros i now db j doc H.
    apply (update_one_pointwise (fun a b => forall k, filled k a -> filled k b)); auto.
    intros d _ k. apply apply_set_keeps_filled.
    + unfold delete_fields. cbn [keys map fst].
      repeat (constructor; [cbn [In]; intuition discriminate|]). constructor.
    + unfold delete_fields. cbn [dict_get]. intros v.
      destruct (String.eqb k "is_deleted"); [intros E; inversion E; discriminate|].
      destruct (String.eqb k "updated_at"); intros E; inversion E; discriminate.
Qed.

(** X4: no request clears a field: a field of a stored document that holds
    a value other than [None] (notes or a renewal date, for instance) still
    holds one after any sequence of requests; a null in an update request
    is skipped like an absent field. *)
Theorem fields_never_cleared (requests : list (option string * call * Env))
    (db : collection) (i : nat) (doc : dict) (k : string) (v : value) :
  nth_error db i = Some doc ->
  dict_get k doc = Some v ->
  v <> VNone ->
  exists doc' v',
    nth_error (run requests db) i = Some doc' /\
    dict_get k doc' = Some v' /\
    v' <> VNone.
Proof.
  intros H Hv Hn. destruct (keeps_filled_run requests db i doc H) as (doc' & Hd & Hk).
  destruct (Hk k (ex_intro _ v (conj Hv Hn))) as (v' & Hv' & Hn').
  exists doc', v'. auto.
Qed.

End NeverCleared.

(** * Properties of the API tester *)

Section TesterFacts.

Context {F : PyFloat} {N : Network}.

Lemma counted_trans (n m : nat) (t1 t2 t3 : Tester) :
  counted n t1 t2 -> counted m t2 t3 -> counted (n + m) t1 t3.
Proof. unfold counted. lia. Qed.

Lemma run_test_spec (method : http_method) (path : api_path) (expected_status : nat)
    (data : option json) (t : Tester) (w : world) :
  exists t' b j,
    run_test method path expected_status data t w
    = (fst (send w (mkRequest method path (bearer_of t) data)), t', (b, j)) /\
    tester_token t' = tester_token t /\
    created_service_id t' = created_service_id t /\
    tests_run t' = tests_run t + 1 /\
    tests_passed t' = tests_passed t + (if b then 1 else 0) /\
    (b = true <->
     exists r, snd (send w (mkRequest method path (bearer_of t) data)) = Some r /\
               rs_status_code r = expected_status) /\
    (j = JObj [] \/
     exists r, snd (send w (mkRequest method path (bearer_of t) data)) = Some r /\
               rs_json r = Some j).
Proof.
  unfold run_test, bearer_of.
  destruct (send w _) as [w' [r|]] eqn:E; cbn [fst snd].
  - destruct (Nat.eqb (rs_status_code r) expected_status) eqn:Es.
    + apply Nat.eqb_eq in Es.
      destruct (rs_json r) as [j|] eqn:Ej; eexists _, true, _;
        (split; [reflexivity|]); cbn [tester_token created_service_id tests_run tests_passed];
        repeat split; try lia; eauto.
    + apply Nat.eqb_neq in Es. eexists _, false, _. split; [reflexivity|].
      cbn [tester_token created_service_id tests_run tests_passed].
      repeat split; try lia; try discriminate; auto.
      intros (r' & Hr & Hs). inversion Hr; subst. contradiction.
  - eexists _, false, _. split; [reflexivity|].
    cbn [tester_token created_service_id tests_run tests_passed].
    repeat split; try lia; try discriminate; auto.
    intros (r' & Hr & _). discriminate.
Qed.

Lemma counted_of_run (t t' : Tester) (b : bool) :
  tests_run t' = tests_run t + 1 ->
  tests_passed t' = tests_passed t + (if b then 1 else 0) ->
  counted 1 t t'.
Proof. unfold counted. destruct b; lia. Qed.

Ltac run_one t w :=
  match goal with
  | |- context [run_test ?m ?p ?e ?d t w] =>
      let t1 := fresh "t1" in
      let b := fresh "b" in
      let j := fresh "j" in
      let E := fresh "E" in
      let Htok := fresh "Htok" in
      let Hid := fresh "Hid" in
      let Hrun := fresh "Hrun" in
      let Hpass := fresh "Hpass" in
      let Hb := fresh "Hb" in
      let Hj := fresh "Hj" in
      destruct (run_test_spec m p e d t w)
        as (t1 & b & j & E & Htok & Hid & Hrun & Hpass & Hb & Hj);
      rewrite E
  end.

Lemma test_login_invalid_spec (t : Tester) (w : world) :
  exists w' t' b,
    test_login_invalid t w = Ok (w', t', b) /\
    counted 1 t t' /\ created_service_id t' = created_service_id t.
Proof.
  unfold test_login_invalid. run_one t w.
  eexists _, _, _. split; [reflexivity|]. split; [|exact Hid].
  eapply counted_of_run; eassumption.
Qed.

Lemma test_get_services_unauthorized_spec (t : Tester) (w : world) :
  exists t' b,
    test_get_services_unauthorized t w
    = Ok (fst (send w (mkRequest GET Services None None)), t', b) /\
    counted 1 t t' /\
    created_service_id t' = created_service_id t /\
    tester_token t' = tester_token t /\
    (b = true <->
     exists r, snd (send w (mkRequest GET Services None None)) = Some r /\
               rs_status_code r = 401).
Proof.
  unfold test_get_services_unauthorized.
  run_one (mkTester JNull (tests_run t) (tests_passed t) (created_service_id t)) w.
  cbn [bearer_of tester_token json_truthy created_service_id tests_run tests_passed] in *.
  eexists _, _. split; [reflexivity|].
  cbn [tester_token created_service_id tests_run tests_passed].
  split; [unfold counted; cbn [tests_run tests_passed]; destruct b; lia|].
  split; [exact Hid|]. split; [reflexivity | exact Hb].
Qed.

Lemma test_login_valid_spec (t : Tester) (w : world) (w' : world) (t' : Tester) (b : bool) :
  test_login_valid t w = Ok (w', t', b) ->
  counted 1 t t' /\ created_service_id t' = created_service_id t.
Proof.
  unfold test_login_valid. run_one t w.
  assert (Hc : counted 1 t t1) by (eapply counted_of_run; eassumption).
  destruct b0.
  - destruct (json_contains "token" j) as [[|]|e]; cbn [bind]; try discriminate.
    + destruct (json_getitem "token" j) as [tok|e]; cbn [bind]; [|discriminate].
      intros H. inversion H; subst. cbn [created_service_id]. split; [|exact Hid].
      unfold counted in *. cbn [tests_run tests_passed]. exact Hc.
    + intros H. inversion H; subst. auto.
  - intros H. inversion H; subst. auto.
Qed.

Lemma test_get_services_spec (t : Tester) (w : world) (w' : world) (t' : Tester) (b : bool) :
  test_get_services t w = Ok (w', t', b) ->
  counted 1 t t' /\ created_service_id t' = created_service_id t.
Proof.
  unfold test_get_services. run_one t w.
  assert (Hc : counted 1 t t1) by (eapply counted_of_run; eassumption).
  destruct b0.
  - destruct (json_len j) as [n|e]; cbn [bind]; [|discriminate].
    intros H. inversion H; subst. auto.
  - intros H. inversion H; subst. auto.
Qed.

Lemma test_get_dashboard_stats_spec (t : Tester) (w : world) (w' : world) (t' : Tester)
    (b : bool) :
  test_get_dashboard_stats t w = Ok (w', t', b) ->
  counted 1 t t' /\ created_service_id t' = created_service_id t.
Proof.
  unfold test_get_dashboard_stats. run_one t w.
  assert (Hc : counted 1 t t1) by (eapply counted_of_run; eassumption).
  destruct b0.
  - destruct (check_keys expected_keys j) as [n|e]; cbn [bind]; [|discriminate].
    intros H. inversion H; subst. auto.
  - intros H. inversion H; subst. auto.
Qed.

Lemma test_create_service_spec (hms : string) (t : Tester) (w : world) (w' : world)
    (t' : Tester) (b : bool) :
  test_create_service hms t w = Ok (w', t', b) ->
  counted 1 t t'.
Proof.
  unfold test_create_service. run_one t w.
  assert (Hc : counted 1 t t1) by (eapply counted_of_run; eassumption).
  destruct b0.
  - destruct (json_contains "id" j) as [[|]|e]; cbn [bind]; try discriminate.
    + destruct (json_getitem "id" j) as [tok|e]; cbn [bind]; [|discriminate].
      intros H. inversion H; subst.
      unfold counted in *. cbn [tests_run tests_passed]. exact Hc.
    + intros H. inversion H; subst. auto.
  - intros H. inversion H; subst. auto.
Qed.

Lemma with_created_id_spec (method : http_method) (expected_status : nat)
    (data : option json) (t : Tester) (w : world) :
  exists w' t' b,
    with_created_id method expected_status data t w = Ok (w', t', b) /\
    counted (if json_truthy (created_service_id t) then 1 else 0) t t' /\
    created_service_id t' = created_service_id t /\
    (json_truthy (created_service_id t) = false -> w' = w /\ t' = t /\ b = false).
Proof.
  unfold with_created_id. destruct (json_truthy (created_service_id t)) eqn:Et; cbn [negb].
  - run_one t w. eexists _, _, _. split; [reflexivity|].
    split; [eapply counted_of_run; eassumption|]. split; [exact Hid | discriminate].
  - eexists _, _, _. split; [reflexivity|]. split; [unfold counted; lia|]. auto.
Qed.

(** X16: the unauthorized test sends its request without a bearer token,
    whatever token the tester holds, and puts the token back: it never
    raises, counts one request, and passes exactly when the answer is 401. *)
Theorem unauthorized_test_restores_token (t : Tester) (w : world) :
  exists t' b,
    test_get_services_unauthorized t w
    = Ok (fst (send w (mkRequest GET Services None None)), t', b) /\
    tester_token t' = tester_token t /\
    created_service_id t' = created_service_id t /\
    tests_run t' = tests_run t + 1 /\
    tests_passed t' = tests_passed t + (if b then 1 else 0) /\
    (b = true <->
     exists r, snd (send w (mkRequest GET Services None None)) = Some r /\
               rs_status_code r = 401).
Proof.
  unfold test_get_services_unauthorized.
  run_one (mkTester JNull (tests_run t) (tests_passed t) (created_service_id t)) w.
  cbn [bearer_of tester_token json_truthy created_service_id tests_run tests_passed] in *.
  eexists _, _. split; [reflexivity|].
  cbn [tester_token created_service_id tests_run tests_passed].
  repeat split; try assumption; apply Hb.
Qed.

(** X17: when [main] returns, it has counted ten requests if the create test
    stored a usable identifier and six otherwise (the four tests that need
    it send nothing and are not counted); at most that many passed; and
    the exit code is 0 exactly when every counted request passed. *)
Theorem main_counts (hms_create hms_update : string) (w w' : world) (t : Tester)
    (code : nat) :
  main hms_create hms_update w = Ok (w', t, code) ->
  tests_run t = (if json_truthy (created_service_id t) then 10 else 6) /\
  tests_passed t <= tests_run t /\
  (code = 0 <-> tests_passed t = tests_run t) /\
  (code = 0 \/ code = 1).
Proof.
  unfold main. cbn [run_tests].
  destruct (test_login_invalid_spec (mkTester JNull 0 0 JNull) w)
    as (w1 & t1 & b1 & E1 & C1 & I1).
  rewrite E1. cbn [bind].
  destruct (test_get_services_unauthorized_spec t1 w1) as (t2 & b2 & E2 & C2 & I2 & _).
  rewrite E2. cbn [bind].
  destruct (test_login_valid t2 _) as [[[w3 t3] b3]|e] eqn:E3; cbn [bind]; [|discriminate].
  apply test_login_valid_spec in E3. destruct E3 as [C3 I3].
  destruct (test_get_services t3 w3) as [[[w4 t4] b4]|e] eqn:E4; cbn [bind]; [|discriminate].
  apply test_get_services_spec in E4. destruct E4 as [C4 I4].
  destruct (test_create_service hms_create t4 w4) as [[[w5 t5] b5]|e] eqn:E5;
    cbn [bind]; [|discriminate].
  apply test_create_service_spec in E5.
  unfold test_get_service_by_id, test_update_service, test_delete_service,
    test_get_deleted_service.
  destruct (with_created_id_spec GET 200 None t5 w5) as (w6 & t6 & b6 & E6 & C6 & I6 & _).
  rewrite E6. cbn [bind].
  match goal with
  | |- context [with_created_id PUT 200 ?d t6 w6] =>
      destruct (with_created_id_spec PUT 200 d t6 w6) as (w7 & t7 & b7 & E7 & C7 & I7 & _)
  end.
  rewrite E7. cbn [bind].
  destruct (test_get_dashboard_stats t7 w7) as [[[w8 t8] b8]|e] eqn:E8;
    cbn [bind]; [|discriminate].
  apply test_get_dashboard_stats_spec in E8. destruct E8 as [C8 I8].
  destruct (with_created_id_spec DELETE 200 None t8 w8) as (w9 & t9 & b9 & E9 & C9 & I9 & _).
  rewrite E9. cbn [bind].
  destruct (with_created_id_spec GET 404 None t9 w9) as (w10 & t10 & b10 & E10 & C10 & I10 & _).
  rewrite E10. cbn [bind].
  assert (Hid : forall x, x = t6 \/ x = t7 \/ x = t8 \/ x = t9 \/ x = t10 ->
                          created_service_id x = created_service_id t5).
  { intros x [-> | [-> | [-> | [-> | ->]]]]; congruence. }
  rewrite (Hid t6), (Hid t7) in * by tauto.
  rewrite (Hid t8) in C9 by tauto. rewrite (Hid t9) in C10 by tauto.
  unfold counted in *. cbn [tests_run tests_passed] in *.
  destruct (Nat.eqb (tests_passed t10) (tests_run t10)) eqn:Ec;
    intros H; inversion H; subst;
    [apply Nat.eqb_eq in Ec | apply Nat.eqb_neq in Ec];
    rewrite (Hid t) by tauto;
    destruct (json_truthy (created_service_id t5));
    repeat split; try lia; auto; try (intros; lia).
Qed.

(** *** Answers shaped as the API shapes them *)

Lemma existsb_is_str_objects (key : string) (items : list json) :
  forallb is_object items = true -> existsb (json_is_str key) items = false.
Proof.
  induction items as [|i r IH]; [reflexivity|].
  cbn [forallb existsb]. intros H. apply andb_true_iff in H. destruct H as [Hi Hr].
  rewrite (IH Hr). destruct i; try discriminate. reflexivity.
Qed.

Lemma api_body_lookup (key : string) (j : json) :
  api_body j = true ->
  json_contains key j = Ok false \/
  (json_contains key j = Ok true /\ exists v, json_getitem key j = Ok v).
Proof.
  destruct j; try discriminate; cbn [api_body json_contains json_getitem]; intros H.
  - left. rewrite existsb_is_str_objects by exact H. reflexivity.
  - destruct (members_get key members) as [v|]; [right; eauto | left; reflexivity].
Qed.

Lemma api_body_len (j : json) : api_body j = true -> exists n, json_len j = Ok n.
Proof. destruct j; try discriminate; cbn [json_len]; eauto. Qed.

Lemma api_body_check_keys (ks : list string) (j : json) :
  api_body j = true -> check_keys ks j = Ok tt.
Proof.
  intros H. induction ks as [|k r IH]; [reflexivity|].
  cbn [check_keys].
  destruct (api_body_lookup k j H) as [E|[E [v Ev]]]; rewrite E; cbn [bind];
    [exact IH|].
  rewrite Ev. cbn [bind]. exact IH.
Qed.

Section ApiAnswers.

Hypothesis answers_api_bodies :
  forall (w : world) (rq : http_request) (r : http_response) (j : json),
    snd (send w rq) = Some r -> rs_json r = Some j -> api_body j = true.

Lemma run_test_api_body (method : http_method) (path : api_path) (expected_status : nat)
    (data : option json) (t : Tester) (w : world) :
  api_body (snd (snd (run_test method path expected_status data t w))) = true.
Proof.
  destruct (run_test_spec method path expected_status data t w)
    as (t1 & b & j & E & _ & _ & _ & _ & _ & Hj).
  rewrite E. cbn [snd]. destruct Hj as [->|(r & Hr & Hjr)]; [reflexivity|].
  eapply answers_api_bodies; eassumption.
Qed.

Lemma test_login_valid_returns (t : Tester) (w : world) :
  exists r, test_login_valid t w = Ok r.
Proof.
  unfold test_login_valid.
  match goal with
  | |- context [run_test ?m ?p ?e ?d t w] =>
      pose proof (run_test_api_body m p e d t w) as Hb;
      destruct (run_test m p e d t w) as [[w1 t1] [b j]]
  end.
  cbn [snd] in Hb. destruct b; [|eauto].
  destruct (api_body_lookup "token" j Hb) as [E|[E [v Ev]]]; rewrite E; cbn [bind]; [eauto|].
  rewrite Ev. cbn [bind]. eauto.
Qed.

Lemma test_create_service_returns (hms : string) (t : Tester) (w : world) :
  exists r, test_create_service hms t w = Ok r.
Proof.
  unfold test_create_service.
  match goal with
  | |- context [run_test ?m ?p ?e ?d t w] =>
      pose proof (run_test_api_body m p e d t w) as Hb;
      destruct (run_test m p e d t w) as [[w1 t1] [b j]]
  end.
  cbn [snd] in Hb. destruct b; [|eauto].
  destruct (api_body_lookup "id" j Hb) as [E|[E [v Ev]]]; rewrite E; cbn [bind]; [eauto|].
  rewrite Ev. cbn [bind]. eauto.
Qed.

Lemma test_get_services_returns (t : Tester) (w : world) :
  exists r, test_get_services t w = Ok r.
Proof.
  unfold test_get_services.
  match goal with
  | |- context [run_test ?m ?p ?e ?d t w] =>
      pose proof (run_test_api_body m p e d t w) as Hb;
      destruct (run_test m p e d t w) as [[w1 t1] [b j]]
  end.
  cbn [snd] in Hb. destruct b; [|eauto].
  destruct (api_body_len j Hb) as [n E]. rewrite E. cbn [bind]. eauto.
Qed.

Lemma test_get_dashboard_stats_returns (t : Tester) (w : world) :
  exists r, test_get_dashboard_stats t w = Ok r.
Proof.
  unfold test_get_dashboard_stats.
  match goal with
  | |- context [run_test ?m ?p ?e ?d t w] =>
      pose proof (run_test_api_body m p e d t w) as Hb;
      destruct (run_test m p e d t w) as [[w1 t1] [b j]]
  end.
  cbn [snd] in Hb. destruct b; [|eauto].
  rewrite (api_body_check_keys expected_keys j Hb). cbn [bind]. eauto.
Qed.

Lemma main_returns_aux (hms_create hms_update : string) (w : world) :
  exists w' t code, main hms_create hms_update w = Ok (w', t, code).
Proof.
  unfold main. cbn [run_tests].
  destruct (test_login_invalid_spec (mkTester JNull 0 0 JNull) w)
    as (w1 & t1 & b1 & E1 & _).
  rewrite E1. cbn [bind].
  destruct (test_get_services_unauthorized_spec t1 w1) as (t2 & b2 & E2 & _).
  rewrite E2. cbn [bind].
  destruct (test_login_valid_returns t2 (fst (send w1 (mkRequest GET Services None None))))
    as [[[w3 t3] b3] E3].
  rewrite E3. cbn [bind].
  destruct (test_get_services_returns t3 w3) as [[[w4 t4] b4] E4]. rewrite E4. cbn [bind].
  destruct (test_create_service_returns hms_create t4 w4) as [[[w5 t5] b5] E5].
  rewrite E5. cbn [bind].
  unfold test_get_service_by_id, test_update_service, test_delete_service,
    test_get_deleted_service.
  destruct (with_created_id_spec GET 200 None t5 w5) as (w6 & t6 & b6 & E6 & _).
  rewrite E6. cbn [bind].
  match goal with
  | |- context [with_created_id PUT 200 ?d t6 w6] =>
      destruct (with_created_id_spec PUT 200 d t6 w6) as (w7 & t7 & b7 & E7 & _)
  end.
  rewrite E7. cbn [bind].
  destruct (test_get_dashboard_stats_returns t7 w7) as [[[w8 t8] b8] E8].
  rewrite E8. cbn [bind].
  destruct (with_created_id_spec DELETE 200 None t8 w8) as (w9 & t9 & b9 & E9 & _).
  rewrite E9. cbn [bind].
  destruct (with_created_id_spec GET 404 None t9 w9) as (w10 & t10 & b10 & E10 & _).
  rewrite E10. cbn [bind].
  destruct (Nat.eqb (tests_passed t10) (tests_run t10)); eauto.
Qed.

End ApiAnswers.

(** X18: when every JSON body the server sends is an object or an array of
    objects, as the bodies of this API are, [main] raises nothing and
    returns an exit code, whatever the statuses and whether or not the
    requests get through. *)
Theorem main_returns_on_api_answers (hms_create hms_update : string) (w : world) :
  (forall (w0 : world) (rq : http_request) (r : http_response) (j : json),
      snd (send w0 rq) = Some r -> rs_json r = Some j -> api_body j = true) ->
  exists w' t code, main hms_create hms_update w = Ok (w', t, code).
Proof. intros H. apply main_returns_aux. exact H. Qed.

End TesterFacts.

(** * The further properties at sample inputs *)

Lemma login_token_opens_routes_witness :
  login (mkUserLogin "bilgi@gallaxdesign.com" "gallax11")
  = Ok (mkLoginResponse "authenticated" "Login successful") /\
  endpoint (L := working_libraries) (Some "Bearer authenticated") GetDashboardStats
    sample_env sample_db
  = handler (L := working_libraries) GetDashboardStats sample_env sample_db.
Proof.
  assert (H : login (mkUserLogin "bilgi@gallaxdesign.com" "gallax11")
              = Ok (mkLoginResponse "authenticated" "Login successful")) by reflexivity.
  split; [exact H|].
  exact (proj2 (login_token_opens_routes (L := working_libraries) _ _
                  GetDashboardStats sample_env sample_db H)).
Defined.

Lemma deleted_documents_frozen_witness :
  nth_error sample_db 2 = Some (stored record_c) /\
  dict_get "is_deleted" (stored record_c) = Some (VBool true) /\
  nth_error (run (L := working_libraries) sample_requests sample_db) 2 = Some (stored record_c).
Proof.
  assert (H1 : nth_error sample_db 2 = Some (stored record_c)) by reflexivity.
  assert (H2 : dict_get "is_deleted" (stored record_c) = Some (VBool true))
    by (vm_compute; reflexivity).
  split; [exact H1|]. split; [exact H2|].
  exact (deleted_documents_frozen (L := working_libraries) sample_requests sample_db 2
           (stored record_c) H1 H2).
Defined.

Lemma id_and_created_at_immutable_witness :
  nth_error sample_db 0 = Some (stored record_a) /\
  exists doc',
    nth_error (run (L := working_libraries) sample_requests sample_db) 0 = Some doc' /\
    dict_get "id" doc' = Some (VStr "a") /\
    dict_get "created_at" doc' = Some (VDatetime sample_time).
Proof.
  assert (H1 : nth_error sample_db 0 = Some (stored record_a)) by reflexivity.
  split; [exact H1|].
  destruct (id_and_created_at_immutable (L := working_libraries) sample_requests sample_db 0
              (stored record_a) H1) as (doc' & Hn & Hi & Hc & _).
  exists doc'. split; [exact Hn|]. rewrite Hi, Hc. split; vm_compute; reflexivity.
Defined.

Lemma fields_never_cleared_witness :
  nth_error sample_db 0 = Some (stored record_a) /\
  dict_get "next_renewal_date" (stored record_a) = Some (midnight (mkdate 2025 1 1)) /\
  exists doc' v',
    nth_error (run (L := working_libraries) sample_requests sample_db) 0 = Some doc' /\
    dict_get "next_renewal_date" doc' = Some v' /\
    v' <> VNone.
Proof.
  assert (H1 : nth_error sample_db 0 = Some (stored record_a)) by reflexivity.
  assert (H2 : dict_get "next_renewal_date" (stored record_a)
               = Some (midnight (mkdate 2025 1 1))) by (vm_compute; reflexivity).
  split; [exact H1|]. split; [exact H2|].
  apply (fields_never_cleared (L := working_libraries) sample_requests sample_db 0
           (stored record_a) "next_renewal_date" _ H1 H2).
  discriminate.
Defined.

Lemma sample_ids_distinct : NoDup (ids sample_db).
Proof.
  vm_compute. repeat (constructor; [cbn [In]; intuition discriminate|]). constructor.
Qed.

Lemma ids_stay_distinct_witness :
  NoDup (ids sample_db) /\
  draws_new_ids (L := working_libraries) sample_requests sample_db /\
  NoDup (ids (run (L := working_libraries) sample_requests sample_db)).
Proof.
  assert (H2 : draws_new_ids (L := working_libraries) sample_requests sample_db).
  { cbn [draws_new_ids sample_requests]. split; [exact I|]. split; [exact I|].
    split; [|exact I].
    intros d Hin Hid. vm_compute in Hin.
    destruct Hin as [<-|[<-|[<-|[]]]]; vm_compute in Hid; discriminate. }
  split; [exact sample_ids_distinct|]. split; [exact H2|].
  exact (ids_stay_distinct sample_requests sample_db sample_ids_distinct H2).
Defined.

Lemma sample_id_new : forall d, In d sample_db -> ~ has_id (uuid4 sample_fresh) d.
Proof.
  intros d Hin Hid.
  unfold sample_db, sample_records in Hin. cbn [map In] in Hin.
  destruct Hin as [<-|[<-|[<-|[]]]]; vm_compute in Hid; discriminate.
Qed.

Lemma create_then_get_returns_record_witness :
  (forall d, In d sample_db -> ~ has_id (uuid4 sample_fresh) d) /\
  exists doc created read,
    create_service sample_fresh sample_create sample_db = (sample_db ++ [doc], Ok created) /\
    id created = "id-new" /\
    name created = "Test" /\
    creation_date created = sc_creation_date sample_create /\
    get_service sample_fresh "id-new" (sample_db ++ [doc]) = Ok read /\
    name read = "Test" /\
    creation_date read = sc_creation_date sample_create.
Proof.
  split; [exact sample_id_new|].
  destruct (create_then_get_returns_record sample_fresh sample_fresh sample_create
              sample_db sample_id_new)
    as (doc & created & read & Hc & Hi & _ & Hn & _ & _ & Hcd & _ & _ & _ & _ & _ & _
        & Hg & _ & Hrn & _ & _ & Hrcd & _).
  exists doc, created, read. split; [exact Hc|]. split; [exact Hi|].
  split; [exact Hn|]. split; [exact Hcd|]. split; [exact Hg|].
  split; [exact Hrn | exact Hrcd].
Defined.

Lemma update_service_returns_updated_record_witness :
  (forall d, In d [stored record_b] -> ~ has_id (id record_a) d) /\
  is_deleted record_a = false /\
  exists r,
    update_service sample_fresh later_time "a" sample_update
      [stored record_b; stored record_a; stored record_c]
    = ([stored record_b; stored r; stored record_c], Ok r) /\
    annual_fee r = 150%Z /\
    name r = "Service a".
Proof.
  assert (H1 : forall d, In d [stored record_b] -> ~ has_id (id record_a) d).
  { intros d [<-|[]] H. vm_compute in H. discriminate. }
  split; [exact H1|]. split; [reflexivity|].
  destruct (update_service_returns_updated_record sample_fresh later_time sample_update
              [stored record_b] record_a [stored record_c] H1 eq_refl)
    as (r & Hu & Hs).
  exists r. split; [exact Hu|].
  destruct Hs as (_ & Hn & _ & _ & _ & _ & _ & Hf & _).
  rewrite Hf, Hn. split; reflexivity.
Defined.

Lemma update_service_reads_back_by_id_alone_witness :
  id record_a_old = id record_a /\
  is_deleted record_a_old = true /\
  is_deleted record_a = false /\
  update_service sample_fresh later_time "a" sample_update
    [stored record_a_old; stored record_a]
  = ([stored record_a_old; stored (Service_updated sample_update later_time record_a)],
     Ok record_a_old).
Proof.
  split; [reflexivity|]. split; [reflexivity|]. split; [reflexivity|].
  apply (update_service_reads_back_by_id_alone sample_fresh later_time sample_update
           [] record_a_old [] record_a []).
  - intros d [].
  - intros d [].
  - reflexivity.
  - reflexivity.
  - reflexivity.
Defined.

Lemma delete_then_gone_witness :
  wf_db sample_db /\
  has_id "a" (stored record_a) /\
  live (stored record_a) /\
  exists db',
    delete_service later_time "a" sample_db = (db', Ok "Service deleted successfully") /\
    get_service sample_fresh "a" db' = Raise (HTTPException 404 "Service not found") /\
    delete_service later_time "a" db'
    = (db', Raise (HTTPException 404 "Service not found")).
Proof.
  assert (Hid : has_id "a" (stored record_a)) by (vm_compute; reflexivity).
  assert (Hlive : live (stored record_a)) by (vm_compute; reflexivity).
  split; [exact sample_db_wf|]. split; [exact Hid|]. split; [exact Hlive|].
  destruct (delete_then_gone sample_fresh (fun _ => sample_fresh) later_time later_time
              "a" sample_update [] (stored record_a)
              [stored record_b; stored record_c])
    as (db' & Hd & _ & Hg & _ & Hd2 & _).
  - exact sample_db_wf.
  - intros d Hin [H1 H2]. cbn [app In] in Hin.
    destruct Hin as [<-|[<-|[]]].
    + vm_compute in H1. discriminate.
    + vm_compute in H2. discriminate.
  - exact Hid.
  - exact Hlive.
  - exists db'. split; [exact Hd|]. split; [exact Hg | exact Hd2].
Defined.

Lemma dashboard_counts_follow_requests_witness :
  (exists doc, In doc sample_db /\ has_id "a" doc /\ live doc) /\
  exists st st',
    get_dashboard_stats (F := whole_amounts) sample_db = Ok st /\
    get_dashboard_stats (fst (delete_service later_time "a" sample_db)) = Ok st' /\
    total_services st = 2 /\
    total_services st' = 1.
Proof.
  assert (Hsome : exists doc, In doc sample_db /\ has_id "a" doc /\ live doc).
  { exists (stored record_a). split; [left; reflexivity|].
    split; vm_compute; reflexivity. }
  split; [exact Hsome|].
  destruct (proj1 (proj2 (dashboard_counts_follow_requests sample_db)) later_time "a" Hsome)
    as (st & st' & Hst & Hst' & Ht).
  exists st, st'. split; [exact Hst|]. split; [exact Hst'|].
  assert (H2 : total_services st = 2).
  { assert (E : get_dashboard_stats (F := whole_amounts) sample_db
                = Ok (mkDashboardStats 2 1 (VFloat (F := whole_amounts) 100%Z)
                        [type_group "Domain" 1])) by (vm_compute; reflexivity).
    rewrite E in Hst. inversion Hst. reflexivity. }
  split; [exact H2|]. lia.
Defined.

Lemma type_counts_add_up_witness :
  wf_db sample_db /\
  exists st,
    get_dashboard_stats (F := whole_amounts) sample_db = Ok st /\
    Zsum (map group_count (services_by_type st)) = Z.of_nat (active_services st).
Proof.
  split; [exact sample_db_wf|].
  destruct (type_counts_add_up sample_db sample_db_wf) as (st & Hst & _ & Heq).
  exists st. split; [exact Hst|].
  apply Heq. vm_compute. repeat constructor.
Defined.

Lemma excel_export_of_stored_records_witness :
  write_excel (Libraries := working_libraries) "Hizmetler"
    (map (excel_row_of (L := working_libraries)) (exported sample_records)) = Ok "xlsx:Hizmetler:2" /\
  export_services_excel (L := working_libraries) sample_db
  = Ok (mkStreamingResponse "xlsx:Hizmetler:2"
          "application/vnd.openxmlformats-officedocument.spreadsheetml.sheet"
          "attachment; filename=hizmetler.xlsx").
Proof.
  assert (H : write_excel (Libraries := working_libraries) "Hizmetler"
                (map (excel_row_of (L := working_libraries)) (exported sample_records)) = Ok "xlsx:Hizmetler:2")
    by (vm_compute; reflexivity).
  split; [exact H|].
  exact (proj1 (excel_export_of_stored_records (L := working_libraries) sample_records)
           _ H).
Defined.

Lemma pdf_export_of_stored_records_witness :
  build_pdf (Libraries := failing_libraries)
    [ Paragraph "Hizmet Listesi"; Spacer 1 20;
      Table (pdf_header :: map (pdf_row_of (L := failing_libraries))
                               (exported sample_records)) ]
  = Raise (LibraryError "No space left on device") /\
  export_services_pdf (L := failing_libraries) sample_db
  = Raise (HTTPException 500 "PDF export failed: No space left on device").
Proof.
  assert (H : build_pdf (Libraries := failing_libraries)
                [ Paragraph "Hizmet Listesi"; Spacer 1 20;
                  Table (pdf_header :: map (pdf_row_of (L := failing_libraries))
                                           (exported sample_records)) ]
              = Raise (LibraryError "No space left on device")) by reflexivity.
  split; [exact H|].
  exact (proj2 (pdf_export_of_stored_records (L := failing_libraries) sample_records)
           _ H).
Defined.

Lemma exports_fail_on_text_date_witness :
  to_list 1000 (filter liveb [stored record_a; text_date_doc; stored record_c])
  = map stored [record_a] ++ text_date_doc :: [] /\
  "soon" <> "" /\
  export_services_pdf (L := working_libraries)
    [stored record_a; text_date_doc; stored record_c]
  = Raise (HTTPException 500
             "PDF export failed: 'str' object has no attribute 'strftime'").
Proof.
  assert (H : to_list 1000 (filter liveb [stored record_a; text_date_doc; stored record_c])
              = map stored [record_a] ++ text_date_doc :: [])
    by (vm_compute; reflexivity).
  split; [exact H|]. split; [discriminate|].
  apply (exports_fail_on_text_date (L := working_libraries) _ [record_a] record_b "soon" []).
  - exact H.
  - discriminate.
Defined.

Lemma main_counts_witness :
  main (N := canned_network) "101500" "101501" 0
  = Ok (10, mkTester (JStr "authenticated") 10 7 (JStr "id-new"), 1) /\
  tests_run (mkTester (F := whole_amounts) (JStr "authenticated") 10 7 (JStr "id-new")) = 10.
Proof.
  assert (H : main (N := canned_network) "101500" "101501" 0
              = Ok (10, mkTester (JStr "authenticated") 10 7 (JStr "id-new"), 1))
    by (vm_compute; reflexivity).
  split; [exact H|].
  exact (proj1 (main_counts (N := canned_network) _ _ _ _ _ _ H)).
Defined.

Lemma main_returns_on_api_answers_witness :
  (forall (w0 : @world _ canned_network) (rq : http_request) (r : http_response) (j : json),
      snd (send w0 rq) = Some r -> rs_json r = Some j -> api_body j = true) /\
  exists w' t code, main (N := canned_network) "101500" "101501" 0 = Ok (w', t, code).
Proof.
  assert (H : forall (w0 : @world _ canned_network) (rq : http_request)
                     (r : http_response) (j : json),
             snd (send w0 rq) = Some r -> rs_json r = Some j -> api_body j = true).
  { intros w0 rq r j Hr Hj. cbn [send canned_network snd] in Hr.
    inversion Hr; subst. cbn [rs_json] in Hj. inversion Hj; subst. reflexivity. }
  split; [exact H|].
  exact (main_returns_on_api_answers (N := canned_network) "101500" "101501" 0 H).
Defined.

